(** * Link collection and classification pipeline: a shallow embedding

    The development follows the Python sources file by file.

    Definitions:
    - [PyStr]     : the fragment of Python's [str] and [re] modules the
                    sources use, over 8-bit (ASCII) strings;
    - [Telethon]  : the messages, buttons, reply summaries and files the
                    protocol client hands over;
    - [LinkUtils] : [link_utils.py], the extraction and classification policy;
    - [Database]  : [database.py], [save_link] over a model of the sqlite
                    [links] table with its UNIQUE constraint on [url], in a
                    state-and-exception monad with injected failures;
    - [FileExtractors] : [file_extractors.py], the document dedup cache and
                    [extract_links_from_file];
    - [Collector] : [collector.py], the coordinator, the per-message
                    pipeline and both comment extractors;
    - [DatabaseRuns], [CacheRuns], [FileRuns], [Scenarios] : sequences of
                    operations and the concrete inputs the theorems use;
    - [PolicyPredicates] : the markers and link shapes the policy is
                    described with;
    - [DatabaseQueries] : [get_links_by_platform_and_type],
                    [get_links_by_telegram_type], [optimize_database] and
                    [clean_database] of [database.py], and the constraints
                    of the schema;
    - [FileStatistics] : [get_file_processing_stats] of
                    [file_extractors.py];
    - [PipelineInvariants] : what the pipeline keeps true of the store.

    Theorems: [PyStrFacts], [LinkUtilsFacts], [DatabaseFacts], [CacheFacts],
    [FileExtractorFacts], [CollectorFacts], [PolicyFacts], [ExtractorFacts],
    [StoreFacts], [FileFacts], [PipelineFacts].

    Python strings are modelled as [string] (sequences of 8-bit characters);
    case mapping and character classes are those of the ASCII range.
    Instants (timestamps) are integers, in seconds; a [datetime] is an
    instant together with whether it carries a time zone. *)

From Stdlib Require Import String Ascii List Bool Arith ZArith Lia.
From Stdlib Require Import Numbers.DecimalString.
From Stdlib Require Import Sorting.Sorted Sorting.Permutation.
Import ListNotations.

Local Open Scope string_scope.
Local Open Scope list_scope.

(* ====================================================================== *)
(** * Python [str] and [re] primitives *)
(* ====================================================================== *)

Module PyStr.

(** ** Character classes *)

Definition code (c : ascii) : nat := nat_of_ascii c.

Definition between (lo hi : nat) (c : ascii) : bool :=
  (lo <=? code c)%nat && (code c <=? hi)%nat.

Definition is_upper (c : ascii) : bool := between 65 90 c.
Definition is_lower (c : ascii) : bool := between 97 122 c.
Definition is_digit (c : ascii) : bool := between 48 57 c.
Definition is_alpha (c : ascii) : bool := is_upper c || is_lower c.
Definition is_alnum (c : ascii) : bool := is_alpha c || is_digit c.

(** [str.isspace] on the ASCII range: TAB..CR, FS..US and the blank. *)
Definition is_space (c : ascii) : bool :=
  between 9 13 c || between 28 32 c.

Definition lower_char (c : ascii) : ascii :=
  if is_upper c then ascii_of_nat (code c + 32) else c.

(** ** [str] methods *)

(** [s.lower()] *)
Fixpoint lower (s : string) : string :=
  match s with
  | EmptyString => EmptyString
  | String c s' => String (lower_char c) (lower s')
  end.

Fixpoint all_chars (p : ascii -> bool) (s : string) : bool :=
  match s with
  | EmptyString => true
  | String c s' => p c && all_chars p s'
  end.

Definition is_empty (s : string) : bool :=
  match s with EmptyString => true | _ => false end.

(** [s.isdigit()] and [s.isalnum()]: false on the empty string. *)
Definition isdigit (s : string) : bool := negb (is_empty s) && all_chars is_digit s.
Definition isalnum (s : string) : bool := negb (is_empty s) && all_chars is_alnum s.

(** [s.startswith(p)] *)
Fixpoint startswith (p s : string) : bool :=
  match p, s with
  | EmptyString, _ => true
  | String a p', String b s' => Ascii.eqb a b && startswith p' s'
  | String _ _, EmptyString => false
  end.

(** [sub in s] *)
Fixpoint contains (sub s : string) : bool :=
  startswith sub s ||
  match s with
  | EmptyString => false
  | String _ s' => contains sub s'
  end.

(** [s.replace(c, '')] for a one-character [c]. *)
Fixpoint remove_char (c : ascii) (s : string) : string :=
  match s with
  | EmptyString => EmptyString
  | String a s' => if Ascii.eqb a c then remove_char c s'
                   else String a (remove_char c s')
  end.

Fixpoint lstrip (s : string) : string :=
  match s with
  | EmptyString => EmptyString
  | String c s' => if is_space c then lstrip s' else s
  end.

Fixpoint rev_string (s acc : string) : string :=
  match s with
  | EmptyString => acc
  | String c s' => rev_string s' (String c acc)
  end.

Definition rstrip (s : string) : string :=
  rev_string (lstrip (rev_string s "")) "".

(** [s.strip()] *)
Definition strip (s : string) : string := rstrip (lstrip s).

(** [s.split(sep)] for a non-empty separator: left-to-right,
    non-overlapping.  [skip] counts the characters of a separator
    occurrence still to be dropped; [cur] is the current piece, reversed. *)
Fixpoint split_go (sep : string) (s : string) (skip : nat) (cur : string)
  : list string :=
  match s with
  | EmptyString => [rev_string cur ""]
  | String c s' =>
      match skip with
      | S k => split_go sep s' k cur
      | O =>
          if startswith sep s
          then rev_string cur "" :: split_go sep s' (String.length sep - 1) ""
          else split_go sep s' 0 (String c cur)
      end
  end.

Definition split (sep s : string) : list string := split_go sep s 0 "".

(** [s.replace(old, '')] for a non-empty [old]: the pieces of
    [s.split(old)] joined by the empty string. *)
Definition remove_sub (old s : string) : string :=
  fold_right String.append "" (split old s).

(** ** A backtracking matcher for the regular expressions of the sources.

    All patterns are compiled with [re.IGNORECASE]; repetition only occurs
    over character classes.  [rmatch r s k] tries the alternatives in the
    priority order of Python's engine (greedy first) and returns the
    result of the first continuation that succeeds. *)

Inductive re : Type :=
| Lit (c : ascii)              (* a literal character *)
| Cls (p : ascii -> bool)      (* a character class *)
| Cat (r1 r2 : re)
| Opt (r : re)                 (* r? *)
| Plus (p : ascii -> bool)     (* [class]+ *)
| NotAhead (r : re).           (* (?!r) *)

Fixpoint plus_match {A} (p : ascii -> bool) (s : string)
         (k : string -> option A) : option A :=
  match s with
  | EmptyString => None
  | String c s' =>
      if p c then
        match plus_match p s' k with
        | Some x => Some x
        | None => k s'
        end
      else None
  end.

Fixpoint rmatch {A} (r : re) (s : string) (k : string -> option A)
  : option A :=
  match r with
  | Lit c =>
      match s with
      | String d s' =>
          if Ascii.eqb (lower_char c) (lower_char d) then k s' else None
      | EmptyString => None
      end
  | Cls p =>
      match s with
      | String d s' => if p d then k s' else None
      | EmptyString => None
      end
  | Cat r1 r2 => rmatch r1 s (fun s' => rmatch r2 s' k)
  | Opt r1 =>
      match rmatch r1 s k with
      | Some x => Some x
      | None => k s
      end
  | Plus p => plus_match p s k
  | NotAhead r1 =>
      match rmatch r1 s (fun _ => Some tt) with
      | Some _ => None
      | None => k s
      end
  end.

(** A literal string as a pattern. *)
Fixpoint lit (s : string) : re :=
  match s with
  | EmptyString => NotAhead (NotAhead (Opt (Lit "a")))  (* matches empty *)
  | String c EmptyString => Lit c
  | String c s' => Cat (Lit c) (lit s')
  end.

(** [pattern.match(s)]: the text left after the match, if any. *)
Definition re_match (r : re) (s : string) : option string :=
  rmatch r s (fun rest => Some rest).

Definition matches (r : re) (s : string) : bool :=
  match re_match r s with Some _ => true | None => false end.

(** [pattern.search(s)]: a match at some position. *)
Fixpoint search (r : re) (s : string) : bool :=
  matches r s ||
  match s with
  | EmptyString => false
  | String _ s' => search r s'
  end.

Fixpoint take (n : nat) (s : string) : string :=
  match n, s with
  | S k, String c s' => String c (take k s')
  | _, _ => EmptyString
  end.

Fixpoint drop (n : nat) (s : string) : string :=
  match n, s with
  | S k, String _ s' => drop k s'
  | _, _ => s
  end.

(** [pattern.findall(s)] for a pattern with one group around the whole
    expression that never matches the empty string: scan left to right,
    resume after each match. *)
Fixpoint findall_go (r : re) (fuel : nat) (s : string) : list string :=
  match fuel with
  | O => []
  | S fuel' =>
      match s with
      | EmptyString => []
      | String _ s' =>
          match re_match r s with
          | Some rest =>
              let n := String.length s - String.length rest in
              take n s :: findall_go r fuel' (drop (Nat.max 1 n) s)
          | None => findall_go r fuel' s'
          end
      end
  end.

Definition findall (r : re) (s : string) : list string :=
  findall_go r (String.length s) s.

(** Insertion into a Python [set], kept as a duplicate-free list in
    order of first insertion (the iteration order of a real set is
    unspecified; nothing below depends on it). *)
Definition mem (x : string) (l : list string) : bool :=
  existsb (String.eqb x) l.

Definition set_add (l : list string) (x : string) : list string :=
  if mem x l then l else l ++ [x].

End PyStr.

(* ====================================================================== *)
(** * The protocol client's data, as the sources read it *)
(* ====================================================================== *)

Module Telethon.

(** A button of an inline keyboard; [button_url = None] when the button has
    no [url] attribute or the attribute is [None]. *)
Record Button : Type := mkButton { button_url : option string }.

(** [message.replies] (a [MessageReplies] object).  [comments_peer] is
    what the capped comment extractor reads under that name: [None] when
    the value is falsy, and also when the object has no such attribute,
    where the access raises inside the extractor's [try] before any link
    is found and the extractor returns the empty list all the same. *)
Record MessageReplies : Type := mkReplies {
  comments : bool;
  replies_count : Z;               (* the [replies] field *)
  comments_peer : option Z
}.

(** [message.file] *)
Record File : Type := mkFile {
  file_id : string;                (* [file.id], already rendered *)
  file_size : Z;
  file_name : option string;
  file_mime_type : option string
}.

(** A [datetime]: the instant, in seconds since the epoch, and whether
    the object carries a time zone (an aware datetime) or not (a naive
    one).  Python refuses to order an aware and a naive datetime. *)
Record datetime : Type := mkDatetime {
  instant : Z;
  aware : bool
}.

(** An aware datetime in UTC, which is what the protocol client puts in
    [message.date]. *)
Definition utc (t : Z) : datetime := mkDatetime t true.

(** A naive datetime, such as [datetime.now()] returns. *)
Definition naive (t : Z) : datetime := mkDatetime t false.

Record Message : Type := mkMessage {
  msg_id : Z;
  chat_id : Z;
  text : option string;            (* the [text] property *)
  raw_message : option string;     (* the [message] field *)
  date : datetime;
  reply_markup : option (list (list Button));   (* rows of buttons *)
  replies : option MessageReplies;
  file : option File
}.

(** Python's [x or y] on optional strings: the first truthy operand. *)
Definition truthy (o : option string) : bool :=
  match o with
  | Some s => negb (PyStr.is_empty s)
  | None => false
  end.

Definition or_else (o : option string) (d : string) : string :=
  match o with
  | Some s => if PyStr.is_empty s then d else s
  | None => d
  end.

End Telethon.

(* ====================================================================== *)
(** * link_utils.py *)
(* ====================================================================== *)

Module LinkUtils.
Import PyStr Telethon.

Definition https_prefix (rest : re) : re :=
  Cat (lit "http") (Cat (Opt (Lit "s")) rest).

(** The class of [URL_REGEX]: anything but whitespace, [<], [>] and the
    double quote (character 34). *)
Definition url_char (c : ascii) : bool :=
  negb (is_space c || (code c =? 60)%nat || (code c =? 62)%nat
        || (code c =? 34)%nat).

(** [[A-Za-z0-9_-]] *)
Definition tg_char (c : ascii) : bool :=
  is_alnum c || (code c =? 95)%nat || (code c =? 45)%nat.

(** [URL_REGEX]: [https?://] followed by one or more [url_char]. *)
Definition URL_REGEX : re := https_prefix (Cat (lit "://") (Plus url_char)).

(** [TG_PLUS_INVITE_REGEX = https?://t\.me/\+[A-Za-z0-9_-]+] *)
Definition TG_PLUS_INVITE_REGEX : re :=
  https_prefix (Cat (lit "://t.me/+") (Plus tg_char)).

(** [TG_WITHOUT_PLUS_REGEX = https?://t\.me/[A-Za-z0-9_-]+(?!/)] *)
Definition TG_WITHOUT_PLUS_REGEX : re :=
  https_prefix (Cat (lit "://t.me/") (Cat (Plus tg_char) (NotAhead (Lit "/")))).

Definition TG_REJECTED_PATTERNS : list re :=
  [lit "/bot/"; lit "t.me/bot"; lit "/invite/"; lit "t.me/invite"].

(** [WA_GROUP_REGEX = https?://chat\.whatsapp\.com/[A-Za-z0-9]+] *)
Definition WA_GROUP_REGEX : re :=
  https_prefix (Cat (lit "://chat.whatsapp.com/") (Plus is_alnum)).

(** [WA_PHONE_REGEX = https?://wa\.me/\d+] *)
Definition WA_PHONE_REGEX : re :=
  https_prefix (Cat (lit "://wa.me/") (Plus is_digit)).

Definition is_valid_link_for_extraction (link : string) : bool :=
  if is_empty link then false
  else
    let link_lower := lower link in
    if existsb (fun pattern => search pattern link_lower) TG_REJECTED_PATTERNS
    then false
    else if contains "t.me" link_lower || contains "telegram.me" link_lower
    then true
    else if contains "whatsapp.com" link_lower || contains "wa.me" link_lower
    then true
    else false.

(** The loop shared by the text extractor and the document scanners:
    every match of [URL_REGEX] that passes the pre-filter is added,
    stripped, to the set. *)
Definition add_links_of_text (links : list string) (txt : string)
  : list string :=
  fold_left
    (fun acc link =>
       if is_valid_link_for_extraction link then set_add acc (strip link)
       else acc)
    (findall URL_REGEX txt) links.

Definition extract_links_from_message (message : Message) : list string :=
  let txt := or_else (text message) (or_else (raw_message message) "") in
  if is_empty txt then [] else add_links_of_text [] txt.

Definition extract_buttons_links (message : Message) : list string :=
  match reply_markup message with
  | None => []
  | Some rows =>
      fold_left
        (fun acc row =>
           fold_left
             (fun acc button =>
                match button_url button with
                | Some link =>
                    if is_empty link then acc
                    else if is_valid_link_for_extraction link
                    then set_add acc (strip link)
                    else acc
                | None => acc
                end)
             row acc)
        rows []
  end.

Definition classify_platform (url : string) : string :=
  let url_lower := lower url in
  if contains "t.me" url_lower || contains "telegram.me" url_lower
  then "telegram"
  else if contains "whatsapp.com" url_lower || contains "wa.me" url_lower
  then "whatsapp"
  else "other".

Definition classify_telegram_link (url : string) : string * string :=
  let url_lower := lower url in
  if matches TG_PLUS_INVITE_REGEX url then ("invite_with_plus", "group")
  else if matches TG_WITHOUT_PLUS_REGEX url then
    ("invite_without_plus",
     if existsb (fun pattern => contains pattern url_lower) ["c/"; "channel/"]
     then "channel" else "group")
  else ("unknown", "unknown").

Definition classify_whatsapp_link (url : string) : string :=
  if matches WA_GROUP_REGEX url then "group"
  else if matches WA_PHONE_REGEX url then "private"
  else "unknown".

Definition is_valid_telegram_link (link : string) : bool :=
  let link_lower := strip (lower link) in
  if existsb (fun pattern => search pattern link_lower) TG_REJECTED_PATTERNS
  then false
  else if negb (contains "t.me/" link_lower) then false
  else
    match split "t.me/" link_lower with
    | _ :: part1 :: _ =>
        let path_part := hd "" (split "?" part1) in
        let path_segments := split "/" path_part in
        let first_segment := hd "" path_segments in
        if (1 <? List.length path_segments)%nat then false
        else if startswith "+" first_segment
                && (String.length first_segment <=? 12)%nat
                && (let remaining := drop 1 first_segment in
                    isdigit remaining
                    && (7 <=? String.length remaining)%nat
                    && (String.length remaining <=? 12)%nat)
        then false
        else if startswith "+" first_segment then
          let remaining := drop 1 first_segment in
          isalnum (remove_char "-" (remove_char "_" remaining))
        else
          isalnum (remove_char "-" (remove_char "_" first_segment))
    | _ => false
    end.

Definition filter_and_classify_link (url : string)
  : option (string * string) :=
  if negb (is_valid_link_for_extraction url) then None
  else if contains "t.me" (lower url) || contains "telegram.me" (lower url)
  then
    if negb (is_valid_telegram_link url) then None
    else
      let '(telegram_type, chat_type) := classify_telegram_link url in
      Some (("telegram_" ++ telegram_type)%string, chat_type)
  else if contains "whatsapp.com" (lower url) || contains "wa.me" (lower url)
  then
    let chat_type := classify_whatsapp_link url in
    if String.eqb chat_type "private" then None
    else if String.eqb chat_type "group" then Some ("whatsapp", "group")
    else None
  else None.

End LinkUtils.

(* ====================================================================== *)
(** * database.py: the [links] table and [save_link] *)
(* ====================================================================== *)

Module Database.
Import PyStr Telethon.

(** ** The store *)

Record LinkRow : Type := mkRow {
  row_id : Z;
  row_url : string;
  row_platform : string;
  row_source_account : string;
  row_chat_type : string;
  row_chat_id : string;
  row_message_date : option Z;
  row_source_type : option string
}.

(** The tables [save_link] touches; [seq] is the AUTOINCREMENT counter.
    The [daily_stats] table, which only [update_daily_stats] writes, is
    not among them: its rewrites are counted in [stats_updates] below. *)
Record Tables : Type := mkTables {
  links : list LinkRow;
  telegram_types : list (Z * string);
  seq : Z
}.

(** What [init_db] leaves behind on a fresh file. *)
Definition init_db : Tables := mkTables [] [] 0.

(** A [sqlite3] connection with its cursor: the transaction's view of the
    tables, discarded on [close] unless committed. *)
Record Conn : Type := mkConn {
  conn_open : bool;
  tx : Tables;
  lastrowid : Z
}.

(** The environment of a call: the committed tables, the failures the
    database layer is going to inject (one flag per primitive operation,
    none once the list is exhausted), and what an observer can count. *)
Record World : Type := mkWorld {
  disk : Tables;
  faults : list bool;
  opened : nat;               (* connections opened so far *)
  error_log : list string;    (* [logger.error] lines *)
  stats_updates : nat         (* runs of [update_daily_stats] *)
}.

(** A running call: the world and the local variable [conn]
    ([None] while unbound). *)
Record Frame : Type := mkFrame {
  world : World;
  conn : option Conn
}.

Inductive exn : Type :=
| IntegrityError | OperationalError | ProgrammingError | NameError
| TypeError | OverflowError.

Inductive result (A : Type) : Type :=
| Ret (a : A)
| Raise (e : exn).
Arguments Ret {A} a.
Arguments Raise {A} e.

(** ** State-and-exception monad *)

Definition M (A : Type) : Type := Frame -> result A * Frame.

Definition ret {A} (a : A) : M A := fun f => (Ret a, f).
Definition raise {A} (e : exn) : M A := fun f => (Raise e, f).
Definition bind {A B} (m : M A) (k : A -> M B) : M B :=
  fun f => match m f with
           | (Ret a, f') => k a f'
           | (Raise e, f') => (Raise e, f')
           end.

Declare Scope db_scope.
Delimit Scope db_scope with db.
Notation "x <- m ;; k" := (bind m (fun x => k))
  (at level 61, m at next level, right associativity) : db_scope.
Notation "m ;; k" := (bind m (fun _ => k))
  (at level 61, right associativity) : db_scope.
Local Open Scope db_scope.

(** [try: body except Exception as e: handler(e)] *)
Definition try_except {A} (body : M A) (handler : exn -> M A) : M A :=
  fun f => match body f with
           | (Ret a, f') => (Ret a, f')
           | (Raise e, f') => handler e f'
           end.

(** [try: body finally: fin] *)
Definition try_finally {A} (body : M A) (fin : M unit) : M A :=
  fun f => match body f with
           | (r, f') =>
               match fin f' with
               | (Ret _, f'') => (r, f'')
               | (Raise e, f'') => (Raise e, f'')
               end
           end.

Definition get_world : M World := fun f => (Ret (world f), f).
Definition put_world (w : World) : M unit :=
  fun f => (Ret tt, mkFrame w (conn f)).
Definition get_conn : M (option Conn) := fun f => (Ret (conn f), f).
Definition put_conn (c : option Conn) : M unit :=
  fun f => (Ret tt, mkFrame (world f) c).

(** The next injected failure. *)
Definition fault : M bool :=
  w <- get_world ;;
  match faults w with
  | [] => ret false
  | b :: rest =>
      put_world (mkWorld (disk w) rest (opened w) (error_log w)
                         (stats_updates w)) ;;
      ret b
  end.

Definition fail_if_fault : M unit :=
  b <- fault ;; if b then raise OperationalError else ret tt.

(** [logger.error(...)] *)
Definition log_error (line : string) : M unit :=
  w <- get_world ;;
  put_world (mkWorld (disk w) (faults w) (opened w) (line :: error_log w)
                     (stats_updates w)).

(** ** sqlite3 primitives *)

(** [sqlite3.connect(...)] followed by the PRAGMAs of [get_connection]:
    either step may fail; when a PRAGMA fails the connection has been
    opened but is not returned. *)
Definition get_connection : M Conn :=
  fail_if_fault ;;
  w <- get_world ;;
  put_world (mkWorld (disk w) (faults w) (S (opened w)) (error_log w)
                     (stats_updates w)) ;;
  fail_if_fault ;;
  ret (mkConn true (disk w) 0).

(** Any statement on a cursor: the bound connection must be open. *)
Definition with_open_conn {A} (k : Conn -> M A) : M A :=
  c <- get_conn ;;
  match c with
  | None => raise NameError
  | Some c => if conn_open c then fail_if_fault ;; k c
              else raise ProgrammingError
  end.

(** [SELECT id FROM links WHERE url = ?] then [fetchone()]. *)
Definition select_id_by_url (url : string) : M (option Z) :=
  with_open_conn (fun c =>
    ret (option_map row_id
           (find (fun r => String.eqb (row_url r) url) (links (tx c))))).

(** [INSERT OR IGNORE INTO links ...]: a row whose [url] is already in the
    table violates the UNIQUE constraint and is ignored. *)
Definition insert_or_ignore_link
           (url platform source_account chat_type chat_id : string)
           (message_date : option Z) (source_type : option string) : M unit :=
  with_open_conn (fun c =>
    let t := tx c in
    if existsb (fun r => String.eqb (row_url r) url) (links t)
    then ret tt
    else
      let id := (seq t + 1)%Z in
      let row := mkRow id url platform source_account chat_type chat_id
                       message_date source_type in
      put_conn (Some (mkConn true
                        (mkTables (links t ++ [row]) (telegram_types t) id)
                        id))).

(** [INSERT INTO telegram_types ...] with [PRAGMA foreign_keys = ON]. *)
Definition insert_telegram_type (link_id : Z) (telegram_type : string)
  : M unit :=
  with_open_conn (fun c =>
    let t := tx c in
    if existsb (fun r => Z.eqb (row_id r) link_id) (links t)
    then put_conn (Some (mkConn true
                           (mkTables (links t)
                                     (telegram_types t ++ [(link_id, telegram_type)])
                                     (seq t))
                           (lastrowid c)))
    else raise IntegrityError).

(** [cur.lastrowid] *)
Definition cur_lastrowid : M Z :=
  c <- get_conn ;;
  match c with
  | None => raise NameError
  | Some c => ret (lastrowid c)
  end.

(** [conn.commit()] *)
Definition commit : M unit :=
  with_open_conn (fun c =>
    w <- get_world ;;
    put_world (mkWorld (tx c) (faults w) (opened w) (error_log w)
                       (stats_updates w))).

(** [conn.close()]: pending changes are dropped; closing a closed
    connection does nothing. *)
Definition close : M unit :=
  c <- get_conn ;;
  match c with
  | None => raise NameError
  | Some c =>
      if conn_open c then
        fail_if_fault ;;
        put_conn (Some (mkConn false (tx c) (lastrowid c)))
      else ret tt
  end.

(** [SELECT COUNT( * ) FROM links] then [fetchone()[0]]. *)
Definition count_links : M Z :=
  with_open_conn (fun c => ret (Z.of_nat (List.length (links (tx c))))).

(** [update_daily_stats()]: opens a connection of its own, rewrites one
    row of [daily_stats], swallows every exception. *)
Definition update_daily_stats : M unit :=
  w <- get_world ;;
  put_world (mkWorld (disk w) (faults w) (S (opened w)) (error_log w)
                     (S (stats_updates w))).

(** ** [save_link] *)

Definition save_link_body
           (url platform source_account chat_type chat_id : string)
           (message_date : option Z) (source_type : option string) : M unit :=
  try_finally
    (try_except
       (c <- get_connection ;;
        put_conn (Some c) ;;
        existing <- select_id_by_url url ;;
        match existing with
        | Some _ => close
        | None =>
            insert_or_ignore_link url platform source_account chat_type
                                  chat_id message_date source_type ;;
            (if startswith "telegram_" platform then
               link_id <- cur_lastrowid ;;
               insert_telegram_type link_id (remove_sub "telegram_" platform)
             else ret tt) ;;
            commit ;;
            close ;;
            total_count <- count_links ;;
            if (total_count mod 100 =? 0)%Z then update_daily_stats
            else ret tt
        end)
       (fun e => match e with
                 | IntegrityError => ret tt
                 | _ => log_error "Failed to save link"
                 end))
    (try_except close (fun _ => ret tt)).

(** A call of [save_link]: [url] is [None] or a string; the call runs in
    a fresh frame and leaves the world behind. *)
Definition save_link (url : option string)
           (platform source_account chat_type chat_id : string)
           (message_date : option Z) (source_type : option string)
           (w : World) : result unit * World :=
  if negb (truthy url) then (Ret tt, w)
  else
    match save_link_body (or_else url "") platform source_account chat_type
                         chat_id message_date source_type (mkFrame w None) with
    | (r, f) => (r, world f)
    end.

Definition urls (t : Tables) : list string := map row_url (links t).

(** Rows stored for [url]. *)
Definition rows_for (url : string) (t : Tables) : nat :=
  List.length (filter (fun r => String.eqb (row_url r) url) (links t)).

End Database.

(* ====================================================================== *)
(** * file_extractors.py: the document dedup cache and the file extractor *)
(* ====================================================================== *)

Module FileExtractors.
Import PyStr Telethon LinkUtils.

(** ** The cache: a Python [dict], in insertion order *)

Record CacheEntry : Type := mkEntry {
  hash : string;
  timestamp : Z;
  links_found : nat
}.

Definition Cache : Type := list (string * CacheEntry).

Definition MAX_CACHE_SIZE : nat := 1000.

Definition keys (c : Cache) : list string := map fst c.

(** [k in d] *)
Definition dict_mem (k : string) (c : Cache) : bool :=
  existsb (fun kv => String.eqb (fst kv) k) c.

(** [d[k]] where it is read for its timestamp:
    [d[k].get('timestamp', 0)]. *)
Fixpoint timestamp_of (c : Cache) (k : string) : Z :=
  match c with
  | [] => 0%Z
  | (k', e) :: c' => if String.eqb k' k then timestamp e else timestamp_of c' k
  end.

(** [d[k] = e]: an existing key keeps its position. *)
Fixpoint dict_set (k : string) (e : CacheEntry) (c : Cache) : Cache :=
  match c with
  | [] => [(k, e)]
  | (k', e') :: c' =>
      if String.eqb k' k then (k, e) :: c' else (k', e') :: dict_set k e c'
  end.

(** [del d[k]] *)
Definition dict_del (k : string) (c : Cache) : Cache :=
  filter (fun kv => negb (String.eqb (fst kv) k)) c.

(** [sorted(l, key=key)]: stable. *)
Fixpoint insert_by {A} (key : A -> Z) (x : A) (l : list A) : list A :=
  match l with
  | [] => [x]
  | y :: l' => if (key x <=? key y)%Z then x :: l
               else y :: insert_by key x l'
  end.

Fixpoint sorted_by {A} (key : A -> Z) (l : list A) : list A :=
  match l with
  | [] => []
  | x :: l' => insert_by key x (sorted_by key l')
  end.

(** The keys [add_to_processed_cache] evicts:
    [sorted(keys, key=timestamp)[:100]]. *)
Definition oldest_keys (c : Cache) : list string :=
  firstn 100 (sorted_by (timestamp_of c) (keys c)).

(** [add_to_processed_cache]; [now] is the reading of
    [datetime.now().timestamp()]. *)
Definition add_to_processed_cache
           (file_identifier file_hash : string) (found : nat) (now : Z)
           (c : Cache) : Cache :=
  let c1 :=
    if (MAX_CACHE_SIZE <=? List.length c)%nat
    then fold_left (fun d key => dict_del key d) (oldest_keys c) c
    else c in
  dict_set file_identifier (mkEntry file_hash now found) c1.

Definition clear_file_cache (c : Cache) : Cache := [].

Definition is_file_already_processed (file_identifier file_hash : string)
           (c : Cache) : bool :=
  if dict_mem file_identifier c then
    (* both branches of the hash comparison answer True *)
    true
  else false.

(** ** Supported types *)

Definition SUPPORTED_EXTENSIONS : list (string * string) :=
  [ (".pdf", "application/pdf");
    (".docx",
     "application/vnd.openxmlformats-officedocument.wordprocessingml.document");
    (".doc", "application/msword");
    (".txt", "text/plain");
    (".rtf", "application/rtf");
    (".odt", "application/vnd.oasis.opendocument.text") ].

(** [os.path.splitext(p)[1]]: from the last dot of the last path
    component, unless only dots precede it there. *)
Definition splitext_ext (p : string) : string :=
  let base := last (split "/" p) "" in
  let pieces := split "." base in
  if existsb (fun piece => negb (is_empty piece)) (removelast pieces)
  then ("." ++ last pieces "")%string
  else "".

Definition is_file_supported (filename mime_type : string) : bool :=
  if is_empty filename then false
  else
    let ext := splitext_ext (lower filename) in
    if existsb (fun kv => String.eqb (fst kv) ext) SUPPORTED_EXTENSIONS
    then true
    else if negb (is_empty mime_type)
            && existsb (fun kv => contains mime_type (snd kv))
                       SUPPORTED_EXTENSIONS
    then true
    else false.

(** The decimal rendering of an integer in an f-string. *)
Definition str_of_Z (z : Z) : string := NilZero.string_of_int (Z.to_int z).

(** [get_file_identifier] for a message that has a file. *)
Definition get_file_identifier (f : File) : string * string :=
  let identifier := (file_id f ++ "_" ++ str_of_Z (file_size f))%string in
  if truthy (file_name f) then
    let filename := lower (or_else (file_name f) "") in
    ((filename ++ "_" ++ identifier)%string, filename)
  else (identifier, "").

(** ** What lies outside the sources: the download and the parsers *)

Record Env : Type := mkEnv {
  (** [client.download_media]: the bytes written, [None] on failure. *)
  download_media : Message -> option string;
  (** [hashlib.md5(...).hexdigest()] of a file; empty when hashing fails. *)
  get_file_hash : string -> string;
  (** The text PyPDF2 / pdfplumber return, page by page. *)
  pdf_pages : string -> list string;
  (** The paragraph, table-cell and comment texts python-docx returns. *)
  docx_texts : string -> list string;
  (** The standard output of [antiword], when it succeeds. *)
  doc_stdout : string -> option string
}.

Record FileState : Type := mkFileState {
  _processed_files : Cache;
  clock : Z;                   (* [datetime.now().timestamp()] *)
  download_log : list Z        (* ids of the messages downloaded so far *)
}.

Definition MAX_FILE_SIZE : Z := 50 * 1024 * 1024.

(** [download_file_with_progress]: the content on success. *)
Definition download_file_with_progress (env : Env) (message : Message)
           (f : File) (st : FileState) : option string * FileState :=
  if (MAX_FILE_SIZE <? file_size f)%Z then (None, st)
  else
    (download_media env message,
     mkFileState (_processed_files st) (clock st)
                 (msg_id message :: download_log st)).

Definition _extract_from_pdf (env : Env) (content : string) : list string :=
  fold_left add_links_of_text (pdf_pages env content) [].

Definition _extract_from_docx (env : Env) (content : string) : list string :=
  fold_left add_links_of_text (docx_texts env content) [].

Definition _extract_from_txt (content : string) : list string :=
  add_links_of_text [] content.

Definition _extract_from_doc (env : Env) (content : string) : list string :=
  match doc_stdout env content with
  | Some out => add_links_of_text [] out
  | None => []
  end.

Definition extract_links_from_file (env : Env) (message : Message)
           (st : FileState) : list string * FileState :=
  match file message with
  | None => ([], st)
  | Some f =>
      let filename := or_else (file_name f) "file" in
      let mime_type := or_else (file_mime_type f) "" in
      if negb (is_file_supported filename mime_type) then ([], st)
      else
        let '(file_identifier, original_filename) := get_file_identifier f in
        if is_empty file_identifier then ([], st)
        else if is_file_already_processed file_identifier "" (_processed_files st)
        then ([], st)
        else
          match download_file_with_progress env message f st with
          | (None, st1) => ([], st1)
          | (Some content, st1) =>
              let file_hash := get_file_hash env content in
              if negb (is_empty file_hash)
                 && is_file_already_processed file_identifier file_hash
                                              (_processed_files st1)
              then ([], st1)
              else
                let ext := splitext_ext (lower filename) in
                let links :=
                  if String.eqb ext ".pdf"
                     || String.eqb mime_type "application/pdf"
                  then _extract_from_pdf env content
                  else if String.eqb ext ".docx"
                          || String.eqb mime_type
                               "application/vnd.openxmlformats-officedocument.wordprocessingml.document"
                  then _extract_from_docx env content
                  else if String.eqb ext ".doc"
                          || String.eqb mime_type "application/msword"
                  then _extract_from_doc env content
                  else if String.eqb ext ".txt"
                          || String.eqb mime_type "text/plain"
                  then _extract_from_txt content
                  else [] in
                (links,
                 mkFileState
                   (add_to_processed_cache file_identifier file_hash
                      (List.length links) (clock st1) (_processed_files st1))
                   (clock st1) (download_log st1))
          end
  end.

End FileExtractors.

(* ====================================================================== *)
(** * collector.py: coordinator, per-message pipeline, comment extractors *)
(* ====================================================================== *)

Module Collector.
Import PyStr Telethon LinkUtils.
Import Database(result, Ret, Raise, exn, World, save_link).

(** A row of the sessions table, as [get_all_sessions] returns it. *)
Record Session : Type := mkSession {
  session_name : string;
  session_string : string
}.

(** A conversation: its history, oldest first (as
    [iter_messages(entity, reverse=True)] yields it), and whether reading
    it ends with an exception. *)
Record Dialog : Type := mkDialog {
  dialog_name : string;
  history : list Message;
  history_fails : bool
}.

(** What a connected [TelegramClient] answers. *)
Record Client : Type := mkClient {
  dialogs : list Dialog;
  (** the replies to message [reply_to] in [peer], in iteration order *)
  thread : Z -> Z -> list Message;
  file_env : FileExtractors.Env
}.

(** [client.iter_messages(peer, reply_to=..., limit=...)] *)
Definition iter_messages (client : Client) (peer reply_to : Z)
           (limit : option nat) : list Message :=
  match limit with
  | Some n => firstn n (thread client peer reply_to)
  | None => thread client peer reply_to
  end.

(** The module globals of [collector.py], the module state of
    [file_extractors.py], the store, and a count of the replies the
    client has been made to yield. *)
Record State : Type := mkState {
  _clients : list string;
  _collecting : bool;
  _stop_event : bool;
  _processed_files : list string;
  files : FileExtractors.FileState;
  db : World;
  error_log : list string;
  replies_examined : nat
}.

Definition now (st : State) : Z := FileExtractors.clock (files st).

Definition set_db (w : World) (st : State) : State :=
  mkState (_clients st) (_collecting st) (_stop_event st)
          (_processed_files st) (files st) w (error_log st)
          (replies_examined st).

Definition set_files (fs : FileExtractors.FileState) (st : State) : State :=
  mkState (_clients st) (_collecting st) (_stop_event st)
          (_processed_files st) fs (db st) (error_log st)
          (replies_examined st).

Definition set_processed (l : list string) (st : State) : State :=
  mkState (_clients st) (_collecting st) (_stop_event st)
          l (files st) (db st) (error_log st) (replies_examined st).

Definition count_replies (n : nat) (st : State) : State :=
  mkState (_clients st) (_collecting st) (_stop_event st)
          (_processed_files st) (files st) (db st) (error_log st)
          (n + replies_examined st).

Definition log_error (line : string) (st : State) : State :=
  mkState (_clients st) (_collecting st) (_stop_event st)
          (_processed_files st) (files st) (db st) (line :: error_log st)
          (replies_examined st).

(** ** Public API *)

Definition is_collecting (st : State) : bool := _collecting st.

Definition stop_collection (st : State) : State :=
  mkState (_clients st) false true (_processed_files st) (files st) (db st)
          (error_log st) (replies_examined st).

(** [start_collection] up to the point where the workers are gathered:
    the new state and the sessions a worker is spawned for. *)
Definition start_collection (sessions : list Session) (st : State)
  : State * list Session :=
  if _collecting st then (st, [])
  else
    match sessions with
    | [] => (st, [])
    | _ :: _ =>
        (mkState [] true false [] (files st) (db st) (error_log st)
                 (replies_examined st),
         sessions)
    end.

(** ** Filters *)

(** [message_date > cutoff_date], where [cutoff_date] derives from the
    naive [datetime.now()]: the comparison raises [TypeError] when
    [message_date] is aware. *)
Definition is_within_last_60_days (now : Z) (message_date : datetime)
  : result bool :=
  let cutoff_date := naive (now - 60 * 86400) in
  if aware message_date then Raise Database.TypeError
  else Ret (instant cutoff_date <? instant message_date)%Z.

(** The validator local to [collector.py]. *)
Definition is_valid_telegram_link (link : string) : bool :=
  let link := strip (lower link) in
  if contains "t.me/" link then
    if contains "/bot/" link || contains "t.me/bot/" link
       || contains "/invite/" link
    then false
    else
      match split "t.me/" link with
      | _ :: part1 :: _ =>
          let path := hd "" (split "/" (hd "" (split "?" part1))) in
          if startswith "+" path && (1 <? String.length path)%nat then true
          else if isalnum (remove_char "-" (remove_char "_" path)) then true
          else false
      | _ => false
      end
  else false.

(** ** Computations that may raise *)

Definition C (A : Type) : Type := State -> result A * State.

Definition cret {A} (a : A) : C A := fun st => (Ret a, st).
Definition cbind {A B} (m : C A) (k : A -> C B) : C B :=
  fun st => match m st with
            | (Ret a, st') => k a st'
            | (Raise e, st') => (Raise e, st')
            end.

Declare Scope col_scope.
Delimit Scope col_scope with col.
Notation "x <- m ;; k" := (cbind m (fun x => k))
  (at level 61, m at next level, right associativity) : col_scope.
Notation "m ;; k" := (cbind m (fun _ => k))
  (at level 61, right associativity) : col_scope.
Local Open Scope col_scope.

Definition lift (f : State -> State) : C unit := fun st => (Ret tt, f st).

Fixpoint for_each {X} (l : list X) (body : X -> C unit) : C unit :=
  match l with
  | [] => cret tt
  | x :: l' => body x ;; for_each l' body
  end.

(** [try: body except Exception as e: logger.error(...)] *)
Definition try_log (body : C unit) (line : string) : C unit :=
  fun st => match body st with
            | (Ret _, st') => (Ret tt, st')
            | (Raise _, st') => (Ret tt, log_error line st')
            end.

(** The call of [database.save_link] from the pipeline; the date is
    stored as its instant. *)
Definition call_save_link (url platform source_account chat_type chat_id : string)
           (message_date : datetime) (source_type : string) : C unit :=
  fun st =>
    match save_link (Some url) platform source_account chat_type chat_id
                    (Some (instant message_date)) (Some source_type)
                    (db st) with
    | (r, w) => (r, set_db w st)
    end.

(** The body of the loop over links, which [process_links_list] and
    [process_files] both contain. *)
Definition process_link (link : string) (message : Message)
           (account_name : string) (message_date : datetime)
           (source_type : string)
  : C unit :=
  match filter_and_classify_link link with
  | None => cret tt
  | Some (platform, link_chat_type) =>
      if String.eqb platform "whatsapp" then
        fun st =>
          match is_within_last_60_days (now st) message_date with
          | Raise e => (Raise e, st)
          | Ret false => (Ret tt, st)
          | Ret true =>
              call_save_link link platform account_name link_chat_type
                             (FileExtractors.str_of_Z (chat_id message))
                             message_date source_type st
          end
      else if String.eqb platform "telegram" then
        if is_valid_telegram_link link then
          let telegram_type :=
            if startswith "t.me/+" link then "invite_with_plus"
            else "invite_without_plus" in
          call_save_link link ("telegram_" ++ telegram_type)%string
                         account_name link_chat_type
                         (FileExtractors.str_of_Z (chat_id message))
                         message_date source_type
        else cret tt
      else cret tt
  end.

Definition process_links_list (links : list string) (message : Message)
           (account_name source_type : string) : C unit :=
  for_each links
    (fun link => process_link link message account_name (date message)
                              source_type).

(** ** Comment extractors *)

(** [extract_comment_links], defined in [collector.py] and called by
    [process_message]. *)
Definition extract_comment_links (client : Client) (message : Message)
           (account_name : string) : C (list string) :=
  match replies message with
  | Some r =>
      if comments r && (0 <? replies_count r)%Z then
        let yielded :=
          iter_messages client (chat_id message) (msg_id message) None in
        lift (count_replies (List.length yielded)) ;;
        cret (flat_map extract_links_from_message yielded)
      else cret []
  | None => cret []
  end.

Definition has_sub_replies (reply : Message) : bool :=
  match replies reply with
  | Some r => (0 <? replies_count r)%Z
  | None => false
  end.

Definition add_valid_links (links : list string) (found : list string)
  : list string :=
  fold_left
    (fun acc link =>
       if is_valid_link_for_extraction link then set_add acc (strip link)
       else acc)
    found links.

(** The body of the loop over the comments in [extract_comments_links]:
    the links of the comment, then those of at most 50 replies to it. *)
Definition scan_comment (client : Client) (peer : Z) (links : list string)
           (reply : Message) : C (list string) :=
  let links := add_valid_links links (extract_links_from_message reply) in
  if has_sub_replies reply then
    let subs := iter_messages client peer (msg_id reply) (Some 50) in
    lift (count_replies (List.length subs)) ;;
    cret (fold_left
            (fun acc sub_reply =>
               add_valid_links acc (extract_links_from_message sub_reply))
            subs links)
  else cret links.

Fixpoint scan_comments (client : Client) (peer : Z) (top : list Message)
         (links : list string) : C (list string) :=
  match top with
  | [] => cret links
  | reply :: rest =>
      links' <- scan_comment client peer links reply ;;
      scan_comments client peer rest links'
  end.

(** [extract_comments_links] of the comment extractor module, with its
    limits of 100 comments and 50 replies per comment. *)
Definition extract_comments_links (client : Client) (message : Message)
           (account_name : string) (message_date : datetime)
  : C (list string) :=
  match replies message with
  | Some replies_info =>
      if comments replies_info && (0 <? replies_count replies_info)%Z then
        match comments_peer replies_info with
        | None => cret []
        | Some peer =>
            let top := iter_messages client peer (msg_id message) (Some 100) in
            lift (count_replies (List.length top)) ;;
            scan_comments client peer top []
        end
      else cret []
  | None => cret []
  end.

(** ** Files *)

(** [f"{file_name}_{file_size}"]: a missing name is rendered [None]. *)
Definition collector_file_id (f : File) : string :=
  ((match file_name f with Some n => n | None => "None" end)
     ++ "_" ++ FileExtractors.str_of_Z (file_size f))%string.

Definition process_files (client : Client) (message : Message)
           (account_name : string) (message_date : datetime) : C unit :=
  match file message with
  | None => cret tt
  | Some f =>
      try_log
        (fun st =>
           let file_id := collector_file_id f in
           if mem file_id (_processed_files st) then (Ret tt, st)
           else
             let st1 := set_processed (set_add (_processed_files st) file_id) st in
             let '(file_links, fs) :=
               FileExtractors.extract_links_from_file
                 (file_env client) message (files st1) in
             for_each file_links
               (fun link => process_link link message account_name
                                         message_date "file")
               (set_files fs st1))
        "File processing error"
  end.

(** ** The per-message pipeline *)

Definition process_message (message : Message) (account_name : string)
           (client : Client) : C unit :=
  if negb (truthy (text message)) then cret tt
  else
    process_links_list (extract_links_from_message message) message
                       account_name "text" ;;
    process_links_list (extract_buttons_links message) message
                       account_name "button" ;;
    comment_links <- extract_comment_links client message account_name ;;
    process_links_list comment_links message account_name "comment" ;;
    process_files client message account_name (date message).

(** ** Backfill *)

(** The inner loop of [collect_old_messages]; [true] when the loop
    returned because collection was switched off. *)
Fixpoint read_history (messages : list Message) (account_name : string)
         (client : Client) : C bool :=
  match messages with
  | [] => cret false
  | message :: rest =>
      fun st =>
        if negb (_collecting st) then (Ret true, st)
        else (process_message message account_name client ;;
              read_history rest account_name client) st
  end.

Fixpoint collect_dialogs (ds : list Dialog) (account_name : string)
         (client : Client) : C unit :=
  match ds with
  | [] => cret tt
  | dialog :: rest =>
      fun st =>
        let body : C bool :=
          stopped <- read_history (history dialog) account_name client ;;
          if stopped then cret true
          else if history_fails dialog
               then (fun st => (Raise Database.OperationalError, st))
               else cret false in
        match body st with
        | (Ret true, st') => (Ret tt, st')
        | (Ret false, st') => collect_dialogs rest account_name client st'
        | (Raise _, st') =>
            collect_dialogs rest account_name client
                            (log_error "Error reading dialog" st')
        end
  end.

Definition collect_old_messages (client : Client) (account_name : string)
  : C unit :=
  collect_dialogs (dialogs client) account_name client.

End Collector.

(* ====================================================================== *)
(** * Runs, readings of the specification and concrete inputs *)
(* ====================================================================== *)

Module DatabaseRuns.
Import PyStr Telethon Database.

(** One call of [save_link] with its arguments and the failures the
    database layer injects while it runs. *)
Record Call : Type := mkCall {
  call_url : option string;
  call_platform : string;
  call_source_account : string;
  call_chat_type : string;
  call_chat_id : string;
  call_message_date : option Z;
  call_source_type : option string;
  call_faults : list bool
}.

Definition with_faults (fs : list bool) (w : World) : World :=
  mkWorld (disk w) fs (opened w) (error_log w) (stats_updates w).

Definition run_call (w : World) (c : Call) : World :=
  snd (save_link (call_url c) (call_platform c) (call_source_account c)
                 (call_chat_type c) (call_chat_id c) (call_message_date c)
                 (call_source_type c) (with_faults (call_faults c) w)).

Definition run_calls (calls : list Call) (w : World) : World :=
  fold_left run_call calls w.

(** Whether a call stored a row: the [links] table has grown by one. *)
Definition inserted (before after : World) : bool :=
  (List.length (links (disk after)) =? S (List.length (links (disk before))))%nat.

(** A fresh database, no failure scheduled. *)
Definition fresh_world : World := mkWorld init_db [] 0 [] 0.

(** The idempotence property read for every URL string: the first call
    on a store without the URL leaves one row for it. *)
Definition first_call_inserts_every_url : Prop :=
  forall (url platform source_account chat_type chat_id : string)
         (message_date : option Z) (source_type : option string) (w : World),
    faults w = [] ->
    rows_for url (disk w) = 0 ->
    rows_for url
      (disk (snd (save_link (Some url) platform source_account chat_type
                            chat_id message_date source_type w))) = 1.

End DatabaseRuns.

Module CacheRuns.
Import PyStr Telethon FileExtractors.

Definition key_le {A : Type} (key : A -> Z) (a b : A) : Prop :=
  (key a <= key b)%Z.

(** The loop of deletions is one filter. *)
Definition without (ks : list string) (c : Cache) : Cache :=
  filter (fun kv => negb (mem (fst kv) ks)) c.

Definition cache_ok (c : Cache) : Prop :=
  NoDup (keys c) /\ List.length c <= MAX_CACHE_SIZE.

Record RecordOp : Type := mkOp {
  op_identifier : string;
  op_hash : string;
  op_links_found : nat;
  op_now : Z
}.

Definition record (c : Cache) (op : RecordOp) : Cache :=
  add_to_processed_cache (op_identifier op) (op_hash op) (op_links_found op)
                         (op_now op) c.

Definition run_records (ops : list RecordOp) (c : Cache) : Cache :=
  fold_left record ops c.

(** A thousand distinct identifiers, recorded at successive instants. *)
Definition thousand_ops : list RecordOp :=
  map (fun n => mkOp (str_of_Z (Z.of_nat n)) "" 0 (Z.of_nat n)) (seq 0 1000).

End CacheRuns.

Module FileRuns.
Import PyStr Telethon LinkUtils FileExtractors.

(** An attachment's identifier. *)
Definition identifier_of (f : File) : string := fst (get_file_identifier f).

Definition supported (f : File) : bool :=
  is_file_supported (or_else (file_name f) "file")
                    (or_else (file_mime_type f) "").

Definition cached (f : File) (st : FileState) : bool :=
  dict_mem (identifier_of f) (_processed_files st).

(** The extractor's contract read for every attachment, supported or
    not: once processed, its identifier is in the cache. *)
Definition every_attachment_is_recorded : Prop :=
  forall (env : Env) (message : Message) (f : File) (st : FileState),
    file message = Some f ->
    is_empty (identifier_of f) = false ->
    cached f st = false ->
    cached f (snd (extract_links_from_file env message st)) = true.

Definition photo : File :=
  mkFile "5301" 2048 (Some "photo.jpg") (Some "image/jpeg").

Definition photo_message : Message :=
  mkMessage 1 77 (Some "look") (Some "look") (utc 1700000000) None None
            (Some photo).

Definition no_env : Env :=
  mkEnv (fun _ => Some "") (fun _ => "d41d8cd9") (fun _ => []) (fun _ => [])
        (fun _ => None).

Definition empty_notes : File :=
  mkFile "5302" 11 (Some "notes.txt") (Some "text/plain").

Definition notes_message : Message :=
  mkMessage 2 77 (Some "notes") (Some "notes") (utc 1700000000) None None
            (Some empty_notes).

Definition notes_env : Env :=
  mkEnv (fun _ => Some "no links at all") (fun _ => "0cc175b9")
        (fun _ => []) (fun _ => []) (fun _ => None).

End FileRuns.

Module Scenarios.
Import PyStr Telethon LinkUtils Database FileExtractors Collector.

Definition clock0 : Z := 1700000000.
Definition day : Z := 86400.

(** A freshly initialised process at time [clock0]; [collecting] tells
    whether a collection run is under way. *)
Definition fresh_state (collecting : bool) : State :=
  mkState [] collecting false []
          (mkFileState [] clock0 [])
          (mkWorld init_db [] 0 [] 0) [] 0.

(** ** The coordinator *)

(** The coordinator's contract read literally: when no run is under way,
    [start_collection] switches collection on and empties the file
    extractor's cache. *)
Definition start_collection_clears_file_cache : Prop :=
  forall (sessions : list Session) (st : State),
    let st' := fst (start_collection sessions st) in
    if _collecting st then st' = st
    else _collecting st' = true /\ _stop_event st' = false /\
         FileExtractors._processed_files (files st') = [].

Definition one_session : list Session := [mkSession "account" "1BVtsOK"].

(** A stopped process whose file extractor still remembers a document
    from the previous run. *)
Definition stopped_with_cache : State :=
  mkState [] false true ["links.txt_24"]
          (mkFileState [("links.txt_f3_24", mkEntry "0cc1" clock0 1)] clock0 [3%Z])
          (mkWorld init_db [] 0 [] 0) [] 0.

Definition no_sessions (sessions : list Session) : bool :=
  match sessions with [] => true | _ => false end.

Definition plain_reply (i : nat) : Message :=
  mkMessage (1000 + Z.of_nat i) 900 (Some "nice") (Some "nice")
            (utc (clock0 - day)) None None None.

(** A post in chat 77 with a discussion thread of [n] comments. *)
Definition post_with (n : nat) : Message :=
  mkMessage 10 77 (Some "announcement") (Some "announcement")
            (utc (clock0 - day))
            None (Some (mkReplies true (Z.of_nat n) (Some 900%Z))) None.

Definition busy_post : Message := post_with 150.

Definition quiet_env : Env :=
  mkEnv (fun _ => None) (fun _ => "") (fun _ => []) (fun _ => [])
        (fun _ => None).

Definition client_with (n : nat) : Client :=
  mkClient []
           (fun _ reply_to => if (reply_to =? 10)%Z
                              then map plain_reply (List.seq 1 n) else [])
           quiet_env.

Definition busy_client : Client := client_with 150.

(** ** The end-to-end scenario *)

(** The messages carry aware dates, as the protocol client delivers
    them. *)

(** (1) a text with an invite link and an unrelated link *)
Definition message1 : Message :=
  mkMessage 1 77
            (Some "join https://t.me/+AAA and https://example.com")
            (Some "join https://t.me/+AAA and https://example.com")
            (utc (clock0 - 20 * day)) None None None.

(** (2) a button to a WhatsApp group, ten days old *)
Definition message2 : Message :=
  mkMessage 2 77 (Some "our group") (Some "our group")
            (utc (clock0 - 10 * day))
            (Some [[mkButton (Some "https://chat.whatsapp.com/BBB")]])
            None None.

(** (3) a text file that contains a channel link *)
Definition message3 : Message :=
  mkMessage 3 77 (Some "the list") (Some "the list")
            (utc (clock0 - day)) None None
            (Some (mkFile "f3" 24 (Some "links.txt") (Some "text/plain"))).

Definition scenario_env : Env :=
  mkEnv (fun m => if (msg_id m =? 3)%Z then Some "https://t.me/channelname"
                  else None)
        (fun _ => "0cc175b9c0f1b6a8") (fun _ => []) (fun _ => [])
        (fun _ => None).

Definition scenario_client : Client :=
  mkClient [mkDialog "conversation" [message1; message2; message3] false]
           (fun _ _ => []) scenario_env.

Definition after_backfill : State :=
  snd (collect_old_messages scenario_client "account" (fresh_state true)).

(** The same conversation with naive dates, for which the date filter of
    the collector can be evaluated. *)
Definition with_naive_date (m : Message) : Message :=
  mkMessage (msg_id m) (chat_id m) (text m) (raw_message m)
            (naive (instant (date m))) (reply_markup m) (replies m) (file m).

Definition naive_scenario_client : Client :=
  mkClient [mkDialog "conversation"
                     (map with_naive_date [message1; message2; message3])
                     false]
           (fun _ _ => []) scenario_env.

Definition after_backfill_naive : State :=
  snd (collect_old_messages naive_scenario_client "account"
                            (fresh_state true)).

(** The same conversation when the button message and the file message
    carry no text of their own. *)
Definition bare_client : Client :=
  mkClient
    [mkDialog "conversation"
       [message1;
        mkMessage 2 77 (Some "") (Some "") (utc (clock0 - 10 * day))
                  (reply_markup message2) None None;
        mkMessage 3 77 None None (utc (clock0 - day)) None None
                  (file message3)]
       false]
    (fun _ _ => []) scenario_env.

End Scenarios.

(* ====================================================================== *)
(** * Further functions of the sources, and the predicates their
      properties are stated with *)
(* ====================================================================== *)

Module PolicyPredicates.
Import PyStr Telethon LinkUtils.

(** A string that [lower] leaves alone. *)
Definition lowered (s : string) : bool :=
  all_chars (fun c => Ascii.eqb (lower_char c) c) s.

(** A character class that does not tell cases apart. *)
Definition case_blind (p : ascii -> bool) : Prop :=
  forall c, p (lower_char c) = p c.

Definition is_some {A} (o : option A) : bool :=
  match o with Some _ => true | None => false end.

(** A pattern compiled with [re.IGNORECASE] whose classes do not tell
    cases apart either. *)
Fixpoint re_case_blind (r : re) : Prop :=
  match r with
  | Lit _ => True
  | Cls p => case_blind p
  | Cat r1 r2 => re_case_blind r1 /\ re_case_blind r2
  | Opt r1 => re_case_blind r1
  | Plus p => case_blind p
  | NotAhead r1 => re_case_blind r1
  end.

(** The four patterns of [TG_REJECTED_PATTERNS], as substrings of the
    lowered link. *)
Definition has_reject_marker (l : string) : bool :=
  contains "/bot/" l || contains "t.me/bot" l
  || contains "/invite/" l || contains "t.me/invite" l.

(** The four platform markers of [is_valid_link_for_extraction], as
    substrings of the lowered link. *)
Definition has_platform_marker (l : string) : bool :=
  contains "t.me" l || contains "telegram.me" l
  || contains "whatsapp.com" l || contains "wa.me" l.

Definition not_char (x : ascii) (c : ascii) : bool := negb (Ascii.eqb c x).

(** A text of 7-bit characters.  On such a text the case mapping of
    [str.lower] and the matching of a pattern compiled with
    [re.IGNORECASE] are the ones of [PyStr]; beyond it Python also folds
    characters that are not letters of the patterns' alphabet. *)
Definition is_ascii (s : string) : bool :=
  all_chars (fun c => (code c <? 128)%nat) s.

(** A handle the patterns [t\.me/bot] and [t\.me/invite] catch. *)
Definition reserved_handle (name : string) : bool :=
  startswith "bot" (lower name) || startswith "invite" (lower name).

(** The phone-number test of [is_valid_telegram_link], on the text after
    the plus sign. *)
Definition looks_like_phone (code : string) : bool :=
  isdigit code && (7 <=? String.length code)%nat
  && (String.length code <=? 11)%nat.

(** [l] is what an extractor adds to its set for the match [raw]. *)
Definition candidate_of (raw l : string) : Prop :=
  is_valid_link_for_extraction raw = true /\ l = strip raw.

End PolicyPredicates.

Module DatabaseQueries.
Import PyStr Telethon Database.
Local Open Scope db_scope.

(** A call of a function of [database.py]: a fresh frame, the world left
    behind. *)
Definition run_in_frame {A} (m : M A) (w : World) : result A * World :=
  match m (mkFrame w None) with
  | (r, f) => (r, world f)
  end.

(** The integers [sqlite3] binds to a parameter are 64-bit signed;
    [cur.execute] raises [OverflowError] on any other. *)
Definition sqlite_int (z : Z) : bool :=
  (- 2 ^ 63 <=? z)%Z && (z <? 2 ^ 63)%Z.

Definition bind_ints (params : list Z) : M unit :=
  if forallb sqlite_int params then ret tt else raise OverflowError.

(** ** [get_links_by_platform_and_type] *)

(** [ORDER BY message_date DESC]: later dates first, NULL last.  The
    order among rows of equal date is the engine's choice; table order is
    taken here, and nothing below depends on it. *)
Definition date_le (a b : option Z) : bool :=
  match a, b with
  | None, _ => true
  | Some _, None => false
  | Some x, Some y => (x <=? y)%Z
  end.

Fixpoint insert_desc (r : LinkRow) (l : list LinkRow) : list LinkRow :=
  match l with
  | [] => [r]
  | y :: l' =>
      if date_le (row_message_date y) (row_message_date r) then r :: l
      else y :: insert_desc r l'
  end.

Definition order_by_date_desc (l : list LinkRow) : list LinkRow :=
  fold_right insert_desc [] l.

(** [LIMIT limit OFFSET offset] on 64-bit integers: a negative limit is
    no limit, a negative offset is none. *)
Definition sql_limit {A} (limit offset : Z) (l : list A) : list A :=
  let l' := skipn (Z.to_nat offset) l in
  if (limit <? 0)%Z then l' else firstn (Z.to_nat limit) l'.

(** [SELECT url, platform, chat_type, message_date FROM links WHERE
    platform = ? AND chat_type = ? ORDER BY message_date DESC LIMIT ?
    OFFSET ?] *)
Definition select_links_by_platform_and_type
           (t : Tables) (platform chat_type : string) (limit offset : Z)
  : list (string * string * string * option Z) :=
  map (fun r => (row_url r, row_platform r, row_chat_type r,
                 row_message_date r))
      (sql_limit limit offset
         (order_by_date_desc
            (filter (fun r => String.eqb (row_platform r) platform
                              && String.eqb (row_chat_type r) chat_type)
                    (links t)))).

Definition get_links_by_platform_and_type
           (platform chat_type : string) (limit offset : Z) (w : World)
  : result (list (string * string * string * option Z)) * World :=
  run_in_frame
    (try_except
       (c <- get_connection ;;
        put_conn (Some c) ;;
        rows <- with_open_conn
                  (fun c =>
                     bind_ints [limit; offset] ;;
                     ret (select_links_by_platform_and_type
                            (tx c) platform chat_type limit offset)) ;;
        close ;;
        ret rows)
       (fun _ => log_error "Error getting links" ;; ret []))
    w.

(** ** [get_links_by_telegram_type] *)

(** [links l JOIN telegram_types tt ON l.id = tt.link_id WHERE
    tt.telegram_type = ?] *)
Definition joined_with_type (t : Tables) (telegram_type : string)
  : list LinkRow :=
  flat_map
    (fun r =>
       flat_map
         (fun tt => if Z.eqb (row_id r) (fst tt)
                       && String.eqb (snd tt) telegram_type
                    then [r] else [])
         (telegram_types t))
    (links t).

Definition select_links_by_telegram_type
           (t : Tables) (telegram_type : string) (limit offset : Z)
  : list (string * string * option Z) :=
  map (fun r => (row_url r, row_chat_type r, row_message_date r))
      (sql_limit limit offset
         (order_by_date_desc (joined_with_type t telegram_type))).

Definition get_links_by_telegram_type
           (telegram_type : string) (limit offset : Z) (w : World)
  : result (list (string * string * option Z)) * World :=
  run_in_frame
    (try_except
       (c <- get_connection ;;
        put_conn (Some c) ;;
        rows <- with_open_conn
                  (fun c =>
                     bind_ints [limit; offset] ;;
                     ret (select_links_by_telegram_type
                            (tx c) telegram_type limit offset)) ;;
        close ;;
        ret rows)
       (fun _ => log_error "Error getting telegram links" ;; ret []))
    w.

(** ** [clean_database] and [optimize_database] *)

(** The rows that [DELETE FROM links WHERE id NOT IN (SELECT MIN(id) FROM
    links GROUP BY url)] keeps. *)
Definition is_min_id_for_url (l : list LinkRow) (r : LinkRow) : bool :=
  forallb (fun r' => negb (String.eqb (row_url r') (row_url r))
                     || (row_id r <=? row_id r')%Z) l.

(** The DELETE statement; with [PRAGMA foreign_keys = ON] a deleted row
    that [telegram_types] refers to fails the statement. *)
Definition delete_duplicates : M unit :=
  with_open_conn (fun c =>
    let t := tx c in
    let kept := filter (is_min_id_for_url (links t)) (links t) in
    let deleted :=
      filter (fun r => negb (is_min_id_for_url (links t) r)) (links t) in
    if existsb (fun ty => existsb (fun r => Z.eqb (row_id r) (fst ty)) deleted)
               (telegram_types t)
    then raise IntegrityError
    else put_conn (Some (mkConn true
                           (mkTables kept (telegram_types t) (seq t))
                           (lastrowid c)))).

(** [optimize_database]: VACUUM and ANALYZE on a connection of its own,
    then [update_daily_stats]; every exception is swallowed. *)
Definition optimize_database (w : World) : result unit * World :=
  run_in_frame
    (try_except
       (c <- get_connection ;;
        put_conn (Some c) ;;
        with_open_conn (fun _ => ret tt) ;;
        with_open_conn (fun _ => ret tt) ;;
        commit ;;
        close ;;
        update_daily_stats)
       (fun _ => log_error "Failed to optimize database"))
    w.

(** [clean_database]; [backup_file] tells whether [create_backup], which
    swallows its own exceptions, returned a path. *)
Definition clean_database (backup_file : bool) (w : World)
  : result bool * World :=
  if backup_file then
    match run_in_frame
            (try_except
               (c <- get_connection ;;
                put_conn (Some c) ;;
                delete_duplicates ;;
                commit ;;
                close ;;
                ret true)
               (fun _ => log_error "Error cleaning database" ;; ret false))
            w with
    | (Ret true, w1) =>
        match optimize_database w1 with
        | (Ret _, w2) => (Ret true, w2)
        | (Raise _, w2) =>
            (Ret false,
             mkWorld (disk w2) (faults w2) (opened w2)
                     ("Error cleaning database" :: error_log w2)
                     (stats_updates w2))
        end
    | out => out
    end
  else
    (Ret false,
     mkWorld (disk w) (faults w) (opened w)
             ("Cannot clean database without backup" :: error_log w)
             (stats_updates w)).

(** ** The store *)

(** The tables once [save_link] has stored a link: the new row, its
    Telegram type when the platform starts with [telegram_], the
    counter. *)
Definition with_new_link (t : Tables)
           (url platform source_account chat_type chat_id : string)
           (message_date : option Z) (source_type : option string) : Tables :=
  let id := (seq t + 1)%Z in
  mkTables
    (links t ++ [mkRow id url platform source_account chat_type chat_id
                       message_date source_type])
    (telegram_types t ++
       (if startswith "telegram_" platform
        then [(id, remove_sub "telegram_" platform)] else []))
    id.

(** The constraints of the schema: [url] is UNIQUE and never empty, [id]
    is a key handed out by the counter, and every row of [telegram_types]
    refers to a Telegram row of [links] and carries its type. *)
Definition store_ok (t : Tables) : Prop :=
  (0 <= seq t)%Z /\
  NoDup (urls t) /\
  NoDup (map row_id (links t)) /\
  (forall r, In r (links t) ->
             (0 < row_id r <= seq t)%Z /\ is_empty (row_url r) = false) /\
  (forall id ty, In (id, ty) (telegram_types t) ->
                 exists r, In r (links t) /\ row_id r = id /\
                           startswith "telegram_" (row_platform r) = true /\
                           ty = remove_sub "telegram_" (row_platform r)).

(** A store with two links, one of each platform. *)
Definition two_links : World :=
  mkWorld
    (mkTables
       [mkRow 1 "https://chat.whatsapp.com/BBB" "whatsapp" "account" "group"
              "77" (Some 1699136000%Z) (Some "text");
        mkRow 2 "https://t.me/+AAA" "telegram_invite_with_plus" "account"
              "group" "77" None None]
       [(2%Z, "invite_with_plus")] 2)
    [] 0 [] 0.

End DatabaseQueries.

Module FileStatistics.
Import PyStr Telethon FileExtractors.





(** The sum of the counters of a dictionary. *)
Definition total_count (d : list (string * nat)) : nat :=
  fold_right (fun kv acc => snd kv + acc) 0 d.

(** The attachments the dispatch of [extract_links_from_file] has a
    scanner for. *)
Definition has_scanner (f : File) : bool :=
  let ext := splitext_ext (lower (or_else (file_name f) "file")) in
  let mime_type := or_else (file_mime_type f) "" in
  existsb (String.eqb ext) [".pdf"; ".docx"; ".doc"; ".txt"]
  || existsb (String.eqb mime_type)
       ["application/pdf";
        "application/vnd.openxmlformats-officedocument.wordprocessingml.document";
        "application/msword"; "text/plain"].

(** A rich-text attachment: supported, but no scanner reads it. *)
Definition rtf_file : File :=
  mkFile "5303" 4096 (Some "Invites.RTF") (Some "application/rtf").

Definition rtf_message : Message :=
  mkMessage 4 77 (Some "invites") (Some "invites") (utc 1700000000) None None
            (Some rtf_file).

Definition rtf_env : Env :=
  mkEnv (fun _ => Some "https://chat.whatsapp.com/BBB") (fun _ => "92eb5ffe")
        (fun _ => []) (fun _ => []) (fun _ => None).

(** A document of 60 MB. *)
Definition big_file : File :=
  mkFile "5304" (60 * 1024 * 1024) (Some "archive.pdf") (Some "application/pdf").

Definition big_message : Message :=
  mkMessage 5 77 (Some "archive") (Some "archive") (utc 1700000000) None None
            (Some big_file).

End FileStatistics.

Module PipelineInvariants.
Import PyStr Telethon LinkUtils Database FileExtractors Collector.

(** A stored row the classification policy stands behind. *)
Definition row_accepted (r : LinkRow) : Prop :=
  row_platform r = "whatsapp" /\ row_chat_type r = "group" /\
  filter_and_classify_link (row_url r) = Some ("whatsapp", "group").

(** What the pipeline keeps true of the store. *)
Definition store_accepted (t : Tables) : Prop :=
  Forall row_accepted (links t) /\ NoDup (urls t).

(** [st'] differs from [st] in the store only. *)
Definition same_but_db (st st' : State) : Prop :=
  st' = set_db (db st') st.

(** A computation that writes no Telegram type and keeps the store
    policy-accepted and duplicate-free. *)
Definition keeps {A} (m : C A) : Prop :=
  forall st,
    telegram_types (disk (db (snd (m st)))) = telegram_types (disk (db st)) /\
    (store_accepted (disk (db st)) -> store_accepted (disk (db (snd (m st))))).

(** The text file of the scenario, posted again in another chat under
    another file id and MIME type. *)
Definition reposted : Message :=
  mkMessage 8 78 (Some "once more") (Some "once more") (utc 1700000000) None
            None
            (Some (mkFile "f9" 24 (Some "links.txt") (Some "application/pdf"))).

End PipelineInvariants.

(* ====================================================================== *)
(** * Facts about the string primitives *)
(* ====================================================================== *)

Module PyStrFacts.
Import PyStr.
Local Open Scope string_scope.

(** What the code relies on for a decimal digit. *)
Lemma digit_char_facts (d : ascii) :
  is_digit d = true ->
  lower_char d = d /\ is_space d = false /\ is_alnum d = true /\
  Ascii.eqb d "_" = false /\ Ascii.eqb d "-" = false /\
  Ascii.eqb "t" d = false /\ Ascii.eqb "?" d = false /\
  Ascii.eqb "/" d = false.
Proof.
  destruct d as [[] [] [] [] [] [] [] []]; vm_compute; intuition congruence.
Qed.

Lemma lower_digits (ds : string) :
  all_chars is_digit ds = true -> lower ds = ds.
Proof.
  induction ds as [|d ds IH]; simpl; intros H; [reflexivity|].
  apply andb_prop in H. destruct H as [Hd Hds].
  destruct (digit_char_facts d Hd) as [-> _]. rewrite (IH Hds). reflexivity.
Qed.

Lemma rev_string_rev_string (s a b : string) :
  rev_string (rev_string s a) b = rev_string a (s ++ b).
Proof.
  revert a b. induction s as [|c s IH]; intros a b; simpl; [reflexivity|].
  rewrite IH. reflexivity.
Qed.

Lemma all_chars_rev_string (p : ascii -> bool) (s a : string) :
  all_chars p (rev_string s a) = all_chars p s && all_chars p a.
Proof.
  revert a. induction s as [|c s IH]; intros a; simpl; [reflexivity|].
  rewrite IH. simpl. destruct (p c), (all_chars p s); reflexivity.
Qed.

Lemma lstrip_no_space (s : string) :
  all_chars (fun c => negb (is_space c)) s = true -> lstrip s = s.
Proof.
  destruct s as [|c s]; simpl; [reflexivity|].
  destruct (is_space c); [discriminate | reflexivity].
Qed.

Lemma append_empty_r (s : string) : (s ++ "")%string = s.
Proof. induction s as [|c s IH]; simpl; [|rewrite IH]; reflexivity. Qed.

(** [strip] leaves a string without whitespace alone. *)
Lemma strip_no_space (s : string) :
  all_chars (fun c => negb (is_space c)) s = true -> strip s = s.
Proof.
  intros H. unfold strip, rstrip. rewrite (lstrip_no_space s H).
  rewrite lstrip_no_space
    by (rewrite all_chars_rev_string, H; reflexivity).
  rewrite rev_string_rev_string. simpl. apply append_empty_r.
Qed.

Lemma digits_no_space (ds : string) :
  all_chars is_digit ds = true ->
  all_chars (fun c => negb (is_space c)) ds = true.
Proof.
  induction ds as [|d ds IH]; simpl; intros H; [reflexivity|].
  apply andb_prop in H. destruct H as [Hd Hds].
  destruct (digit_char_facts d Hd) as [_ [-> _]]. exact (IH Hds).
Qed.

Lemma digits_alnum (ds : string) :
  all_chars is_digit ds = true -> all_chars is_alnum ds = true.
Proof.
  induction ds as [|d ds IH]; simpl; intros H; [reflexivity|].
  apply andb_prop in H. destruct H as [Hd Hds].
  destruct (digit_char_facts d Hd) as [_ [_ [-> _]]]. exact (IH Hds).
Qed.

Lemma remove_char_digits (c : ascii) (ds : string) :
  (forall d, is_digit d = true -> Ascii.eqb d c = false) ->
  all_chars is_digit ds = true -> remove_char c ds = ds.
Proof.
  intros Hc. induction ds as [|d ds IH]; simpl; intros H; [reflexivity|].
  apply andb_prop in H. destruct H as [Hd Hds].
  rewrite (Hc d Hd), (IH Hds). reflexivity.
Qed.

(** A piece without the first character of the separator is not cut. *)
Lemma split_go_digits (c : ascii) (sep ds cur : string) :
  (forall d, is_digit d = true -> Ascii.eqb c d = false) ->
  all_chars is_digit ds = true ->
  split_go (String c sep) ds 0 cur = [rev_string cur ds].
Proof.
  intros Hc. revert cur.
  induction ds as [|d ds IH]; intros cur H; [reflexivity|].
  simpl in H. apply andb_prop in H. destruct H as [Hd Hds].
  cbn [split_go startswith]. rewrite (Hc d Hd). cbn [andb].
  rewrite (IH _ Hds). reflexivity.
Qed.

(** A literal pattern that begins with another character matches
    nowhere in a string of digits. *)
Lemma search_lit_digits (c : ascii) (p ds : string) :
  (forall d, is_digit d = true -> Ascii.eqb (lower_char c) (lower_char d) = false) ->
  all_chars is_digit ds = true ->
  search (lit (String c p)) ds = false.
Proof.
  intros Hc. induction ds as [|d ds IH]; intros H.
  - destruct p; reflexivity.
  - simpl in H. apply andb_prop in H. destruct H as [Hd Hds].
    cbn [search]. rewrite (IH Hds), Bool.orb_false_r.
    unfold matches, re_match.
    destruct p; cbn [lit rmatch]; rewrite (Hc d Hd); reflexivity.
Qed.

End PyStrFacts.

(* ====================================================================== *)
(** * Properties of the classification policy *)
(* ====================================================================== *)

Module LinkUtilsFacts.
Import PyStr Telethon LinkUtils PyStrFacts.
Local Open Scope string_scope.

(** ** The phone-number test of [is_valid_telegram_link] *)

Lemma slash_digit (d : ascii) :
  is_digit d = true -> Ascii.eqb (lower_char "/") (lower_char d) = false.
Proof.
  intros Hd. destruct (digit_char_facts d Hd) as [-> [_ [_ [_ [_ [_ [_ H]]]]]]].
  exact H.
Qed.

Lemma t_digit (d : ascii) :
  is_digit d = true -> Ascii.eqb (lower_char "t") (lower_char d) = false.
Proof.
  intros Hd. destruct (digit_char_facts d Hd) as [-> [_ [_ [_ [_ [H _]]]]]].
  exact H.
Qed.

Lemma digit_is_not (d : ascii) :
  is_digit d = true ->
  Ascii.eqb "t" d = false /\ Ascii.eqb "?" d = false /\
  Ascii.eqb "/" d = false /\
  Ascii.eqb d "_" = false /\ Ascii.eqb d "-" = false.
Proof. intros H. pose proof (digit_char_facts d H). tauto. Qed.

Lemma rejected_patterns_digits (ds : string) :
  all_chars is_digit ds = true ->
  existsb (fun pattern => search pattern ("https://t.me/+" ++ ds))
          TG_REJECTED_PATTERNS = false.
Proof.
  intros Hd. unfold TG_REJECTED_PATTERNS. cbn [existsb].
  change (search (lit "/bot/") ("https://t.me/+" ++ ds))
    with (search (lit "/bot/") ds).
  change (search (lit "t.me/bot") ("https://t.me/+" ++ ds))
    with (search (lit "t.me/bot") ds).
  change (search (lit "/invite/") ("https://t.me/+" ++ ds))
    with (search (lit "/invite/") ds).
  change (search (lit "t.me/invite") ("https://t.me/+" ++ ds))
    with (search (lit "t.me/invite") ds).
  rewrite !search_lit_digits; auto using slash_digit, t_digit.
Qed.

(** The Telegram validity check on [https://t.me/+] followed by digits:
    rejected exactly when there are 7 to 11 of them. *)
Lemma phone_window (ds : string) :
  all_chars is_digit ds = true ->
  is_empty ds = false ->
  is_valid_telegram_link ("https://t.me/+" ++ ds)
  = negb ((7 <=? String.length ds)%nat && (String.length ds <=? 11)%nat).
Proof.
  intros Hd Hne. unfold is_valid_telegram_link.
  change (lower ("https://t.me/+" ++ ds)) with ("https://t.me/+" ++ lower ds).
  rewrite (lower_digits ds Hd).
  rewrite strip_no_space by exact (digits_no_space ds Hd).
  rewrite (rejected_patterns_digits ds Hd).
  change (contains "t.me/" ("https://t.me/+" ++ ds)) with true.
  change (split "t.me/" ("https://t.me/+" ++ ds))
    with ("https://" :: split_go "t.me/" ds 0 "+").
  rewrite (split_go_digits "t" ".me/" ds "+"
             (fun d H => proj1 (digit_is_not d H)) Hd).
  cbn [negb rev_string hd].
  change (split "?" (String "+" ds)) with (split_go "?" ds 0 "+").
  rewrite (split_go_digits "?" "" ds "+"
             (fun d H => proj1 (proj2 (digit_is_not d H))) Hd).
  cbn [rev_string hd].
  change (split "/" (String "+" ds)) with (split_go "/" ds 0 "+").
  rewrite (split_go_digits "/" "" ds "+"
             (fun d H => proj1 (proj2 (proj2 (digit_is_not d H)))) Hd).
  cbn [rev_string hd List.length].
  change (startswith "+" (String "+" ds)) with true.
  change (drop 1 (String "+" ds)) with ds.
  change (String.length (String "+" ds)) with (S (String.length ds)).
  rewrite (remove_char_digits "_" ds
             (fun d H => proj1 (proj2 (proj2 (proj2 (digit_is_not d H))))) Hd).
  rewrite (remove_char_digits "-" ds
             (fun d H => proj2 (proj2 (proj2 (proj2 (digit_is_not d H))))) Hd).
  unfold isdigit, isalnum. rewrite Hne, Hd, (digits_alnum ds Hd).
  change (1 <? 1)%nat with false.
  cbn [negb andb].
  destruct (7 <=? String.length ds)%nat eqn:E7;
    destruct (String.length ds <=? 11)%nat eqn:E11;
    destruct (String.length ds <=? 12)%nat eqn:E12;
    destruct (S (String.length ds) <=? 12)%nat eqn:E13;
    try reflexivity;
    repeat match goal with
           | H : (_ <=? _)%nat = true |- _ => apply Nat.leb_le in H
           | H : (_ <=? _)%nat = false |- _ => apply Nat.leb_gt in H
           end; lia.
Qed.


(** With 7 to 11 digits after the [+] the link is rejected and never
    classified. *)
Lemma phone_numbers_7_to_11_rejected (ds : string) :
  all_chars is_digit ds = true ->
  7 <= String.length ds <= 11 ->
  is_valid_telegram_link ("https://t.me/+" ++ ds) = false /\
  filter_and_classify_link ("https://t.me/+" ++ ds) = None.
Proof.
  intros Hd [H7 H11].
  assert (Hne : is_empty ds = false) by (destruct ds; [simpl in H7; lia | reflexivity]).
  assert (Hv : is_valid_telegram_link ("https://t.me/+" ++ ds) = false).
  { rewrite (phone_window ds Hd Hne).
    apply Nat.leb_le in H7, H11. rewrite H7, H11. reflexivity. }
  split; [exact Hv|].
  unfold filter_and_classify_link.
  destruct (is_valid_link_for_extraction ("https://t.me/+" ++ ds));
    [|reflexivity].
  change (lower ("https://t.me/+" ++ ds)) with ("https://t.me/+" ++ lower ds).
  change (contains "t.me" ("https://t.me/+" ++ lower ds)) with true.
  rewrite Hv. reflexivity.
Qed.

(** ** The range of the classifier *)

Lemma filter_and_classify_link_range (url platform chat_type : string) :
  filter_and_classify_link url = Some (platform, chat_type) ->
  In platform ["whatsapp"; "telegram_invite_with_plus";
               "telegram_invite_without_plus"; "telegram_unknown"].
Proof.
  unfold filter_and_classify_link, classify_telegram_link,
    classify_whatsapp_link.
  repeat match goal with
         | |- context [if ?b then _ else _] => destruct b
         end;
    intros H; inversion H; subst; simpl; tauto.
Qed.

(** ** The examples of the specification *)

(** C2. The classification table of the specification: each of the seven
    example URLs is mapped by [filter_and_classify_link] to the listed
    result. *)
Theorem classification_table :
  filter_and_classify_link "https://t.me/+abcdef123"
    = Some ("telegram_invite_with_plus", "group") /\
  filter_and_classify_link "https://t.me/mychannel"
    = Some ("telegram_invite_without_plus", "group") /\
  filter_and_classify_link "https://t.me/+15551234567" = None /\
  filter_and_classify_link "https://t.me/bot/xyz" = None /\
  filter_and_classify_link "https://t.me/user/42" = None /\
  filter_and_classify_link "https://chat.whatsapp.com/ABC123"
    = Some ("whatsapp", "group") /\
  filter_and_classify_link "https://wa.me/15551234567" = None.
Proof. repeat split; vm_compute; reflexivity. Qed.

(** C4. A [t.me] URL whose only path segment is [+] followed by twelve
    digits passes the Telegram validity check and is classified as an
    invite: the phone-number test is guarded by
    [len(first_segment) <= 12], which a thirteen-character segment fails. *)
Theorem twelve_digit_phone_accepted :
  is_valid_telegram_link "https://t.me/+123456789012" = true /\
  filter_and_classify_link "https://t.me/+123456789012"
    = Some ("telegram_invite_with_plus", "group").
Proof. split; vm_compute; reflexivity. Qed.

(** C5. A URL that mentions [t.me/] after another host is accepted by the
    validity check, matches neither invite pattern at its start, and is
    classified with the platform subtype [telegram_unknown]. *)
Theorem classification_yields_telegram_unknown :
  filter_and_classify_link "https://example.com/t.me/abc"
    = Some ("telegram_unknown", "unknown").
Proof. vm_compute; reflexivity. Qed.

End LinkUtilsFacts.

(* ====================================================================== *)
(** * Properties of [save_link] *)
(* ====================================================================== *)

Module DatabaseFacts.
Import PyStr Telethon Database DatabaseRuns.

Ltac break_match :=
  match goal with
  | |- context [match ?x with _ => _ end] =>
      match x with
      | context [match _ with _ => _ end] => fail 1
      | _ => destruct x eqn:?
      end
  end.

Local Ltac reduce_frame :=
  cbn [world conn disk faults opened error_log stats_updates fst snd
       conn_open tx lastrowid links telegram_types seq] in *.

(** What a call does, whatever fails: it returns normally, and either
    leaves the [links] table alone or appends one row, for a non-empty URL
    that was not in the table. *)
Lemma save_link_effect :
  forall url platform source_account chat_type chat_id message_date
         source_type w,
    let out := save_link url platform source_account chat_type chat_id
                         message_date source_type w in
    fst out = Ret tt /\
    (links (disk (snd out)) = links (disk w) \/
     exists row,
       links (disk (snd out)) = links (disk w) ++ [row] /\
       url = Some (row_url row) /\
       is_empty (row_url row) = false /\
       existsb (fun r => String.eqb (row_url r) (row_url row))
               (links (disk w)) = false).
Proof.
  intros url platform source_account chat_type chat_id message_date
         source_type w.
  unfold save_link.
  destruct url as [u|]; [|simpl; auto].
  simpl truthy. destruct (is_empty u) eqn:Hu; [simpl; auto|].
  simpl negb. cbv iota zeta. simpl or_else. rewrite Hu.
  unfold save_link_body, try_finally, try_except, get_connection,
    select_id_by_url, insert_or_ignore_link, insert_telegram_type,
    cur_lastrowid, commit, close, count_links, update_daily_stats,
    with_open_conn, fail_if_fault, fault, log_error, bind, ret, raise,
    get_world, put_world, get_conn, put_conn.
  reduce_frame.
  repeat (break_match; reduce_frame; try discriminate;
          repeat match goal with
                 | H : (_, _) = (_, _) |- _ => inversion H; clear H; subst
                 | H : Some _ = Some _ |- _ => inversion H; clear H; subst
                 end;
          reduce_frame);
    try (split; [reflexivity | left; reflexivity]).
  all: split; [reflexivity | right; eexists; split; [reflexivity|]];
    cbn [row_url]; auto.
Qed.

Lemma find_existsb_none {A} (p : A -> bool) (l : list A) :
  existsb p l = false -> find p l = None.
Proof.
  induction l as [|a l IH]; simpl; [reflexivity|].
  destruct (p a); simpl; [discriminate | exact IH].
Qed.

(** Without injected failures a URL that is not in the table is inserted,
    with the next row id. *)
Lemma save_link_fresh :
  forall url platform source_account chat_type chat_id message_date
         source_type w,
    is_empty url = false ->
    faults w = [] ->
    existsb (fun r => String.eqb (row_url r) url) (links (disk w)) = false ->
    links (disk (snd (save_link (Some url) platform source_account chat_type
                                chat_id message_date source_type w)))
    = links (disk w)
        ++ [mkRow (seq (disk w) + 1) url platform source_account chat_type
                  chat_id message_date source_type].
Proof.
  intros url platform source_account chat_type chat_id message_date
         source_type w Hne Hf Hex.
  destruct w as [[l ty sq] fs op el su].
  cbn [faults disk links] in Hf, Hex. subst fs.
  unfold save_link. simpl truthy. rewrite Hne. simpl negb. cbv iota.
  simpl or_else. rewrite Hne.
  unfold save_link_body.
  remember (startswith "telegram_" platform) as tg eqn:Htg.
  remember (remove_sub "telegram_" platform) as ttype eqn:Htt.
  clear Htg Htt.
  unfold try_finally, try_except, get_connection,
    select_id_by_url, insert_or_ignore_link, insert_telegram_type,
    cur_lastrowid, commit, close, count_links, update_daily_stats,
    with_open_conn, fail_if_fault, fault, log_error, bind, ret, raise,
    get_world, put_world, get_conn, put_conn.
  cbn -[existsb find Z.add].
  rewrite (find_existsb_none _ _ Hex).
  cbn -[existsb find Z.add].
  rewrite Hex.
  destruct tg; cbn -[existsb find Z.add];
    [rewrite existsb_app; cbn -[Z.add]; rewrite Z.eqb_refl,
       Bool.orb_true_r; cbn -[existsb find Z.add]|];
    reflexivity.
Qed.

(** A URL that is in the table is never inserted again, whatever fails. *)
Lemma save_link_present :
  forall url platform source_account chat_type chat_id message_date
         source_type w,
    existsb (fun r => String.eqb (row_url r) url) (links (disk w)) = true ->
    links (disk (snd (save_link (Some url) platform source_account chat_type
                                chat_id message_date source_type w)))
    = links (disk w).
Proof.
  intros url platform source_account chat_type chat_id message_date
         source_type w Hex.
  destruct (save_link_effect (Some url) platform source_account chat_type
              chat_id message_date source_type w) as [_ [H | [row [_ [Hu [_ Hn]]]]]].
  - exact H.
  - inversion Hu; subst. rewrite Hex in Hn. discriminate.
Qed.

Lemma existsb_url_In (u : string) (l : list LinkRow) :
  existsb (fun r => String.eqb (row_url r) u) l = false ->
  ~ In u (map row_url l).
Proof.
  induction l as [|r l IH]; simpl; intros H; [tauto|].
  apply Bool.orb_false_iff in H. destruct H as [Hr Hl].
  intros [E | E].
  - rewrite E, String.eqb_refl in Hr. discriminate.
  - exact (IH Hl E).
Qed.

Lemma rows_for_existsb (u : string) (t : Tables) :
  rows_for u t = 0 ->
  existsb (fun r => String.eqb (row_url r) u) (links t) = false.
Proof.
  unfold rows_for. induction (links t) as [|r l IH]; simpl; [reflexivity|].
  destruct (String.eqb (row_url r) u); simpl; [discriminate | exact IH].
Qed.

Lemma rows_for_existsb_pos (u : string) (t : Tables) :
  0 < rows_for u t ->
  existsb (fun r => String.eqb (row_url r) u) (links t) = true.
Proof.
  unfold rows_for. induction (links t) as [|r l IH]; simpl; [lia|].
  destruct (String.eqb (row_url r) u); simpl; [reflexivity | exact IH].
Qed.

Lemma NoDup_rows_for (u : string) (t : Tables) :
  NoDup (urls t) -> rows_for u t <= 1.
Proof.
  unfold urls, rows_for. induction (links t) as [|r l IH]; simpl; intros H.
  - lia.
  - inversion H as [|x xs Hnin Hnd]; subst.
    destruct (String.eqb (row_url r) u) eqn:E; [|exact (IH Hnd)].
    apply String.eqb_eq in E. subst u. simpl.
    assert (List.length
              (filter (fun r0 => String.eqb (row_url r0) (row_url r)) l) = 0);
      [|lia].
    clear -Hnin. induction l as [|a l IHl]; simpl; [reflexivity|].
    destruct (String.eqb (row_url a) (row_url r)) eqn:E.
    + apply String.eqb_eq in E. exfalso. apply Hnin. left. exact E.
    + apply IHl. intros Hin. apply Hnin. right. exact Hin.
Qed.

(** The UNIQUE constraint is an invariant of [save_link]. *)
Lemma save_link_NoDup :
  forall url platform source_account chat_type chat_id message_date
         source_type w,
    NoDup (urls (disk w)) ->
    NoDup (urls (disk (snd (save_link url platform source_account chat_type
                                      chat_id message_date source_type w)))).
Proof.
  intros url platform source_account chat_type chat_id message_date
         source_type w Hnd.
  destruct (save_link_effect url platform source_account chat_type
              chat_id message_date source_type w) as [_ [H | [row [H [_ [_ Hn]]]]]];
    unfold urls in *; rewrite H; [exact Hnd|].
  rewrite map_app. simpl.
  apply NoDup_app.
  - exact Hnd.
  - apply NoDup_cons; [simpl; tauto | apply NoDup_nil].
  - intros a Ha [E | []]. subst a. exact (existsb_url_In _ _ Hn Ha).
Qed.

(** ** Sequences of calls *)

Lemma run_calls_NoDup (calls : list Call) :
  forall w, NoDup (urls (disk w)) -> NoDup (urls (disk (run_calls calls w))).
Proof.
  unfold run_calls.
  induction calls as [|c calls IH]; simpl; intros w Hnd; [exact Hnd|].
  apply IH. unfold run_call. apply save_link_NoDup. exact Hnd.
Qed.

(** C3, as stated, fails at the empty URL: [save_link] returns before it
    touches the database, so the first call stores nothing. *)
Lemma save_link_empty_url_stores_nothing :
  ~ first_call_inserts_every_url.
Proof.
  intros H.
  specialize (H "" "whatsapp" "account" "group" "1" None None
                fresh_world eq_refl eq_refl).
  vm_compute in H. discriminate.
Qed.

Lemma run_calls_no_empty_url (calls : list Call) :
  forall w, rows_for "" (disk w) = 0 ->
            rows_for "" (disk (run_calls calls w)) = 0.
Proof.
  unfold run_calls.
  induction calls as [|c calls IH]; simpl; intros w H0; [exact H0|].
  apply IH. unfold run_call.
  destruct (save_link_effect (call_url c) (call_platform c)
              (call_source_account c) (call_chat_type c) (call_chat_id c)
              (call_message_date c) (call_source_type c)
              (with_faults (call_faults c) w))
    as [_ [H | [row [H [_ [Hne _]]]]]];
    unfold rows_for in *; rewrite H; [exact H0|].
  rewrite filter_app, length_app. cbn [disk with_faults]. rewrite H0.
  simpl. destruct (row_url row); [discriminate | reflexivity].
Qed.

(** C3 (amended). For a non-empty URL that is not yet stored, and a
    database that does not fail, the first [save_link] inserts exactly one
    row for the URL and a second call with the same URL, from whatever
    source, inserts none.  After any sequence of calls, under any failures,
    a store whose URLs were distinct holds at most one row per URL, and the
    empty URL is never stored. *)
Theorem save_link_idempotent :
  forall (url platform source_account chat_type chat_id : string)
         (message_date : option Z) (source_type : option string)
         (platform' source_account' chat_type' chat_id' : string)
         (message_date' : option Z) (source_type' : option string)
         (w : World),
    url <> "" ->
    faults w = [] ->
    rows_for url (disk w) = 0 ->
    let w1 := snd (save_link (Some url) platform source_account chat_type
                             chat_id message_date source_type w) in
    let w2 := snd (save_link (Some url) platform' source_account' chat_type'
                             chat_id' message_date' source_type' w1) in
    (inserted w w1 = true /\ rows_for url (disk w1) = 1 /\
     inserted w1 w2 = false /\ rows_for url (disk w2) = 1) /\
    (forall (calls : list Call) (w0 : World) (u : string),
        NoDup (urls (disk w0)) ->
        rows_for u (disk (run_calls calls w0)) <= 1) /\
    (forall calls : list Call,
        rows_for "" (disk (run_calls calls fresh_world)) = 0).
Proof.
  intros url platform source_account chat_type chat_id message_date
         source_type platform' source_account' chat_type' chat_id'
         message_date' source_type' w Hne Hf H0 w1 w2.
  assert (Hempty : is_empty url = false)
    by (destruct url; [congruence | reflexivity]).
  pose proof (rows_for_existsb _ _ H0) as Hex.
  pose proof (save_link_fresh url platform source_account chat_type chat_id
                message_date source_type w Hempty Hf Hex) as H1.
  fold w1 in H1.
  assert (Hrows : rows_for url (disk w1) = 1).
  { unfold rows_for in *. rewrite H1, filter_app, length_app, H0.
    simpl. rewrite String.eqb_refl. reflexivity. }
  assert (H2 : links (disk w2) = links (disk w1)).
  { apply save_link_present. apply rows_for_existsb_pos. lia. }
  assert (Hrows' : rows_for url (disk w2) = 1)
    by (unfold rows_for in *; rewrite H2; exact Hrows).
  assert (Hlen : List.length (links (disk w1))
                 = S (List.length (links (disk w))))
    by (rewrite H1, length_app; simpl; lia).
  split; [|split].
  - unfold inserted. rewrite H2, Hlen.
    split; [apply Nat.eqb_refl|].
    split; [exact Hrows|].
    split; [apply Nat.eqb_neq; lia | exact Hrows'].
  - intros calls w0 u Hnd. apply NoDup_rows_for.
    apply run_calls_NoDup. exact Hnd.
  - intros calls. apply run_calls_no_empty_url. reflexivity.
Qed.

(** The theorem applied to the first WhatsApp link saved into a fresh
    database. *)
Lemma save_link_idempotent_witness :
  let w1 := snd (save_link (Some "https://chat.whatsapp.com/BBB") "whatsapp"
                           "account" "group" "1" None (Some "button")
                           fresh_world) in
  inserted fresh_world w1 = true.
Proof.
  intros w1.
  refine (proj1 (proj1
    (save_link_idempotent "https://chat.whatsapp.com/BBB" "whatsapp"
       "account" "group" "1" None (Some "button")
       "whatsapp" "other" "group" "2" None (Some "text") fresh_world _ _ _))).
  - discriminate.
  - reflexivity.
  - reflexivity.
Defined.

(** C10. [save_link] returns normally for every input and every failure
    of the database layer; with [url] equal to [None] or to the empty
    string it returns at once, leaving the world (the tables, the count of
    opened connections, the log) as it was. *)
Theorem save_link_never_raises :
  forall (url : option string)
         (platform source_account chat_type chat_id : string)
         (message_date : option Z) (source_type : option string) (w : World),
    fst (save_link url platform source_account chat_type chat_id
                   message_date source_type w) = Ret tt /\
    save_link None platform source_account chat_type chat_id
              message_date source_type w = (Ret tt, w) /\
    save_link (Some "") platform source_account chat_type chat_id
              message_date source_type w = (Ret tt, w).
Proof.
  intros url platform source_account chat_type chat_id message_date
         source_type w.
  split; [|split; reflexivity].
  exact (proj1 (save_link_effect url platform source_account chat_type
                  chat_id message_date source_type w)).
Qed.

End DatabaseFacts.

(* ====================================================================== *)
(** * Properties of the document dedup cache *)
(* ====================================================================== *)

Module CacheFacts.
Import PyStr Telethon FileExtractors CacheRuns.

(** ** The stable sort *)

Section SortedBy.
Context {A : Type} (key : A -> Z).

Let ordered : list A -> Prop := StronglySorted (key_le key).

Lemma insert_by_perm (x : A) (l : list A) :
  Permutation (insert_by key x l) (x :: l).
Proof.
  induction l as [|y l IH]; simpl; [apply Permutation_refl|].
  destruct (key x <=? key y)%Z; [apply Permutation_refl|].
  eapply perm_trans; [apply perm_skip, IH | apply perm_swap].
Qed.

Lemma sorted_by_perm (l : list A) : Permutation (sorted_by key l) l.
Proof.
  induction l as [|x l IH]; simpl; [apply perm_nil|].
  eapply perm_trans; [apply insert_by_perm | apply perm_skip, IH].
Qed.

Lemma insert_by_sorted (x : A) (l : list A) :
  ordered l -> ordered (insert_by key x l).
Proof.
  induction l as [|y l IH]; simpl; intros Hs.
  - constructor; [constructor | constructor].
  - apply StronglySorted_inv in Hs. destruct Hs as [Hl Hy].
    destruct (key x <=? key y)%Z eqn:E.
    + apply Z.leb_le in E. constructor.
      * constructor; assumption.
      * constructor; [exact E|].
        rewrite Forall_forall in *. intros z Hz.
        unfold key_le in *. specialize (Hy z Hz). lia.
    + apply Z.leb_gt in E. constructor; [apply IH, Hl|].
      rewrite Forall_forall in *. intros z Hz.
      apply (Permutation_in _ (insert_by_perm x l)) in Hz.
      destruct Hz as [<- | Hz]; [unfold key_le; lia | apply Hy, Hz].
Qed.

Lemma sorted_by_sorted (l : list A) : ordered (sorted_by key l).
Proof.
  induction l as [|x l IH]; simpl; [constructor | apply insert_by_sorted, IH].
Qed.

Lemma sorted_prefix_below (l : list A) :
  ordered l ->
  forall n x y, In x (firstn n l) -> In y (skipn n l) -> key_le key x y.
Proof.
  induction 1 as [|a l Hs IH Ha]; intros n x y Hx Hy.
  - destruct n; simpl in Hx; contradiction.
  - destruct n as [|n]; simpl in Hx, Hy; [contradiction|].
    destruct Hx as [<- | Hx].
    + rewrite Forall_forall in Ha. apply Ha.
      rewrite <- (firstn_skipn n l). apply in_or_app. right. exact Hy.
    + exact (IH n x y Hx Hy).
Qed.

End SortedBy.

(** ** Dictionaries *)

Lemma mem_In (x : string) (l : list string) : mem x l = true <-> In x l.
Proof.
  unfold mem. rewrite existsb_exists. split.
  - intros [y [Hy E]]. apply String.eqb_eq in E. subst. exact Hy.
  - intros H. exists x. split; [exact H | apply String.eqb_refl].
Qed.

Lemma dict_mem_In (k : string) (c : Cache) :
  dict_mem k c = true <-> In k (keys c).
Proof.
  unfold dict_mem, keys. rewrite existsb_exists, in_map_iff. split.
  - intros [kv [Hin E]]. apply String.eqb_eq in E. exists kv. split; assumption.
  - intros [kv [E Hin]]. exists kv. split; [exact Hin|].
    rewrite E. apply String.eqb_refl.
Qed.

Lemma keys_dict_set (k : string) (e : CacheEntry) (c : Cache) :
  keys (dict_set k e c) = if dict_mem k c then keys c else keys c ++ [k].
Proof.
  induction c as [|[k' e'] c IH]; simpl; [reflexivity|].
  destruct (String.eqb k' k) eqn:E; simpl.
  - apply String.eqb_eq in E. subst. reflexivity.
  - rewrite IH. fold (dict_mem k c). destruct (dict_mem k c); reflexivity.
Qed.

Lemma dict_set_In (k : string) (e : CacheEntry) (c : Cache) :
  In k (keys (dict_set k e c)).
Proof.
  rewrite keys_dict_set. destruct (dict_mem k c) eqn:E.
  - apply dict_mem_In, E.
  - apply in_or_app. right. left. reflexivity.
Qed.

Lemma dict_set_length (k : string) (e : CacheEntry) (c : Cache) :
  List.length (dict_set k e c) <= S (List.length c).
Proof.
  rewrite <- !(length_map fst). fold (keys (dict_set k e c)) (keys c).
  rewrite keys_dict_set. destruct (dict_mem k c); [lia|].
  rewrite length_app. simpl. lia.
Qed.

Lemma dict_set_NoDup (k : string) (e : CacheEntry) (c : Cache) :
  NoDup (keys c) -> NoDup (keys (dict_set k e c)).
Proof.
  intros Hnd. rewrite keys_dict_set. destruct (dict_mem k c) eqn:E; [exact Hnd|].
  apply NoDup_app; [exact Hnd | repeat constructor; simpl; tauto |].
  intros a Ha [<- | []]. apply dict_mem_In in Ha. congruence.
Qed.

(** The loop of deletions is one filter. *)
Lemma delete_all (ks : list string) :
  forall c, fold_left (fun d key => dict_del key d) ks c = without ks c.
Proof.
  unfold without.
  induction ks as [|k ks IH]; intros c; simpl.
  - induction c as [|kv c IHc]; simpl; [reflexivity | f_equal; exact IHc].
  - rewrite IH. unfold dict_del.
    induction c as [|kv c IHc]; simpl; [reflexivity|].
    destruct (String.eqb (fst kv) k); simpl; rewrite IHc; reflexivity.
Qed.

Lemma keys_filter (p : string -> bool) (c : Cache) :
  keys (filter (fun kv => p (fst kv)) c) = filter p (keys c).
Proof.
  unfold keys. symmetry. apply filter_map_swap.
Qed.

Lemma without_NoDup (ks : list string) (c : Cache) :
  NoDup (keys c) -> NoDup (keys (without ks c)).
Proof.
  unfold without. intros H.
  rewrite (keys_filter (fun k => negb (mem k ks))). apply NoDup_filter, H.
Qed.

Lemma without_length (ks : list string) (c : Cache) :
  NoDup (keys c) -> NoDup ks -> incl ks (keys c) ->
  List.length (without ks c) + List.length ks = List.length c.
Proof.
  intros Hc Hks Hincl.
  assert (Hsplit :
            List.length (filter (fun kv : string * CacheEntry => mem (fst kv) ks) c)
            + List.length (without ks c) = List.length c)
    by exact (filter_length (fun kv : string * CacheEntry => mem (fst kv) ks) c).
  assert (Hsame :
            List.length (filter (fun kv : string * CacheEntry => mem (fst kv) ks) c)
            = List.length ks); [|lia].
  rewrite <- (length_map fst).
  fold (keys (filter (fun kv : string * CacheEntry => mem (fst kv) ks) c)).
  rewrite (keys_filter (fun k => mem k ks)).
  apply Permutation_length, NoDup_Permutation.
  - apply NoDup_filter, Hc.
  - exact Hks.
  - intros x. rewrite filter_In, mem_In. split; [tauto|].
    intros Hx. split; [apply Hincl, Hx | exact Hx].
Qed.

(** ** Eviction *)

Lemma oldest_keys_perm (c : Cache) :
  Permutation (sorted_by (timestamp_of c) (keys c)) (keys c).
Proof. apply sorted_by_perm. Qed.

Lemma oldest_keys_incl (c : Cache) : incl (oldest_keys c) (keys c).
Proof.
  intros k Hk. unfold oldest_keys in Hk.
  apply (Permutation_in _ (oldest_keys_perm c)).
  rewrite <- (firstn_skipn 100). apply in_or_app. left. exact Hk.
Qed.

Lemma oldest_keys_NoDup (c : Cache) :
  NoDup (keys c) -> NoDup (oldest_keys c).
Proof.
  intros H. unfold oldest_keys.
  apply (Permutation_NoDup (Permutation_sym (oldest_keys_perm c))) in H.
  rewrite <- (firstn_skipn 100) in H.
  apply NoDup_app_remove_r in H. exact H.
Qed.

Lemma oldest_keys_length (c : Cache) :
  List.length (oldest_keys c) = Nat.min 100 (List.length c).
Proof.
  unfold oldest_keys. rewrite length_firstn.
  rewrite (Permutation_length (oldest_keys_perm c)).
  unfold keys. rewrite length_map. reflexivity.
Qed.

(** Every evicted key is at least as old as every key that stays. *)
Lemma oldest_keys_oldest (c : Cache) (k k' : string) :
  In k (oldest_keys c) -> In k' (keys c) -> ~ In k' (oldest_keys c) ->
  (timestamp_of c k <= timestamp_of c k')%Z.
Proof.
  intros Hk Hk' Hn.
  apply (sorted_prefix_below (timestamp_of c) _
           (sorted_by_sorted (timestamp_of c) (keys c)) 100 k k' Hk).
  apply (Permutation_in _ (Permutation_sym (oldest_keys_perm c))) in Hk'.
  rewrite <- (firstn_skipn 100) in Hk'.
  apply in_app_or in Hk'. destruct Hk' as [Hk' | Hk']; [|exact Hk'].
  exfalso. apply Hn. exact Hk'.
Qed.

Lemma add_to_processed_cache_eq
      (file_identifier file_hash : string) (found : nat) (now : Z) (c : Cache) :
  add_to_processed_cache file_identifier file_hash found now c
  = dict_set file_identifier (mkEntry file_hash now found)
             (if (MAX_CACHE_SIZE <=? List.length c)%nat
              then without (oldest_keys c) c else c).
Proof.
  unfold add_to_processed_cache. rewrite delete_all. reflexivity.
Qed.

(** The identifier just recorded is in the cache. *)
Lemma add_to_processed_cache_In
      (file_identifier file_hash : string) (found : nat) (now : Z) (c : Cache) :
  In file_identifier
     (keys (add_to_processed_cache file_identifier file_hash found now c)).
Proof. rewrite add_to_processed_cache_eq. apply dict_set_In. Qed.

(** ** The capacity invariant *)

Lemma max_cache_size : MAX_CACHE_SIZE = 1000.
Proof. reflexivity. Qed.

Lemma add_to_processed_cache_ok
      (file_identifier file_hash : string) (found : nat) (now : Z) (c : Cache) :
  cache_ok c ->
  cache_ok (add_to_processed_cache file_identifier file_hash found now c).
Proof.
  intros [Hnd Hlen]. rewrite add_to_processed_cache_eq.
  pose proof max_cache_size as HM.
  destruct (MAX_CACHE_SIZE <=? List.length c)%nat eqn:E; split.
  - apply dict_set_NoDup, without_NoDup, Hnd.
  - apply Nat.leb_le in E.
    pose proof (without_length (oldest_keys c) c Hnd (oldest_keys_NoDup c Hnd)
                  (oldest_keys_incl c)) as Hw.
    pose proof (oldest_keys_length c) as Ho.
    pose proof (dict_set_length file_identifier
                  (mkEntry file_hash now found) (without (oldest_keys c) c)).
    lia.
  - apply dict_set_NoDup, Hnd.
  - apply Nat.leb_gt in E.
    pose proof (dict_set_length file_identifier
                  (mkEntry file_hash now found) c).
    lia.
Qed.

(** ** Sequences of record operations *)

Lemma run_records_ok (ops : list RecordOp) :
  forall c, cache_ok c -> cache_ok (run_records ops c).
Proof.
  unfold run_records.
  induction ops as [|op ops IH]; simpl; intros c H; [exact H|].
  apply IH. apply add_to_processed_cache_ok, H.
Qed.

Lemma empty_cache_ok : cache_ok [].
Proof. split; [constructor | simpl; lia]. Qed.

(** The timestamp a key is sorted by is the [timestamp] field of its
    entry. *)
Lemma timestamp_of_entry (c : Cache) (k : string) (e : CacheEntry) :
  NoDup (keys c) -> In (k, e) c -> timestamp_of c k = timestamp e.
Proof.
  induction c as [|[k0 e0] c IH]; cbn [keys map fst In timestamp_of];
    intros Hnd Hin; [contradiction|].
  inversion Hnd as [|x xs Hnin Hnd']; subst.
  destruct Hin as [E | Hin].
  - inversion E; subst. rewrite String.eqb_refl. reflexivity.
  - destruct (String.eqb k0 k) eqn:E0.
    + apply String.eqb_eq in E0. subst k0. exfalso. apply Hnin.
      change k with (fst (k, e)). apply in_map, Hin.
    + apply IH; assumption.
Qed.

(** A recording stores the entry it was given. *)
Lemma dict_set_entry (k : string) (e : CacheEntry) (c : Cache) :
  In (k, e) (dict_set k e c).
Proof.
  induction c as [|[k0 e0] c IH]; cbn [dict_set]; [left; reflexivity|].
  destruct (String.eqb k0 k); [left; reflexivity | right; exact IH].
Qed.

(** C6. Starting from the empty cache, after any sequence of record
    operations the cache holds at most [MAX_CACHE_SIZE] entries.  Every
    record operation stamps the entry of its identifier with the instant
    of the recording.  A record operation that finds the cache at
    capacity evicts exactly one tenth of the capacity: distinct keys of
    the cache such that the [timestamp] field of an evicted entry is never
    later than the [timestamp] field of an entry that stays; then it
    stores the new entry. *)
Theorem cache_bounded_and_evicts_oldest :
  forall ops : list RecordOp,
    let c := run_records ops [] in
    List.length c <= MAX_CACHE_SIZE /\
    (forall op : RecordOp,
        In (op_identifier op,
            mkEntry (op_hash op) (op_now op) (op_links_found op))
           (record c op)) /\
    forall op : RecordOp,
      MAX_CACHE_SIZE <= List.length c ->
      let evicted := oldest_keys c in
      let kept := without evicted c in
      List.length evicted = MAX_CACHE_SIZE / 10 /\
      NoDup evicted /\
      incl evicted (keys c) /\
      (forall k e k' e',
          In (k, e) c -> In k evicted -> In (k', e') kept ->
          (timestamp e <= timestamp e')%Z) /\
      List.length kept = MAX_CACHE_SIZE - MAX_CACHE_SIZE / 10 /\
      record c op
      = dict_set (op_identifier op)
                 (mkEntry (op_hash op) (op_now op) (op_links_found op)) kept.
Proof.
  intros ops c.
  destruct (run_records_ok ops [] empty_cache_ok) as [Hnd Hlen].
  fold c in Hnd, Hlen.
  split; [exact Hlen|]. split.
  { intros op. unfold record. rewrite add_to_processed_cache_eq.
    apply dict_set_entry. }
  intros op Hfull evicted kept.
  pose proof max_cache_size as HM.
  assert (HM10 : MAX_CACHE_SIZE / 10 = 100) by reflexivity.
  pose proof (oldest_keys_length c) as Ho. fold evicted in Ho.
  pose proof (without_length evicted c Hnd (oldest_keys_NoDup c Hnd)
                (oldest_keys_incl c)) as Hw.
  fold kept in Hw.
  split; [lia|].
  split; [apply oldest_keys_NoDup, Hnd|].
  split; [apply oldest_keys_incl|].
  split; [|split; [lia|]].
  - intros k e k' e' Hk Hev Hk'.
    unfold kept, without in Hk'.
    apply filter_In in Hk'. destruct Hk' as [Hin Hmem]. cbn [fst] in Hmem.
    rewrite <- (timestamp_of_entry c k e Hnd Hk).
    rewrite <- (timestamp_of_entry c k' e' Hnd Hin).
    apply oldest_keys_oldest; [exact Hev | |].
    + change k' with (fst (k', e')). apply in_map, Hin.
    + intros Hev'. apply mem_In in Hev'. fold evicted in Hev'.
      rewrite Hev' in Hmem. discriminate.
  - unfold record. rewrite add_to_processed_cache_eq.
    apply Nat.leb_le in Hfull. rewrite Hfull. reflexivity.
Qed.

(** The theorem applied to the full cache. *)
Lemma cache_bounded_and_evicts_oldest_witness :
  List.length (oldest_keys (run_records thousand_ops [])) = MAX_CACHE_SIZE / 10.
Proof.
  refine (proj1 (proj2 (proj2 (cache_bounded_and_evicts_oldest thousand_ops))
                       (mkOp "new" "" 0 1000) _)).
  vm_compute. apply le_n.
Defined.

End CacheFacts.

(* ====================================================================== *)
(** * Properties of the file extractor *)
(* ====================================================================== *)

Module FileExtractorFacts.
Import PyStr Telethon LinkUtils FileExtractors CacheRuns CacheFacts FileRuns.

Lemma underscore_not_empty (a b : string) :
  is_empty (a ++ "_" ++ b)%string = false.
Proof. destruct a; reflexivity. Qed.

(** [get_file_identifier] never returns an empty identifier. *)
Lemma identifier_not_empty (f : File) : is_empty (identifier_of f) = false.
Proof.
  unfold identifier_of, get_file_identifier.
  destruct (truthy (file_name f)); simpl fst; apply underscore_not_empty.
Qed.

(** A cached attachment is answered from the cache: no links, no
    download, no change. *)
Lemma cached_not_downloaded (env : Env) (message : Message) (f : File)
      (st : FileState) :
  file message = Some f ->
  cached f st = true ->
  extract_links_from_file env message st = ([], st).
Proof.
  unfold cached, identifier_of. intros Hf Hc.
  unfold extract_links_from_file. rewrite Hf.
  destruct (negb (is_file_supported _ _)); [reflexivity|].
  destruct (get_file_identifier f) as [file_identifier original_filename].
  simpl fst in Hc.
  destruct (is_empty file_identifier); [reflexivity|].
  unfold is_file_already_processed. rewrite Hc. reflexivity.
Qed.

(** C8, as stated, fails for an attachment of unsupported type: the
    extractor returns before it builds the identifier and the cache stays
    empty. *)
Lemma unsupported_attachment_not_recorded : ~ every_attachment_is_recorded.
Proof.
  intros H.
  specialize (H no_env photo_message photo (mkFileState [] 1700000000 [])
                eq_refl eq_refl eq_refl).
  vm_compute in H. discriminate.
Qed.

(** C8 (amended). When the attachment is of a supported type, is not
    cached, is not oversized and its download succeeds, the extractor
    records its identifier, whatever the number of links found (zero
    included), and a later message with the same attachment is answered
    from the cache without a download.  An unsupported attachment, and one
    whose download fails, leave the cache as it was. *)
Theorem supported_attachment_is_recorded :
  forall (env : Env) (message : Message) (f : File) (st : FileState),
    file message = Some f ->
    cached f st = false ->
    (supported f = true ->
     (file_size f <= MAX_FILE_SIZE)%Z ->
     forall content, download_media env message = Some content ->
       let st' := snd (extract_links_from_file env message st) in
       cached f st' = true /\
       download_log st' = msg_id message :: download_log st /\
       forall (env' : Env) (message' : Message),
         file message' = Some f ->
         extract_links_from_file env' message' st' = ([], st')) /\
    (supported f = false ->
     extract_links_from_file env message st = ([], st)) /\
    (download_media env message = None ->
     _processed_files (snd (extract_links_from_file env message st))
     = _processed_files st).
Proof.
  intros env message f st Hf Hc.
  unfold supported, cached in *.
  pose proof (identifier_not_empty f) as Hne. unfold identifier_of in *.
  split; [|split].
  - (* recorded *)
    intros Hs Hsize content Hd. cbv zeta.
    assert (Hrec :
              cached f (snd (extract_links_from_file env message st)) = true
              /\ download_log (snd (extract_links_from_file env message st))
                 = msg_id message :: download_log st).
    { unfold cached, identifier_of, extract_links_from_file.
      rewrite Hf, Hs. simpl negb. cbv iota.
      destruct (get_file_identifier f) as [file_identifier original_filename].
      simpl fst in *. rewrite Hne.
      unfold is_file_already_processed, download_file_with_progress.
      rewrite Hc.
      replace (MAX_FILE_SIZE <? file_size f)%Z with false
        by (symmetry; apply Z.ltb_ge; exact Hsize).
      rewrite Hd. cbn [_processed_files clock download_log].
      rewrite Hc, Bool.andb_false_r.
      cbn [snd _processed_files clock download_log].
      split; [|reflexivity].
      apply dict_mem_In, add_to_processed_cache_In. }
    destruct Hrec as [Hcached Hlog].
    split; [exact Hcached | split; [exact Hlog|]].
    intros env' message' Hf'.
    apply (cached_not_downloaded env' message' f _ Hf' Hcached).
  - (* unsupported *)
    intros Hs. unfold extract_links_from_file. rewrite Hf, Hs. reflexivity.
  - (* failed download *)
    intros Hd. unfold extract_links_from_file. rewrite Hf.
    destruct (negb (is_file_supported _ _)); [reflexivity|].
    destruct (get_file_identifier f) as [file_identifier original_filename].
    destruct (is_empty file_identifier); [reflexivity|].
    destruct (is_file_already_processed _ _ _); [reflexivity|].
    unfold download_file_with_progress.
    destruct (MAX_FILE_SIZE <? file_size f)%Z; [reflexivity|].
    rewrite Hd. reflexivity.
Qed.

(** The theorem applied to a text file without links. *)
Lemma supported_attachment_is_recorded_witness :
  let st := mkFileState [] 1700000000 [] in
  fst (extract_links_from_file notes_env notes_message st) = [] /\
  cached empty_notes (snd (extract_links_from_file notes_env notes_message st))
  = true.
Proof.
  intros st. split; [reflexivity|].
  refine (proj1 (proj1 (supported_attachment_is_recorded notes_env
                          notes_message empty_notes st eq_refl eq_refl)
                       _ _ "no links at all" eq_refl)).
  - reflexivity.
  - vm_compute. discriminate.
Defined.

End FileExtractorFacts.

(* ====================================================================== *)
(** * Properties of the coordinator and of the per-message pipeline *)
(* ====================================================================== *)

Module CollectorFacts.
Import PyStr Telethon LinkUtils Database FileExtractors Collector Scenarios.
Import LinkUtilsFacts.

(** C7, as stated, fails: [start_collection] clears the set
    [_processed_files] of [collector.py], not the cache of
    [file_extractors.py], which keeps its entry. *)
Lemma start_collection_keeps_file_cache :
  ~ start_collection_clears_file_cache.
Proof.
  intros H. specialize (H one_session stopped_with_cache).
  vm_compute in H. destruct H as [_ [_ H]]. discriminate.
Qed.

(** Without a configured session nothing is switched on either. *)
Lemma start_collection_without_sessions :
  _collecting (fst (start_collection [] (fresh_state false))) = false.
Proof. reflexivity. Qed.

(** C7 (amended). If collection is already running, or no session is
    configured, [start_collection] changes nothing and spawns no worker.
    Otherwise, before the workers are spawned, [collecting] is true, the
    stop signal is reset, the client list and the collector's own set of
    processed files are empty, and the file extractor's cache and the store
    are as they were; one worker is spawned per session. *)
Theorem start_collection_effect :
  forall (sessions : list Session) (st : State),
    let st' := fst (start_collection sessions st) in
    let spawned := snd (start_collection sessions st) in
    if _collecting st || no_sessions sessions
    then st' = st /\ spawned = []
    else _collecting st' = true /\
         _stop_event st' = false /\
         _clients st' = [] /\
         Collector._processed_files st' = [] /\
         files st' = files st /\
         db st' = db st /\
         spawned = sessions.
Proof.
  intros sessions st. unfold start_collection.
  destruct (_collecting st); simpl; [split; reflexivity|].
  destruct sessions as [|s sessions]; simpl; repeat split; reflexivity.
Qed.

(** ** The comment extractors *)

(** C9. On a post with 150 comments the comment extractor that
    [process_message] invokes ([extract_comment_links], which passes no
    [limit]) is handed all 150 replies, while [extract_comments_links],
    which is imported but not called, stops at 100. *)
Theorem pipeline_comment_extractor_unbounded :
  replies_examined
    (snd (process_message busy_post "account" busy_client (fresh_state true)))
  = 150 /\
  replies_examined
    (snd (extract_comments_links busy_client busy_post "account"
                                 (date busy_post) (fresh_state true)))
  = 100.
Proof. split; vm_compute; reflexivity. Qed.

(** [iter_messages] with a limit never yields more than the limit. *)
Lemma iter_messages_limit (client : Client) (peer reply_to : Z) (n : nat) :
  List.length (iter_messages client peer reply_to (Some n)) <= n.
Proof. unfold iter_messages. apply firstn_le_length. Qed.

Lemma scan_comment_bounded (client : Client) (peer : Z) (links : list string)
      (reply : Message) (st : State) :
  replies_examined (snd (scan_comment client peer links reply st))
  <= replies_examined st + 50.
Proof.
  unfold scan_comment.
  pose proof (iter_messages_limit client peer (msg_id reply) 50).
  destruct (has_sub_replies reply);
    unfold cbind, lift, cret, count_replies; cbn [snd replies_examined]; lia.
Qed.

Lemma scan_comments_bounded (client : Client) (peer : Z) (top : list Message) :
  forall (links : list string) (st : State),
    replies_examined (snd (scan_comments client peer top links st))
    <= replies_examined st + 50 * List.length top.
Proof.
  induction top as [|reply rest IH]; intros links st; simpl; [lia|].
  unfold cbind.
  pose proof (scan_comment_bounded client peer links reply st) as Hstep.
  destruct (scan_comment client peer links reply st) as [[links'|e] st1];
    simpl in *; [|lia].
  specialize (IH links' st1). lia.
Qed.

(** The capped extractor looks at no more than 100 comments and 50
    replies to each. *)
Lemma extract_comments_links_bounded
      (client : Client) (message : Message) (account_name : string)
      (message_date : datetime) (st : State) :
  replies_examined
    (snd (extract_comments_links client message account_name message_date st))
  <= replies_examined st + (100 + 100 * 50).
Proof.
  unfold extract_comments_links.
  destruct (replies message) as [replies_info|]; [|simpl; lia].
  destruct (comments replies_info && (0 <? replies_count replies_info)%Z);
    [|simpl; lia].
  destruct (comments_peer replies_info) as [peer|]; [|simpl; lia].
  cbv zeta. unfold cbind, lift.
  pose proof (iter_messages_limit client peer (msg_id message) 100) as Htop.
  pose proof (scan_comments_bounded client peer
                (iter_messages client peer (msg_id message) (Some 100)) []
                (count_replies
                   (List.length
                      (iter_messages client peer (msg_id message) (Some 100)))
                   st)) as Hscan.
  unfold count_replies in Hscan at 2. cbn [replies_examined] in Hscan.
  lia.
Qed.

Lemma plain_replies_no_links (l : list nat) :
  flat_map extract_links_from_message (map plain_reply l) = [].
Proof.
  induction l as [|i l IH]; [reflexivity|].
  cbn [map flat_map]. rewrite IH. reflexivity.
Qed.

(** However long the thread, [process_message] is handed all of it. *)
Lemma pipeline_examines_every_comment (n : nat) (st : State) :
  replies_examined
    (snd (process_message (post_with (S n)) "account" (client_with (S n)) st))
  = S n + replies_examined st.
Proof.
  unfold process_message.
  change (truthy (text (post_with (S n)))) with true.
  change (extract_links_from_message (post_with (S n))) with (@nil string).
  change (extract_buttons_links (post_with (S n))) with (@nil string).
  cbn [negb process_links_list for_each].
  unfold extract_comment_links.
  change (replies (post_with (S n)))
    with (Some (mkReplies true (Z.of_nat (S n)) (Some 900%Z))).
  cbn [comments replies_count andb].
  replace (0 <? Z.of_nat (S n))%Z with true by (symmetry; apply Z.ltb_lt; lia).
  change (iter_messages (client_with (S n)) (chat_id (post_with (S n)))
                        (msg_id (post_with (S n))) None)
    with (map plain_reply (List.seq 1 (S n))).
  rewrite plain_replies_no_links, length_map, length_seq.
  reflexivity.
Qed.

(** [extract_comment_links] walks the whole thread, whatever its size. *)
Lemma extract_comment_links_whole_thread
      (client : Client) (message : Message) (account_name : string)
      (r : MessageReplies) (st : State) :
  replies message = Some r ->
  comments r = true ->
  (0 < replies_count r)%Z ->
  replies_examined (snd (extract_comment_links client message account_name st))
  = List.length (thread client (chat_id message) (msg_id message))
    + replies_examined st.
Proof.
  intros Hr Hc Hn. unfold extract_comment_links. rewrite Hr, Hc.
  replace (0 <? replies_count r)%Z with true
    by (symmetry; apply Z.ltb_lt; exact Hn).
  reflexivity.
Qed.

(** ** The end-to-end scenario *)

(** Whatever the classifier accepts under a platform other than
    [whatsapp] is dropped by the loop over links: no Telegram link reaches
    [save_link]. *)
Lemma process_link_saves_only_whatsapp
      (link : string) (message : Message) (account_name : string)
      (message_date : datetime) (source_type platform chat_type : string)
      (st : State) :
  filter_and_classify_link link = Some (platform, chat_type) ->
  platform <> "whatsapp" ->
  process_link link message account_name message_date source_type st
  = (Ret tt, st).
Proof.
  intros H Hp.
  pose proof (filter_and_classify_link_range _ _ _ H) as Hr.
  unfold process_link. rewrite H.
  destruct Hr as [<- | [<- | [<- | [<- | []]]]];
    [congruence | reflexivity | reflexivity | reflexivity].
Qed.

(** C1. In the scenario the extractors hand over the three expected
    links and the policy classifies each of them, but neither Telegram
    link can be persisted: for any message, date and state [process_link]
    returns without a call of [save_link], because it saves a Telegram
    link when the platform equals [telegram] and the policy answers
    [telegram_invite_with_plus] or [telegram_invite_without_plus].  With
    the aware dates of the protocol client the backfill stores no row at
    all: the date filter raises on the WhatsApp link of the second
    message and the conversation is abandoned there.  With naive dates it
    stores one row, the WhatsApp link.  The unrelated link is dropped in
    either case. *)
Theorem backfill_scenario_drops_telegram_links :
  extract_links_from_message message1 = ["https://t.me/+AAA"] /\
  extract_buttons_links message2 = ["https://chat.whatsapp.com/BBB"] /\
  fst (extract_links_from_file scenario_env message3 (files (fresh_state true)))
  = ["https://t.me/channelname"] /\
  filter_and_classify_link "https://t.me/+AAA"
  = Some ("telegram_invite_with_plus", "group") /\
  filter_and_classify_link "https://chat.whatsapp.com/BBB"
  = Some ("whatsapp", "group") /\
  filter_and_classify_link "https://t.me/channelname"
  = Some ("telegram_invite_without_plus", "group") /\
  (forall link,
      In link ["https://t.me/+AAA"; "https://t.me/channelname"] ->
      forall (message : Message) (account_name : string)
             (message_date : datetime) (source_type : string) (st : State),
        process_link link message account_name message_date source_type st
        = (Ret tt, st)) /\
  links (disk (db after_backfill)) = [] /\
  Collector.error_log after_backfill = ["Error reading dialog"] /\
  urls (disk (db after_backfill_naive)) = ["https://chat.whatsapp.com/BBB"].
Proof.
  do 6 (split; [vm_compute; reflexivity|]).
  split; [|repeat split; vm_compute; reflexivity].
  intros link Hlink message account_name message_date source_type st.
  destruct Hlink as [<- | [<- | []]].
  - apply (process_link_saves_only_whatsapp
             _ message account_name message_date source_type
             "telegram_invite_with_plus" "group" st);
      [vm_compute; reflexivity | discriminate].
  - apply (process_link_saves_only_whatsapp
             _ message account_name message_date source_type
             "telegram_invite_without_plus" "group" st);
      [vm_compute; reflexivity | discriminate].
Qed.

(** Without text of their own the button message and the file message
    are skipped by [process_message], and nothing at all is stored. *)
Lemma backfill_without_captions_stores_nothing :
  links (disk (db (snd (collect_old_messages bare_client "account"
                                             (fresh_state true))))) = [].
Proof. vm_compute. reflexivity. Qed.

End CollectorFacts.

(* ====================================================================== *)
(** * The classification policy, link shape by link shape *)
(* ====================================================================== *)

Module PolicyFacts.
Import PyStr Telethon LinkUtils PyStrFacts LinkUtilsFacts PolicyPredicates.
Local Open Scope list_scope.
Local Open Scope string_scope.

(** ** Lowering *)

Lemma lower_char_idem (c : ascii) : lower_char (lower_char c) = lower_char c.
Proof. destruct c as [[] [] [] [] [] [] [] []]; reflexivity. Qed.

Lemma lowered_lower (s : string) : lowered (lower s) = true.
Proof.
  unfold lowered. induction s as [|c s IH]; simpl; [reflexivity|].
  rewrite lower_char_idem, Ascii.eqb_refl. exact IH.
Qed.

Lemma lower_lowered (s : string) : lowered s = true -> lower s = s.
Proof.
  unfold lowered. induction s as [|c s IH]; simpl; intros H; [reflexivity|].
  apply andb_prop in H. destruct H as [Hc Hs].
  apply Ascii.eqb_eq in Hc. rewrite Hc, (IH Hs). reflexivity.
Qed.

Lemma lower_idem (s : string) : lower (lower s) = lower s.
Proof. apply lower_lowered, lowered_lower. Qed.

Lemma is_empty_lower (s : string) : is_empty (lower s) = is_empty s.
Proof. destruct s; reflexivity. Qed.

Lemma length_lower (s : string) : String.length (lower s) = String.length s.
Proof. induction s as [|c s IH]; simpl; [|rewrite IH]; reflexivity. Qed.

Lemma all_chars_lower (p : ascii -> bool) (s : string) :
  case_blind p -> all_chars p (lower s) = all_chars p s.
Proof.
  intros Hp. induction s as [|c s IH]; simpl; [reflexivity|].
  rewrite Hp, IH. reflexivity.
Qed.

Lemma case_blind_digit : case_blind is_digit.
Proof. intros c. destruct c as [[] [] [] [] [] [] [] []]; reflexivity. Qed.

Lemma case_blind_alnum : case_blind is_alnum.
Proof. intros c. destruct c as [[] [] [] [] [] [] [] []]; reflexivity. Qed.

Lemma case_blind_tg_char : case_blind tg_char.
Proof. intros c. destruct c as [[] [] [] [] [] [] [] []]; reflexivity. Qed.

Lemma case_blind_url_char : case_blind url_char.
Proof. intros c. destruct c as [[] [] [] [] [] [] [] []]; reflexivity. Qed.

(** A literal pattern is a prefix test on the lowered text. *)
Lemma rmatch_lit {A} (p : string) :
  lowered p = true -> is_empty p = false ->
  forall (s : string) (k : string -> option A),
    rmatch (lit p) s k
    = if startswith p (lower s) then k (drop (String.length p) s) else None.
Proof.
  induction p as [|c p IH]; intros Hl Hne s k; [discriminate|].
  unfold lowered in Hl. simpl in Hl. apply andb_prop in Hl.
  destruct Hl as [Hc Hp]. apply Ascii.eqb_eq in Hc.
  destruct p as [|c' p'].
  - cbn [lit rmatch]. destruct s as [|d s']; [reflexivity|].
    cbn [lower startswith String.length drop]. rewrite Hc.
    destruct (Ascii.eqb c (lower_char d)); reflexivity.
  - change (lit (String c (String c' p')))
      with (Cat (Lit c) (lit (String c' p'))).
    cbn [rmatch]. destruct s as [|d s']; [reflexivity|].
    cbn [lower startswith String.length drop]. rewrite Hc.
    destruct (Ascii.eqb c (lower_char d)); [|reflexivity].
    cbn [andb]. apply (IH Hp eq_refl).
Qed.

Lemma matches_lit (p s : string) :
  lowered p = true -> is_empty p = false ->
  matches (lit p) s = startswith p (lower s).
Proof.
  intros Hl Hne. unfold matches, re_match. rewrite (rmatch_lit p Hl Hne).
  destruct (startswith p (lower s)); reflexivity.
Qed.

(** A literal pattern searched in a text is a substring test on the
    lowered text. *)
Lemma search_lit (p s : string) :
  lowered p = true -> is_empty p = false ->
  search (lit p) s = contains p (lower s).
Proof.
  intros Hl Hne. induction s as [|c s IH].
  - cbn [search contains lower]. rewrite (matches_lit p "" Hl Hne).
    cbn [lower]. destruct (startswith p ""); reflexivity.
  - cbn [search contains lower]. rewrite (matches_lit p _ Hl Hne), IH.
    reflexivity.
Qed.

Lemma rejected_patterns_markers (s : string) :
  existsb (fun pattern => search pattern s) TG_REJECTED_PATTERNS
  = has_reject_marker (lower s).
Proof.
  unfold TG_REJECTED_PATTERNS, has_reject_marker. cbn [existsb].
  rewrite !search_lit by reflexivity.
  rewrite Bool.orb_false_r, !Bool.orb_assoc. reflexivity.
Qed.

(** The pre-filter, branch by branch, on the lowered link. *)
Lemma prefilter_markers (link : string) :
  is_valid_link_for_extraction link
  = if is_empty link then false
    else if has_reject_marker (lower link) then false
         else has_platform_marker (lower link).
Proof.
  unfold is_valid_link_for_extraction, has_platform_marker.
  destruct (is_empty link); [reflexivity|].
  rewrite rejected_patterns_markers, lower_idem.
  destruct (has_reject_marker (lower link)); [reflexivity|].
  destruct (contains "t.me" (lower link) || contains "telegram.me" (lower link));
    [reflexivity|].
  cbn [orb].
  destruct (contains "whatsapp.com" (lower link) || contains "wa.me" (lower link));
    reflexivity.
Qed.

(** X1. On a link of 7-bit (ASCII) characters the pre-filter of the
    extractors is a test on substrings of the lowered link: a non-empty
    link passes when it holds none of [/bot/], [t.me/bot], [/invite/],
    [t.me/invite] and one of [t.me], [telegram.me], [whatsapp.com],
    [wa.me].  On ASCII text the four compiled patterns add nothing to
    plain substring search. *)
Theorem prefilter_by_substrings (link : string) :
  is_ascii link = true ->
  is_valid_link_for_extraction link
  = negb (is_empty link)
    && negb (has_reject_marker (lower link))
    && has_platform_marker (lower link).
Proof.
  intros _. rewrite prefilter_markers.
  destruct (is_empty link); [reflexivity|].
  destruct (has_reject_marker (lower link)); reflexivity.
Qed.

Lemma prefilter_by_substrings_witness :
  is_valid_link_for_extraction "HTTPS://T.ME/Invites" = false /\
  is_valid_link_for_extraction "https://Chat.WhatsApp.com/BBB" = true.
Proof.
  split.
  - exact (prefilter_by_substrings "HTTPS://T.ME/Invites" eq_refl).
  - exact (prefilter_by_substrings "https://Chat.WhatsApp.com/BBB" eq_refl).
Defined.

(** ** Matching ignores case *)

Lemma plus_match_case_blind {A B} (p : ascii -> bool) :
  case_blind p ->
  forall (s : string) (k : string -> option A) (k' : string -> option B),
    (forall rest, is_some (k (lower rest)) = is_some (k' rest)) ->
    is_some (plus_match p (lower s) k) = is_some (plus_match p s k').
Proof.
  intros Hp s k k' Hk. induction s as [|c s IH]; [reflexivity|].
  cbn [lower plus_match]. rewrite Hp. destruct (p c); [|reflexivity].
  specialize (Hk s).
  destruct (plus_match p (lower s) k), (plus_match p s k');
    simpl in *; try congruence.
Qed.

(** Matching ignores the case of the text: a pattern matches a text when
    it matches the lowered text. *)
Lemma rmatch_case_blind (r : re) :
  re_case_blind r ->
  forall {A B} (s : string) (k : string -> option A) (k' : string -> option B),
    (forall rest, is_some (k (lower rest)) = is_some (k' rest)) ->
    is_some (rmatch r (lower s) k) = is_some (rmatch r s k').
Proof.
  induction r as [c | p | r1 IH1 r2 IH2 | r1 IH1 | p | r1 IH1];
    intros Hr A B s k k' Hk; cbn [rmatch re_case_blind] in *.
  - destruct s as [|d s']; [reflexivity|]. cbn [lower].
    rewrite lower_char_idem.
    destruct (Ascii.eqb (lower_char c) (lower_char d)); [apply Hk | reflexivity].
  - destruct s as [|d s']; [reflexivity|]. cbn [lower]. rewrite Hr.
    destruct (p d); [apply Hk | reflexivity].
  - destruct Hr as [H1 H2]. apply (IH1 H1). intros rest. apply (IH2 H2), Hk.
  - specialize (IH1 Hr A B s k k' Hk). specialize (Hk s).
    destruct (rmatch r1 (lower s) k), (rmatch r1 s k');
      simpl in *; congruence.
  - apply plus_match_case_blind; assumption.
  - specialize (IH1 Hr unit unit s (fun _ => Some tt) (fun _ => Some tt)
                    (fun _ => eq_refl)).
    specialize (Hk s).
    destruct (rmatch r1 (lower s) (fun _ => Some tt)),
             (rmatch r1 s (fun _ => Some tt));
      simpl in *; congruence.
Qed.

Lemma matches_lower (r : re) (s : string) :
  re_case_blind r -> matches r (lower s) = matches r s.
Proof.
  intros Hr. unfold matches, re_match.
  apply (rmatch_case_blind r Hr (A:=string) (B:=string)).
  intros rest. reflexivity.
Qed.

Lemma lit_case_blind (p : string) : re_case_blind (lit p).
Proof.
  induction p as [|c p IH]; [exact I|].
  destruct p; [exact I | split; [exact I | exact IH]].
Qed.

Lemma policy_patterns_case_blind :
  re_case_blind TG_PLUS_INVITE_REGEX /\ re_case_blind TG_WITHOUT_PLUS_REGEX /\
  re_case_blind WA_GROUP_REGEX /\ re_case_blind WA_PHONE_REGEX /\
  re_case_blind URL_REGEX.
Proof.
  unfold TG_PLUS_INVITE_REGEX, TG_WITHOUT_PLUS_REGEX, WA_GROUP_REGEX,
    WA_PHONE_REGEX, URL_REGEX, https_prefix.
  cbn [re_case_blind].
  repeat split;
    auto using lit_case_blind, case_blind_tg_char, case_blind_alnum,
      case_blind_digit, case_blind_url_char.
Qed.

Lemma is_valid_link_for_extraction_lower (link : string) :
  is_valid_link_for_extraction (lower link) = is_valid_link_for_extraction link.
Proof.
  rewrite !prefilter_markers, lower_idem, is_empty_lower. reflexivity.
Qed.

Lemma is_valid_telegram_link_lower (link : string) :
  is_valid_telegram_link (lower link) = is_valid_telegram_link link.
Proof. unfold is_valid_telegram_link. rewrite lower_idem. reflexivity. Qed.

Lemma classify_telegram_link_lower (url : string) :
  classify_telegram_link (lower url) = classify_telegram_link url.
Proof.
  destruct policy_patterns_case_blind as (H1 & H2 & _).
  unfold classify_telegram_link.
  rewrite lower_idem, (matches_lower _ _ H1), (matches_lower _ _ H2).
  reflexivity.
Qed.

Lemma classify_whatsapp_link_lower (url : string) :
  classify_whatsapp_link (lower url) = classify_whatsapp_link url.
Proof.
  destruct policy_patterns_case_blind as (_ & _ & H3 & H4 & _).
  unfold classify_whatsapp_link.
  rewrite (matches_lower _ _ H3), (matches_lower _ _ H4). reflexivity.
Qed.

(** X2. The classification does not depend on the case of the URL: a
    link and its lowered form are rejected together or get the same
    platform and chat type. *)
Theorem classification_ignores_case (url : string) :
  filter_and_classify_link (lower url) = filter_and_classify_link url.
Proof.
  unfold filter_and_classify_link.
  rewrite is_valid_link_for_extraction_lower, lower_idem,
    is_valid_telegram_link_lower, classify_telegram_link_lower,
    classify_whatsapp_link_lower.
  reflexivity.
Qed.

(** ** Texts made of handle characters *)

Lemma startswith_all_chars (q : ascii -> bool) (p s : string) :
  startswith p s = true -> all_chars q s = true -> all_chars q p = true.
Proof.
  revert s. induction p as [|a p IH]; intros s Hs Hq; [reflexivity|].
  destruct s as [|b s]; [discriminate|].
  cbn [startswith all_chars] in *.
  apply andb_prop in Hs. destruct Hs as [Hab Hs].
  apply andb_prop in Hq. destruct Hq as [Hb Hq].
  apply Ascii.eqb_eq in Hab. subst b. rewrite Hb. exact (IH s Hs Hq).
Qed.

(** A text made of characters of a class contains no string that has a
    character outside the class. *)
Lemma contains_outside (q : ascii -> bool) (p s : string) :
  all_chars q p = false -> all_chars q s = true -> contains p s = false.
Proof.
  intros Hp. induction s as [|c s IH]; intros Hq.
  - cbn [contains]. destruct (startswith p "") eqn:E; [|reflexivity].
    rewrite (startswith_all_chars q p "" E Hq) in Hp. discriminate.
  - cbn [contains]. cbn [all_chars] in Hq. apply andb_prop in Hq.
    destruct Hq as [Hc Hs]. rewrite (IH Hs), Bool.orb_false_r.
    destruct (startswith p (String c s)) eqn:E; [|reflexivity].
    assert (Hq : all_chars q (String c s) = true)
      by (cbn [all_chars]; rewrite Hc, Hs; reflexivity).
    rewrite (startswith_all_chars q p _ E Hq) in Hp. discriminate.
Qed.

Lemma startswith_outside (q : ascii -> bool) (p s : string) :
  all_chars q p = false -> all_chars q s = true -> startswith p s = false.
Proof.
  intros Hp Hq. destruct (startswith p s) eqn:E; [|reflexivity].
  rewrite (startswith_all_chars q p s E Hq) in Hp. discriminate.
Qed.

(** A text without the separator is one piece. *)
Lemma split_go_one_piece (sep s cur : string) :
  contains sep s = false -> split_go sep s 0 cur = [rev_string cur s].
Proof.
  revert cur. induction s as [|c s IH]; intros cur H; [reflexivity|].
  cbn [contains] in H. apply Bool.orb_false_iff in H. destruct H as [H1 H2].
  cbn [split_go]. rewrite H1. rewrite (IH _ H2). reflexivity.
Qed.

Lemma split_one_piece (sep s : string) :
  contains sep s = false -> split sep s = [s].
Proof. intros H. unfold split. rewrite (split_go_one_piece _ _ _ H). reflexivity. Qed.

(** The greedy repetition swallows a text made of the class whole when the
    continuation accepts the end of the text. *)
Lemma plus_match_whole {A} (p : ascii -> bool) (k : string -> option A)
      (x : A) (s : string) :
  all_chars p s = true -> is_empty s = false -> k "" = Some x ->
  plus_match p s k = Some x.
Proof.
  intros Hp Hne Hk. induction s as [|c s IH]; [discriminate|].
  cbn [all_chars] in Hp. apply andb_prop in Hp. destruct Hp as [Hc Hs].
  cbn [plus_match]. rewrite Hc.
  destruct s as [|d s'].
  - cbn [plus_match]. exact Hk.
  - rewrite (IH Hs eq_refl). reflexivity.
Qed.

Lemma remove_char_lower (c : ascii) (s : string) :
  (forall d, Ascii.eqb (lower_char d) c = Ascii.eqb d c) ->
  remove_char c (lower s) = lower (remove_char c s).
Proof.
  intros Hc. induction s as [|d s IH]; [reflexivity|].
  cbn [lower remove_char]. rewrite Hc.
  destruct (Ascii.eqb d c); [exact IH | cbn [lower]; rewrite IH; reflexivity].
Qed.

Lemma eqb_lower_underscore (d : ascii) :
  Ascii.eqb (lower_char d) "_" = Ascii.eqb d "_".
Proof. destruct d as [[] [] [] [] [] [] [] []]; reflexivity. Qed.

Lemma eqb_lower_hyphen (d : ascii) :
  Ascii.eqb (lower_char d) "-" = Ascii.eqb d "-".
Proof. destruct d as [[] [] [] [] [] [] [] []]; reflexivity. Qed.

Lemma isalnum_lower (s : string) : isalnum (lower s) = isalnum s.
Proof.
  unfold isalnum.
  rewrite is_empty_lower, (all_chars_lower _ _ case_blind_alnum). reflexivity.
Qed.

Lemma isdigit_lower (s : string) : isdigit (lower s) = isdigit s.
Proof.
  unfold isdigit.
  rewrite is_empty_lower, (all_chars_lower _ _ case_blind_digit). reflexivity.
Qed.

Lemma handle_chars_lower (s : string) :
  isalnum (remove_char "-" (remove_char "_" (lower s)))
  = isalnum (remove_char "-" (remove_char "_" s)).
Proof.
  rewrite (remove_char_lower "_" s eqb_lower_underscore),
    (remove_char_lower "-" _ eqb_lower_hyphen).
  apply isalnum_lower.
Qed.

Lemma all_chars_weaken (p q : ascii -> bool) (s : string) :
  (forall c, p c = true -> q c = true) ->
  all_chars p s = true -> all_chars q s = true.
Proof.
  intros Hpq. induction s as [|c s IH]; [reflexivity|].
  cbn [all_chars]. intros H. apply andb_prop in H. destruct H as [Hc Hs].
  rewrite (Hpq c Hc), (IH Hs). reflexivity.
Qed.

Lemma tg_char_facts (c : ascii) :
  tg_char c = true ->
  is_space c = false /\ Ascii.eqb c "/" = false /\ Ascii.eqb c "." = false /\
  Ascii.eqb c "?" = false /\ Ascii.eqb c "+" = false.
Proof.
  destruct c as [[] [] [] [] [] [] [] []]; vm_compute; intuition congruence.
Qed.

Lemma alnum_is_tg_char (c : ascii) : is_alnum c = true -> tg_char c = true.
Proof. unfold tg_char. intros ->. reflexivity. Qed.
Lemma tg_chars_not (x : ascii) (s : string) :
  (forall c, tg_char c = true -> Ascii.eqb c x = false) ->
  all_chars tg_char s = true -> all_chars (not_char x) s = true.
Proof.
  intros Hx. apply all_chars_weaken. intros c Hc. unfold not_char.
  rewrite (Hx c Hc). reflexivity.
Qed.

Lemma tg_chars_no_slash (s : string) :
  all_chars tg_char s = true -> all_chars (not_char "/") s = true.
Proof. apply tg_chars_not. intros c Hc. apply (tg_char_facts c Hc). Qed.

Lemma tg_chars_no_dot (s : string) :
  all_chars tg_char s = true -> all_chars (not_char ".") s = true.
Proof. apply tg_chars_not. intros c Hc. apply (tg_char_facts c Hc). Qed.

Lemma tg_chars_no_question (s : string) :
  all_chars tg_char s = true -> all_chars (not_char "?") s = true.
Proof. apply tg_chars_not. intros c Hc. apply (tg_char_facts c Hc). Qed.

Lemma tg_chars_no_space (s : string) :
  all_chars tg_char s = true ->
  all_chars (fun c => negb (is_space c)) s = true.
Proof.
  apply all_chars_weaken. intros c Hc.
  destruct (tg_char_facts c Hc) as [-> _]. reflexivity.
Qed.

(** No reject marker and no dotted marker fits in a handle. *)
Lemma handle_has_no_marker (l : string) :
  all_chars tg_char l = true ->
  contains "/bot/" l = false /\ contains "t.me/bot" l = false /\
  contains "/invite/" l = false /\ contains "t.me/invite" l = false /\
  startswith "bot/" l = false /\ startswith "invite/" l = false /\
  contains "t.me" l = false /\ contains "telegram.me" l = false /\
  contains "t.me/" l = false /\ contains "?" l = false /\
  contains "/" l = false /\ contains "c/" l = false /\
  contains "channel/" l = false.
Proof.
  intros H.
  pose proof (tg_chars_no_slash l H) as Hs.
  pose proof (tg_chars_no_dot l H) as Hd.
  pose proof (tg_chars_no_question l H) as Hq.
  repeat split;
    first [ apply (contains_outside (not_char "/")); [reflexivity | exact Hs]
          | apply (contains_outside (not_char ".")); [reflexivity | exact Hd]
          | apply (contains_outside (not_char "?")); [reflexivity | exact Hq]
          | apply (startswith_outside (not_char "/")); [reflexivity | exact Hs] ].
Qed.

(** ** Plain handles: [https://t.me/name] *)

Lemma handle_not_plus (l : string) :
  all_chars tg_char l = true -> startswith "+" l = false.
Proof.
  destruct l as [|c l]; [reflexivity|]. cbn [all_chars startswith].
  intros H. apply andb_prop in H. destruct H as [Hc _].
  destruct (tg_char_facts c Hc) as (_ & _ & _ & _ & Hp).
  rewrite Ascii.eqb_sym, Hp. reflexivity.
Qed.

Section PlainHandle.
Variable name : string.
Hypothesis Hname : all_chars tg_char name = true.
Hypothesis Halnum : isalnum (remove_char "-" (remove_char "_" name)) = true.

Let l := lower name.

Lemma lowered_handle_chars : all_chars tg_char l = true.
Proof. unfold l. rewrite (all_chars_lower _ _ case_blind_tg_char). exact Hname. Qed.

Lemma handle_not_empty : is_empty name = false.
Proof.
  destruct name; [|reflexivity]. vm_compute in Halnum. discriminate.
Qed.

Lemma plain_lower :
  lower ("https://t.me/" ++ name) = "https://t.me/" ++ l.
Proof. reflexivity. Qed.

Lemma plain_markers :
  has_reject_marker ("https://t.me/" ++ l) = reserved_handle name.
Proof.
  destruct (handle_has_no_marker l lowered_handle_chars)
    as (H1 & H2 & H3 & H4 & H5 & H6 & _).
  unfold has_reject_marker, reserved_handle. fold l.
  change (contains "/bot/" ("https://t.me/" ++ l))
    with (startswith "bot/" l || contains "/bot/" l).
  change (contains "t.me/bot" ("https://t.me/" ++ l))
    with (startswith "bot" l || contains "t.me/bot" l).
  change (contains "/invite/" ("https://t.me/" ++ l))
    with (startswith "invite/" l || contains "/invite/" l).
  change (contains "t.me/invite" ("https://t.me/" ++ l))
    with (startswith "invite" l || contains "t.me/invite" l).
  rewrite H1, H2, H3, H4, H5, H6.
  destruct (startswith "bot" l), (startswith "invite" l); reflexivity.
Qed.

Lemma plain_prefilter :
  is_valid_link_for_extraction ("https://t.me/" ++ name)
  = negb (reserved_handle name).
Proof.
  rewrite prefilter_markers, plain_lower, plain_markers.
  change (is_empty ("https://t.me/" ++ name)) with false. cbv iota.
  unfold has_platform_marker.
  change (contains "t.me" ("https://t.me/" ++ l)) with true.
  destruct (reserved_handle name); reflexivity.
Qed.

Lemma plain_valid :
  is_valid_telegram_link ("https://t.me/" ++ name)
  = negb (reserved_handle name).
Proof.
  destruct (handle_has_no_marker l lowered_handle_chars)
    as (_ & _ & _ & _ & _ & _ & _ & _ & H9 & H10 & H11 & _).
  unfold is_valid_telegram_link. rewrite plain_lower.
  rewrite strip_no_space by exact (tg_chars_no_space l lowered_handle_chars).
  rewrite rejected_patterns_markers.
  change (lower ("https://t.me/" ++ l)) with ("https://t.me/" ++ lower l).
  unfold l at 1. rewrite lower_idem. fold l. rewrite plain_markers.
  destruct (reserved_handle name); [reflexivity|].
  change (contains "t.me/" ("https://t.me/" ++ l)) with true.
  change (split "t.me/" ("https://t.me/" ++ l))
    with ("https://" :: split_go "t.me/" l 0 "").
  rewrite (split_go_one_piece "t.me/" l "" H9).
  cbn [negb rev_string hd].
  rewrite (split_one_piece "?" l H10). cbn [hd].
  rewrite (split_one_piece "/" l H11). cbn [hd List.length].
  change (1 <? 1)%nat with false.
  rewrite (handle_not_plus l lowered_handle_chars). cbn [andb].
  unfold l. rewrite handle_chars_lower. exact Halnum.
Qed.

Lemma plain_classify :
  classify_telegram_link ("https://t.me/" ++ name)
  = ("invite_without_plus", "group").
Proof.
  destruct (handle_has_no_marker l lowered_handle_chars)
    as (_ & _ & _ & _ & _ & _ & _ & _ & _ & _ & _ & H12 & H13).
  pose proof handle_not_empty as Hne.
  unfold classify_telegram_link. rewrite plain_lower.
  assert (Hplus : matches TG_PLUS_INVITE_REGEX ("https://t.me/" ++ name) = false).
  { destruct name as [|d s'] eqn:En; [discriminate|].
    cbn [all_chars] in Hname. apply andb_prop in Hname.
    destruct Hname as [Hd _].
    assert (Hnp : Ascii.eqb (lower_char "+") (lower_char d) = false).
    { destruct d as [[] [] [] [] [] [] [] []]; vm_compute in Hd |- *;
        congruence. }
    change (matches TG_PLUS_INVITE_REGEX ("https://t.me/" ++ String d s'))
      with (match
               (match (if Ascii.eqb (lower_char "+") (lower_char d)
                       then plus_match tg_char s' (fun rest => Some rest)
                       else None)
                with Some x => Some x | None => None end)
             with Some _ => true | None => false end).
    rewrite Hnp. reflexivity. }
  rewrite Hplus.
  assert (Hplain : matches TG_WITHOUT_PLUS_REGEX ("https://t.me/" ++ name) = true).
  { change (matches TG_WITHOUT_PLUS_REGEX ("https://t.me/" ++ name))
      with (match
               (match plus_match tg_char name
                        (fun s' => rmatch (NotAhead (Lit "/")) s'
                                          (fun rest => Some rest))
                with Some x => Some x | None => None end)
             with Some _ => true | None => false end).
    rewrite (plus_match_whole tg_char
               (fun s' => rmatch (NotAhead (Lit "/")) s' (fun rest => Some rest))
               "" name Hname Hne eq_refl).
    reflexivity. }
  rewrite Hplain. cbn [existsb].
  change (contains "c/" ("https://t.me/" ++ l)) with (contains "c/" l).
  change (contains "channel/" ("https://t.me/" ++ l)) with (contains "channel/" l).
  rewrite H12, H13. reflexivity.
Qed.

End PlainHandle.

(** X3. A link [https://t.me/name] whose name is made of letters,
    digits, underscores and hyphens, with a letter or digit among them, is
    classified as a Telegram invite without plus to a group, unless the
    name starts with [bot] or [invite] in any case, which rejects it. *)
Theorem plain_handle_classification (name : string) :
  all_chars tg_char name = true ->
  isalnum (remove_char "-" (remove_char "_" name)) = true ->
  filter_and_classify_link ("https://t.me/" ++ name)
  = if reserved_handle name then None
    else Some ("telegram_invite_without_plus", "group").
Proof.
  intros Hname Halnum. unfold filter_and_classify_link.
  rewrite (plain_prefilter name Hname).
  destruct (reserved_handle name) eqn:Hr; [reflexivity|].
  cbn [negb]. rewrite plain_lower.
  change (contains "t.me" ("https://t.me/" ++ lower name)) with true.
  cbn [orb].
  rewrite (plain_valid name Hname Halnum), Hr, (plain_classify name Hname Halnum).
  reflexivity.
Qed.

Lemma plain_handle_classification_witness :
  filter_and_classify_link "https://t.me/channel_name-2"
  = Some ("telegram_invite_without_plus", "group") /\
  filter_and_classify_link "https://t.me/Botanics" = None.
Proof.
  split.
  - exact (plain_handle_classification "channel_name-2" eq_refl eq_refl).
  - exact (plain_handle_classification "Botanics" eq_refl eq_refl).
Defined.

(** ** Invites with a plus: [https://t.me/+code] *)

Section PlusInvite.
Variable code : string.
Hypothesis Hcode : all_chars tg_char code = true.
Hypothesis Halnum : isalnum (remove_char "-" (remove_char "_" code)) = true.

Let l := lower code.

Lemma lowered_code_chars : all_chars tg_char l = true.
Proof. unfold l. rewrite (all_chars_lower _ _ case_blind_tg_char). exact Hcode. Qed.

Lemma code_not_empty : is_empty code = false.
Proof. destruct code; [|reflexivity]. vm_compute in Halnum. discriminate. Qed.

Lemma plus_markers : has_reject_marker ("https://t.me/+" ++ l) = false.
Proof.
  destruct (handle_has_no_marker l lowered_code_chars)
    as (H1 & H2 & H3 & H4 & _).
  unfold has_reject_marker.
  change (contains "/bot/" ("https://t.me/+" ++ l)) with (contains "/bot/" l).
  change (contains "t.me/bot" ("https://t.me/+" ++ l))
    with (contains "t.me/bot" l).
  change (contains "/invite/" ("https://t.me/+" ++ l))
    with (contains "/invite/" l).
  change (contains "t.me/invite" ("https://t.me/+" ++ l))
    with (contains "t.me/invite" l).
  rewrite H1, H2, H3, H4. reflexivity.
Qed.

Lemma plus_prefilter :
  is_valid_link_for_extraction ("https://t.me/+" ++ code) = true.
Proof.
  rewrite prefilter_markers.
  change (lower ("https://t.me/+" ++ code)) with ("https://t.me/+" ++ l).
  rewrite plus_markers. reflexivity.
Qed.

Lemma plus_valid :
  is_valid_telegram_link ("https://t.me/+" ++ code)
  = negb (looks_like_phone code).
Proof.
  pose proof lowered_code_chars as Hl.
  destruct (handle_has_no_marker l Hl)
    as (_ & _ & _ & _ & _ & _ & _ & _ & H9 & H10 & H11 & _).
  unfold is_valid_telegram_link.
  change (lower ("https://t.me/+" ++ code)) with ("https://t.me/+" ++ l).
  rewrite strip_no_space by exact (tg_chars_no_space l Hl).
  rewrite rejected_patterns_markers.
  change (lower ("https://t.me/+" ++ l)) with ("https://t.me/+" ++ lower l).
  unfold l at 1. rewrite lower_idem. fold l. rewrite plus_markers.
  change (contains "t.me/" ("https://t.me/+" ++ l)) with true.
  change (split "t.me/" ("https://t.me/+" ++ l))
    with ("https://" :: split_go "t.me/" l 0 "+").
  rewrite (split_go_one_piece "t.me/" l "+" H9).
  cbn [negb rev_string hd].
  change (split "?" (String "+" l)) with (split_go "?" l 0 "+").
  rewrite (split_go_one_piece "?" l "+" H10). cbn [rev_string hd].
  change (split "/" (String "+" l)) with (split_go "/" l 0 "+").
  rewrite (split_go_one_piece "/" l "+" H11). cbn [rev_string hd List.length].
  change (1 <? 1)%nat with false.
  change (startswith "+" (String "+" l)) with true.
  change (drop 1 (String "+" l)) with l.
  change (String.length (String "+" l)) with (S (String.length l)).
  unfold l. rewrite handle_chars_lower, Halnum, isdigit_lower, length_lower.
  unfold looks_like_phone. cbn [andb].
  destruct (isdigit code); cbn [andb];
    [|rewrite Bool.andb_false_r; reflexivity].
  destruct (7 <=? String.length code)%nat eqn:E7;
    destruct (String.length code <=? 11)%nat eqn:E11;
    destruct (String.length code <=? 12)%nat eqn:E12;
    destruct (S (String.length code) <=? 12)%nat eqn:E13;
    try reflexivity;
    repeat match goal with
           | H : (_ <=? _)%nat = true |- _ => apply Nat.leb_le in H
           | H : (_ <=? _)%nat = false |- _ => apply Nat.leb_gt in H
           end; lia.
Qed.

Lemma plus_classify :
  classify_telegram_link ("https://t.me/+" ++ code)
  = ("invite_with_plus", "group").
Proof.
  unfold classify_telegram_link.
  change (matches TG_PLUS_INVITE_REGEX ("https://t.me/+" ++ code))
    with (match
             (match plus_match tg_char code (fun rest => Some rest)
              with Some x => Some x | None => None end)
           with Some _ => true | None => false end).
  rewrite (plus_match_whole tg_char (fun rest => Some rest) "" code
             Hcode code_not_empty eq_refl).
  reflexivity.
Qed.

End PlusInvite.

(** X4. A link [https://t.me/+code] whose code is made of letters,
    digits, underscores and hyphens, with a letter or digit among them, is
    classified as a Telegram invite with plus to a group, unless the code
    is 7 to 11 digits, which rejects it as a phone number. *)
Theorem plus_invite_classification (code : string) :
  all_chars tg_char code = true ->
  isalnum (remove_char "-" (remove_char "_" code)) = true ->
  filter_and_classify_link ("https://t.me/+" ++ code)
  = if looks_like_phone code then None
    else Some ("telegram_invite_with_plus", "group").
Proof.
  intros Hcode Halnum. unfold filter_and_classify_link.
  rewrite (plus_prefilter code Hcode). cbn [negb].
  change (lower ("https://t.me/+" ++ code)) with ("https://t.me/+" ++ lower code).
  change (contains "t.me" ("https://t.me/+" ++ lower code)) with true.
  cbn [orb].
  rewrite (plus_valid code Hcode Halnum), (plus_classify code Hcode Halnum).
  destruct (looks_like_phone code); reflexivity.
Qed.

Lemma plus_invite_classification_witness :
  filter_and_classify_link "https://t.me/+AbC_dEf-123"
  = Some ("telegram_invite_with_plus", "group") /\
  filter_and_classify_link "https://t.me/+4915212345" = None.
Proof.
  split.
  - exact (plus_invite_classification "AbC_dEf-123" eq_refl eq_refl).
  - exact (plus_invite_classification "4915212345" eq_refl eq_refl).
Defined.

(** ** WhatsApp *)


(** X5. A link [https://chat.whatsapp.com/code] with a non-empty code of
    letters and digits is classified as a WhatsApp group, whatever the
    code. *)
Theorem whatsapp_group_classification (code : string) :
  all_chars is_alnum code = true ->
  is_empty code = false ->
  filter_and_classify_link ("https://chat.whatsapp.com/" ++ code)
  = Some ("whatsapp", "group").
Proof.
  intros Hcode Hne.
  assert (Hl : all_chars tg_char (lower code) = true).
  { rewrite (all_chars_lower _ _ case_blind_tg_char).
    exact (all_chars_weaken _ _ _ alnum_is_tg_char Hcode). }
  set (l := lower code) in *.
  destruct (handle_has_no_marker l Hl)
    as (H1 & H2 & H3 & H4 & H5 & H6 & H7 & H8 & _).
  assert (Hm : has_reject_marker ("https://chat.whatsapp.com/" ++ l) = false).
  { unfold has_reject_marker.
    change (contains "/bot/" ("https://chat.whatsapp.com/" ++ l))
      with (startswith "bot/" l || contains "/bot/" l).
    change (contains "t.me/bot" ("https://chat.whatsapp.com/" ++ l))
      with (contains "t.me/bot" l).
    change (contains "/invite/" ("https://chat.whatsapp.com/" ++ l))
      with (startswith "invite/" l || contains "/invite/" l).
    change (contains "t.me/invite" ("https://chat.whatsapp.com/" ++ l))
      with (contains "t.me/invite" l).
    rewrite H1, H2, H3, H4, H5, H6. reflexivity. }
  unfold filter_and_classify_link.
  rewrite prefilter_markers.
  change (lower ("https://chat.whatsapp.com/" ++ code))
    with ("https://chat.whatsapp.com/" ++ l).
  rewrite Hm.
  change (is_empty ("https://chat.whatsapp.com/" ++ code)) with false.
  cbv iota. unfold has_platform_marker.
  change (contains "t.me" ("https://chat.whatsapp.com/" ++ l))
    with (contains "t.me" l).
  change (contains "telegram.me" ("https://chat.whatsapp.com/" ++ l))
    with (contains "telegram.me" l).
  change (contains "whatsapp.com" ("https://chat.whatsapp.com/" ++ l)) with true.
  rewrite H7, H8. cbn [negb andb orb].
  unfold classify_whatsapp_link.
  change (matches WA_GROUP_REGEX ("https://chat.whatsapp.com/" ++ code))
    with (match
             (match plus_match is_alnum code (fun rest => Some rest)
              with Some x => Some x | None => None end)
           with Some _ => true | None => false end).
  rewrite (plus_match_whole is_alnum (fun rest => Some rest) "" code
             Hcode Hne eq_refl).
  reflexivity.
Qed.

Lemma whatsapp_group_classification_witness :
  filter_and_classify_link "https://chat.whatsapp.com/Bot4Invite2"
  = Some ("whatsapp", "group").
Proof.
  exact (whatsapp_group_classification "Bot4Invite2" eq_refl eq_refl).
Defined.

(** X6. A link that starts with [https://wa.me/] is never stored as a
    WhatsApp link: it is rejected, except that a tail with a Telegram
    marker sends it through the Telegram branch, where it is either
    rejected or comes out as [telegram_unknown]. *)
Theorem wa_me_link_classification (s : string) :
  filter_and_classify_link ("https://wa.me/" ++ s) = None \/
  (contains "t.me" (lower s) || contains "telegram.me" (lower s) = true /\
   filter_and_classify_link ("https://wa.me/" ++ s)
   = Some ("telegram_unknown", "unknown")).
Proof.
  assert (Hgroup : classify_whatsapp_link ("https://wa.me/" ++ s) <> "group").
  { unfold classify_whatsapp_link.
    change (matches WA_GROUP_REGEX ("https://wa.me/" ++ s)) with false.
    destruct (matches WA_PHONE_REGEX ("https://wa.me/" ++ s)); discriminate. }
  unfold filter_and_classify_link.
  destruct (negb (is_valid_link_for_extraction _)); [left; reflexivity|].
  change (lower ("https://wa.me/" ++ s)) with ("https://wa.me/" ++ lower s).
  change (contains "t.me" ("https://wa.me/" ++ lower s))
    with (contains "t.me" (lower s)).
  change (contains "telegram.me" ("https://wa.me/" ++ lower s))
    with (contains "telegram.me" (lower s)).
  destruct (contains "t.me" (lower s) || contains "telegram.me" (lower s)).
  - destruct (negb (is_valid_telegram_link _)); [left; reflexivity|].
    right. split; [reflexivity|].
    unfold classify_telegram_link.
    change (matches TG_PLUS_INVITE_REGEX ("https://wa.me/" ++ s)) with false.
    change (matches TG_WITHOUT_PLUS_REGEX ("https://wa.me/" ++ s)) with false.
    reflexivity.
  - left.
    destruct (contains "whatsapp.com" _ || contains "wa.me" _);
      [|reflexivity].
    destruct (String.eqb (classify_whatsapp_link _) "private");
      [reflexivity|].
    destruct (String.eqb (classify_whatsapp_link _) "group") eqn:E;
      [|reflexivity].
    apply String.eqb_eq in E. contradiction.
Qed.

(** X7. A link whose lowered form holds one of the four reject markers
    fails the pre-filter and is not classified, whatever else it
    holds. *)
Theorem reject_markers_drop_link (url : string) :
  has_reject_marker (lower url) = true ->
  is_valid_link_for_extraction url = false /\
  filter_and_classify_link url = None.
Proof.
  intros H.
  assert (Hv : is_valid_link_for_extraction url = false).
  { rewrite prefilter_markers, H. destruct (is_empty url); reflexivity. }
  split; [exact Hv|]. unfold filter_and_classify_link. rewrite Hv. reflexivity.
Qed.

Lemma reject_markers_drop_link_witness :
  is_valid_link_for_extraction "https://chat.whatsapp.com/invite/BBB" = false /\
  filter_and_classify_link "https://chat.whatsapp.com/invite/BBB" = None.
Proof.
  exact (reject_markers_drop_link "https://chat.whatsapp.com/invite/BBB"
           eq_refl).
Defined.

(** X26. The coarse classifier agrees with the policy: a link the
    policy accepts as [whatsapp] is a WhatsApp link for
    [classify_platform], and a link it accepts under any other platform
    carries the prefix [telegram_] and is a Telegram link for
    [classify_platform]; no accepted link is [other]. *)
Theorem classify_platform_agrees (url platform chat_type : string) :
  filter_and_classify_link url = Some (platform, chat_type) ->
  (platform = "whatsapp" /\ classify_platform url = "whatsapp") \/
  (startswith "telegram_" platform = true /\
   classify_platform url = "telegram").
Proof.
  unfold filter_and_classify_link, classify_platform.
  destruct (negb (is_valid_link_for_extraction url)); [discriminate|].
  destruct (contains "t.me" (lower url) || contains "telegram.me" (lower url)).
  - destruct (negb (is_valid_telegram_link url)); [discriminate|].
    destruct (classify_telegram_link url) as [ty ct]. intros H.
    inversion H; subst. right. split; reflexivity.
  - destruct (contains "whatsapp.com" (lower url)
              || contains "wa.me" (lower url)); [|discriminate].
    destruct (String.eqb (classify_whatsapp_link url) "private");
      [discriminate|].
    destruct (String.eqb (classify_whatsapp_link url) "group");
      [|discriminate].
    intros H. inversion H; subst. left. split; reflexivity.
Qed.

Lemma classify_platform_agrees_witness :
  ("telegram_unknown" = "whatsapp" /\
   classify_platform "https://example.com/t.me/abc" = "whatsapp") \/
  (startswith "telegram_" "telegram_unknown" = true /\
   classify_platform "https://example.com/t.me/abc" = "telegram").
Proof.
  exact (classify_platform_agrees "https://example.com/t.me/abc"
           "telegram_unknown" "unknown" eq_refl).
Defined.

(** ** The two validators *)

Lemma all_chars_lstrip (p : ascii -> bool) (s : string) :
  all_chars p s = true -> all_chars p (lstrip s) = true.
Proof.
  induction s as [|c s IH]; [reflexivity|]. cbn [lstrip]. intros H.
  destruct (is_space c); [|exact H].
  cbn [all_chars] in H. apply andb_prop in H. apply IH, H.
Qed.

Lemma all_chars_strip (p : ascii -> bool) (s : string) :
  all_chars p s = true -> all_chars p (strip s) = true.
Proof.
  intros H. unfold strip, rstrip.
  rewrite all_chars_rev_string, Bool.andb_true_r.
  apply all_chars_lstrip.
  rewrite all_chars_rev_string, Bool.andb_true_r.
  apply all_chars_lstrip, H.
Qed.

Lemma strip_lower_lowered (s : string) : lower (strip (lower s)) = strip (lower s).
Proof. apply lower_lowered. apply all_chars_strip. apply lowered_lower. Qed.

Lemma startswith_app (p q s : string) :
  startswith (p ++ q) s = true -> startswith p s = true.
Proof.
  revert s. induction p as [|a p IH]; intros s H; [reflexivity|].
  destruct s as [|b s]; [discriminate|].
  cbn [append startswith] in *. apply andb_prop in H. destruct H as [-> H].
  exact (IH s H).
Qed.

Lemma contains_app (p q s : string) :
  contains (p ++ q) s = true -> contains p s = true.
Proof.
  induction s as [|c s IH]; cbn [contains]; intros H.
  - apply Bool.orb_true_iff in H. destruct H as [H | H]; [|discriminate].
    rewrite (startswith_app p q "" H). reflexivity.
  - apply Bool.orb_true_iff in H. destruct H as [H | H].
    + rewrite (startswith_app p q _ H). reflexivity.
    + rewrite (IH H). apply Bool.orb_true_r.
Qed.

Lemma isalnum_longer (s : string) :
  isalnum (remove_char "-" (remove_char "_" (drop 1 s))) = true ->
  (1 <? String.length s)%nat = true.
Proof.
  destruct s as [|a [|b s]]; try (intros H; vm_compute in H; discriminate).
  intros _. reflexivity.
Qed.

(** X8. The validator local to [collector.py] accepts every link that
    the validator of [link_utils.py] accepts. *)
Theorem collector_validator_is_weaker (link : string) :
  LinkUtils.is_valid_telegram_link link = true ->
  Collector.is_valid_telegram_link link = true.
Proof.
  unfold LinkUtils.is_valid_telegram_link, Collector.is_valid_telegram_link.
  set (l := strip (lower link)).
  rewrite rejected_patterns_markers.
  unfold l at 1. rewrite strip_lower_lowered. fold l.
  destruct (has_reject_marker l) eqn:Hm; [discriminate|].
  destruct (contains "t.me/" l); [|discriminate]. cbn [negb].
  unfold has_reject_marker in Hm.
  apply Bool.orb_false_iff in Hm. destruct Hm as [Hm H4].
  apply Bool.orb_false_iff in Hm. destruct Hm as [Hm H3].
  apply Bool.orb_false_iff in Hm. destruct Hm as [H1 H2].
  rewrite H1, H3.
  assert (H2' : contains "t.me/bot/" l = false).
  { destruct (contains "t.me/bot/" l) eqn:E; [|reflexivity].
    rewrite (contains_app "t.me/bot" "/" l E) in H2. discriminate. }
  rewrite H2'. cbn [orb].
  destruct (split "t.me/" l) as [|part0 [|part1 rest]]; try discriminate.
  cbv zeta.
  set (path_part := hd "" (split "?" part1)).
  destruct (1 <? List.length (split "/" path_part))%nat; [discriminate|].
  set (first_segment := hd "" (split "/" path_part)).
  destruct (startswith "+" first_segment && _ && _); [discriminate|].
  destruct (startswith "+" first_segment).
  - intros H. rewrite (isalnum_longer _ H). reflexivity.
  - intros H. cbn [andb]. rewrite H. reflexivity.
Qed.

Lemma collector_validator_is_weaker_witness :
  Collector.is_valid_telegram_link "https://t.me/+AbC_dEf-123" = true.
Proof.
  exact (collector_validator_is_weaker "https://t.me/+AbC_dEf-123" eq_refl).
Defined.

End PolicyFacts.

(* ====================================================================== *)
(** * What the extractors of [link_utils.py] return *)
(* ====================================================================== *)

Module ExtractorFacts.
Import PyStr Telethon LinkUtils CacheFacts PolicyPredicates.

Lemma set_add_NoDup (l : list string) (x : string) :
  NoDup l -> NoDup (set_add l x).
Proof.
  intros H. unfold set_add. destruct (mem x l) eqn:E; [exact H|].
  apply NoDup_app; [exact H | repeat constructor; simpl; tauto|].
  intros a Ha [<- | []]. apply mem_In in Ha. congruence.
Qed.

Lemma set_add_In (l : list string) (x y : string) :
  In y (set_add l x) <-> y = x \/ In y l.
Proof.
  unfold set_add. destruct (mem x l) eqn:E.
  - apply mem_In in E. split; [auto|]. intros [-> | H]; assumption.
  - rewrite in_app_iff. cbn. split.
    + intros [H | [H | []]]; auto.
    + intros [-> | H]; auto.
Qed.

Lemma add_links_of_text_spec (txt : string) (links : list string) :
  NoDup links ->
  NoDup (add_links_of_text links txt) /\
  forall l, In l (add_links_of_text links txt) ->
            In l links \/
            exists raw, In raw (findall URL_REGEX txt) /\ candidate_of raw l.
Proof.
  unfold add_links_of_text.
  generalize (findall URL_REGEX txt) as found.
  intros found. revert links.
  induction found as [|raw found IH]; intros links Hnd; cbn [fold_left].
  - split; [exact Hnd | auto].
  - destruct (is_valid_link_for_extraction raw) eqn:Hv.
    + destruct (IH (set_add links (strip raw)) (set_add_NoDup _ _ Hnd))
        as [H1 H2].
      split; [exact H1|]. intros l Hl.
      destruct (H2 l Hl) as [Hin | [raw' [Hin' Hc]]].
      * apply set_add_In in Hin. destruct Hin as [-> | Hin]; [|auto].
        right. exists raw. split; [left; reflexivity | split; auto].
      * right. exists raw'. split; [right; exact Hin' | exact Hc].
    + destruct (IH links Hnd) as [H1 H2]. split; [exact H1|].
      intros l Hl. destruct (H2 l Hl) as [Hin | [raw' [Hin' Hc]]]; [auto|].
      right. exists raw'. split; [right; exact Hin' | exact Hc].
Qed.

Lemma set_add_mem (l : list string) (x : string) : mem x (set_add l x) = true.
Proof.
  unfold set_add. destruct (mem x l) eqn:E; [exact E|].
  unfold mem. rewrite existsb_app. cbn. rewrite String.eqb_refl.
  apply Bool.orb_true_r.
Qed.

(** X9. The links [extract_links_from_message] returns are pairwise
    distinct, and each is the stripped form of a URL match of the text (or
    of the caption when there is no text) that passes the pre-filter. *)
Theorem text_links_are_distinct_candidates (message : Message) :
  NoDup (extract_links_from_message message) /\
  forall l, In l (extract_links_from_message message) ->
            exists raw,
              In raw (findall URL_REGEX
                        (or_else (text message)
                                 (or_else (raw_message message) ""))) /\
              candidate_of raw l.
Proof.
  unfold extract_links_from_message.
  destruct (is_empty _).
  - split; [constructor | intros l []].
  - destruct (add_links_of_text_spec
                (or_else (text message) (or_else (raw_message message) ""))
                [] (NoDup_nil _)) as [H1 H2].
    split; [exact H1|]. intros l Hl.
    destruct (H2 l Hl) as [[] | H]. exact H.
Qed.

Lemma button_row_spec (row : list Button) (acc : list string)
      (P : string -> Prop) :
  NoDup acc -> (forall l, In l acc -> P l) ->
  (forall raw l, In (mkButton (Some raw)) row -> candidate_of raw l -> P l) ->
  let out :=
    fold_left
      (fun acc button =>
         match button_url button with
         | Some link =>
             if is_empty link then acc
             else if is_valid_link_for_extraction link
                  then set_add acc (strip link) else acc
         | None => acc
         end) row acc in
  NoDup out /\ forall l, In l out -> P l.
Proof.
  revert acc. induction row as [|b row IH]; intros acc Hnd Hacc Hrow;
    cbn [fold_left].
  - split; assumption.
  - assert (Hrow' : forall raw l, In (mkButton (Some raw)) row ->
                                  candidate_of raw l -> P l)
      by (intros raw l Hin; apply Hrow; right; exact Hin).
    destruct b as [[link|]]; cbn [button_url]; [|apply IH; assumption].
    destruct (is_empty link); [apply IH; assumption|].
    destruct (is_valid_link_for_extraction link) eqn:Hv;
      [|apply IH; assumption].
    apply IH; [apply set_add_NoDup, Hnd | | exact Hrow'].
    intros l Hl. apply set_add_In in Hl. destruct Hl as [-> | Hl]; [|auto].
    apply (Hrow link); [left; reflexivity | split; auto].
Qed.

(** X10. The links [extract_buttons_links] returns are pairwise
    distinct, and each is the stripped form of the URL of a button of the
    message that passes the pre-filter. *)
Theorem button_links_are_distinct_candidates (message : Message) :
  NoDup (extract_buttons_links message) /\
  forall l, In l (extract_buttons_links message) ->
            exists rows row raw,
              reply_markup message = Some rows /\ In row rows /\
              In (mkButton (Some raw)) row /\ candidate_of raw l.
Proof.
  unfold extract_buttons_links.
  destruct (reply_markup message) as [rows|];
    [|split; [constructor | intros l []]].
  set (P := fun l => exists rows0 row raw,
                Some rows = Some rows0 /\ In row rows0 /\
                In (mkButton (Some raw)) row /\ candidate_of raw l).
  assert (H : forall rs acc,
             incl rs rows -> NoDup acc -> (forall l, In l acc -> P l) ->
             let out :=
               fold_left
                 (fun acc row =>
                    fold_left
                      (fun acc button =>
                         match button_url button with
                         | Some link =>
                             if is_empty link then acc
                             else if is_valid_link_for_extraction link
                                  then set_add acc (strip link) else acc
                         | None => acc
                         end) row acc) rs acc in
             NoDup out /\ forall l, In l out -> P l).
  { induction rs as [|row rs IH]; intros acc Hincl Hnd Hacc; cbn [fold_left].
    - split; assumption.
    - destruct (button_row_spec row acc P Hnd Hacc) as [H1 H2].
      + intros raw l Hin Hc. exists rows, row, raw.
        split; [reflexivity|]. split; [apply Hincl; left; reflexivity|].
        split; assumption.
      + apply IH; [intros x Hx; apply Hincl; right; exact Hx | exact H1 | exact H2]. }
  destruct (H rows [] (incl_refl _) (NoDup_nil _) (fun l (Hl : In l []) => match Hl with end))
    as [H1 H2].
  split; [exact H1 | exact H2].
Qed.

End ExtractorFacts.

(* ====================================================================== *)
(** * The store: integrity, listing, cleaning *)
(* ====================================================================== *)

Module StoreFacts.
Import PyStr Telethon Database DatabaseRuns DatabaseFacts DatabaseQueries.

Local Ltac reduce_frame :=
  cbn [world conn disk faults opened error_log stats_updates fst snd
       conn_open tx lastrowid links telegram_types seq] in *.

Local Ltac crunch :=
  repeat (break_match; reduce_frame; try discriminate;
          repeat match goal with
                 | H : (_, _) = (_, _) |- _ => inversion H; clear H; subst
                 | H : Some _ = Some _ |- _ => inversion H; clear H; subst
                 | H : Ret _ = Ret _ |- _ => inversion H; clear H; subst
                 end;
          reduce_frame).

(** ** [save_link] under every schedule of failures *)

Lemma find_none_existsb {A} (p : A -> bool) (l : list A) :
  find p l = None -> existsb p l = false.
Proof.
  induction l as [|a l IH]; simpl; [reflexivity|].
  destruct (p a); simpl; [discriminate | exact IH].
Qed.

(** Every run of [save_link], whatever the arguments and the failures:
    the statistics are not refreshed, at most one connection is opened,
    and the tables are either untouched or extended by the new link. *)
Lemma save_link_outcome :
  forall url platform source_account chat_type chat_id message_date
         source_type w,
    let w' := snd (save_link url platform source_account chat_type chat_id
                             message_date source_type w) in
    stats_updates w' = stats_updates w /\
    opened w' <= S (opened w) /\
    ((disk w' = disk w) \/
     (exists u,
        url = Some u /\ is_empty u = false /\
        existsb (fun r => String.eqb (row_url r) u) (links (disk w)) = false /\
        disk w' = with_new_link (disk w) u platform source_account chat_type
                                chat_id message_date source_type /\
        error_log w' = "Failed to save link" :: error_log w)).
Proof.
  intros url platform source_account chat_type chat_id message_date
         source_type w.
  unfold save_link, with_new_link.
  destruct url as [u|]; [|simpl; auto].
  simpl truthy. destruct (is_empty u) eqn:Hu; [simpl; auto|].
  simpl negb. cbv iota zeta. simpl or_else. rewrite Hu.
  unfold save_link_body.
  remember (startswith "telegram_" platform) as tg eqn:Htg.
  remember (remove_sub "telegram_" platform) as ttype eqn:Htt.
  clear Htg Htt.
  unfold try_finally, try_except, get_connection,
    select_id_by_url, insert_or_ignore_link, insert_telegram_type,
    cur_lastrowid, commit, close, count_links, update_daily_stats,
    with_open_conn, fail_if_fault, fault, log_error, bind, ret, raise,
    get_world, put_world, get_conn, put_conn.
  reduce_frame.
  repeat (break_match; reduce_frame; try discriminate;
          repeat match goal with
                 | H : (_, _) = (_, _) |- _ => inversion H; clear H; subst
                 | H : Some _ = Some _ |- _ => inversion H; clear H; subst
                 end;
          reduce_frame);
    try (split; [reflexivity | split; [lia | left; reflexivity]]).
  all: try (exfalso;
            match goal with
            | Ho : option_map row_id (find ?p ?l) = None,
              Hb : existsb ?p ?l = true |- _ =>
                destruct (find p l) eqn:Hf;
                [discriminate Ho | apply find_none_existsb in Hf; congruence]
            end).
  all: split; [reflexivity | split; [lia | right; exists u]];
    rewrite ?app_nil_r; auto.
Qed.

(** X11. A call of [save_link], under any failures of the database,
    either leaves the tables as they were or adds the row of a non-empty
    URL that was not stored, together with its Telegram type when the
    platform starts with [telegram_]: a link is never stored without its
    type, nor a type without its link.  No call refreshes the daily
    statistics, and every call that stores a link writes the failure line
    to the error log, because the count that follows is run on the closed
    connection. *)
Theorem save_link_all_or_nothing :
  forall url platform source_account chat_type chat_id message_date
         source_type w,
    let w' := snd (save_link url platform source_account chat_type chat_id
                             message_date source_type w) in
    stats_updates w' = stats_updates w /\
    (disk w' = disk w \/
     exists u,
       url = Some u /\ u <> "" /\ ~ In u (urls (disk w)) /\
       disk w' = with_new_link (disk w) u platform source_account chat_type
                               chat_id message_date source_type /\
       error_log w' = "Failed to save link" :: error_log w).
Proof.
  intros url platform source_account chat_type chat_id message_date
         source_type w.
  destruct (save_link_outcome url platform source_account chat_type chat_id
              message_date source_type w)
    as [Hstats [_ [H | [u [Hu [Hne [Hex [Hdisk Hlog]]]]]]]].
  - split; [exact Hstats | left; exact H].
  - split; [exact Hstats | right]. exists u.
    split; [exact Hu|]. split; [intros ->; discriminate|].
    split; [exact (existsb_url_In _ _ Hex) | split; assumption].
Qed.

(** ** Integrity of the store *)

Lemma init_db_ok : store_ok init_db.
Proof.
  unfold store_ok, init_db, urls. simpl.
  repeat split; try constructor; try lia; intros; contradiction.
Qed.

Lemma with_new_link_ok (t : Tables)
      (url platform source_account chat_type chat_id : string)
      (message_date : option Z) (source_type : option string) :
  store_ok t ->
  is_empty url = false ->
  existsb (fun r => String.eqb (row_url r) url) (links t) = false ->
  store_ok (with_new_link t url platform source_account chat_type chat_id
                          message_date source_type).
Proof.
  intros (Hseq & Hurls & Hids & Hrows & Htypes) Hne Hex.
  unfold store_ok, with_new_link, urls. cbn [links telegram_types seq].
  split; [lia|]. split; [|split; [|split]].
  - rewrite map_app. simpl. apply NoDup_app; [exact Hurls | |].
    + repeat constructor. simpl. tauto.
    + intros a Ha [E | []]. subst a. exact (existsb_url_In _ _ Hex Ha).
  - rewrite map_app. simpl. apply NoDup_app; [exact Hids | |].
    + repeat constructor. simpl. tauto.
    + intros a Ha [E | []]. subst a.
      apply in_map_iff in Ha. destruct Ha as [r [Er Hr]].
      destruct (Hrows r Hr) as [Hb _]. lia.
  - intros r Hr. apply in_app_or in Hr. destruct Hr as [Hr | [<- | []]].
    + destruct (Hrows r Hr) as [Hb He]. split; [lia | exact He].
    + simpl. split; [lia | exact Hne].
  - intros id ty Hin. apply in_app_or in Hin. destruct Hin as [Hin | Hin].
    + destruct (Htypes id ty Hin) as [r [Hr Hrest]].
      exists r. split; [apply in_or_app; left; exact Hr | exact Hrest].
    + destruct (startswith "telegram_" platform) eqn:Htg; [|contradiction].
      destruct Hin as [E | []]. inversion E; subst.
      eexists. split; [apply in_or_app; right; left; reflexivity|].
      simpl. auto.
Qed.

Lemma save_link_ok :
  forall url platform source_account chat_type chat_id message_date
         source_type w,
    store_ok (disk w) ->
    store_ok (disk (snd (save_link url platform source_account chat_type
                                   chat_id message_date source_type w))).
Proof.
  intros url platform source_account chat_type chat_id message_date
         source_type w Hok.
  destruct (save_link_outcome url platform source_account chat_type chat_id
              message_date source_type w)
    as [_ [_ [H | [u [_ [Hne [Hex [H _]]]]]]]]; rewrite H.
  - exact Hok.
  - apply with_new_link_ok; assumption.
Qed.

(** X12. The constraints of the schema survive every sequence of
    [save_link] calls, under any failures: URLs stay unique and non-empty,
    ids stay unique and within the counter, and every Telegram type still
    belongs to a Telegram link and carries the platform without its
    prefix. *)
Theorem store_integrity :
  forall (calls : list Call) (w : World),
    store_ok (disk w) -> store_ok (disk (run_calls calls w)).
Proof.
  unfold run_calls. induction calls as [|c calls IH]; simpl; intros w H.
  - exact H.
  - apply IH. unfold run_call. apply save_link_ok. exact H.
Qed.

Lemma store_integrity_witness :
  store_ok
    (disk (run_calls
             [mkCall (Some "https://t.me/+AAA") "telegram_invite_with_plus"
                     "account" "group" "77" None None [];
              mkCall (Some "https://t.me/+AAA") "telegram_invite_with_plus"
                     "other" "group" "78" None None [];
              mkCall (Some "https://chat.whatsapp.com/BBB") "whatsapp"
                     "account" "group" "77" None None [false; false; true];
              mkCall None "whatsapp" "account" "group" "77" None None []]
             fresh_world)).
Proof.
  apply store_integrity.
  unfold store_ok, fresh_world, init_db, urls. simpl.
  split; [lia|]. split; [constructor|]. split; [constructor|].
  split; intros; contradiction.
Defined.

(** ** Listing *)

Lemma insert_desc_perm (r : LinkRow) (l : list LinkRow) :
  Permutation (insert_desc r l) (r :: l).
Proof.
  induction l as [|y l IH]; cbn [insert_desc]; [apply Permutation_refl|].
  destruct (date_le _ _); [apply Permutation_refl|].
  eapply perm_trans; [apply perm_skip, IH | apply perm_swap].
Qed.

Lemma order_by_date_desc_perm (l : list LinkRow) :
  Permutation (order_by_date_desc l) l.
Proof.
  induction l as [|r l IH]; cbn [order_by_date_desc fold_right];
    [apply perm_nil|].
  eapply perm_trans; [apply insert_desc_perm | apply perm_skip, IH].
Qed.

Lemma sql_limit_incl {A} (limit offset : Z) (l : list A) (x : A) :
  In x (sql_limit limit offset l) -> In x l.
Proof.
  unfold sql_limit. intros H.
  assert (Hs : In x (skipn (Z.to_nat offset) l)).
  { destruct (limit <? 0)%Z; [exact H|].
    rewrite <- (firstn_skipn (Z.to_nat limit)). apply in_or_app. left. exact H. }
  rewrite <- (firstn_skipn (Z.to_nat offset) l). apply in_or_app. right. exact Hs.
Qed.

Lemma sql_limit_length {A} (limit offset : Z) (l : list A) :
  (0 <= limit)%Z -> List.length (sql_limit limit offset l) <= Z.to_nat limit.
Proof.
  intros H. unfold sql_limit.
  replace (limit <? 0)%Z with false by (symmetry; apply Z.ltb_ge; exact H).
  apply firstn_le_length.
Qed.

Lemma sql_limit_all {A} (limit : Z) (l : list A) :
  (Z.of_nat (List.length l) <= limit)%Z -> sql_limit limit 0 l = l.
Proof.
  intros H. unfold sql_limit. cbn [Z.to_nat skipn].
  replace (limit <? 0)%Z with false by (symmetry; apply Z.ltb_ge; lia).
  apply firstn_all2. lia.
Qed.

(** X13. Whatever fails, [get_links_by_platform_and_type] returns a
    list and leaves the tables alone; every tuple returned is a stored row
    of the requested platform and chat type, and a non-negative limit
    bounds their number. *)
Theorem listing_is_sound :
  forall (platform chat_type : string) (limit offset : Z) (w : World),
    let out := get_links_by_platform_and_type platform chat_type limit offset w in
    exists rows,
      fst out = Ret rows /\
      disk (snd out) = disk w /\
      ((0 <= limit)%Z -> List.length rows <= Z.to_nat limit) /\
      (forall url p c d,
          In (url, p, c, d) rows ->
          p = platform /\ c = chat_type /\
          exists r, In r (links (disk w)) /\ row_url r = url /\
                    row_platform r = p /\ row_chat_type r = c /\
                    row_message_date r = d).
Proof.
  intros platform chat_type limit offset w. cbv zeta.
  assert (Hsel : forall url p c d,
             In (url, p, c, d)
                (select_links_by_platform_and_type (disk w) platform chat_type
                                                   limit offset) ->
             p = platform /\ c = chat_type /\
             exists r, In r (links (disk w)) /\ row_url r = url /\
                       row_platform r = p /\ row_chat_type r = c /\
                       row_message_date r = d).
  { intros url p c d Hin. unfold select_links_by_platform_and_type in Hin.
    apply in_map_iff in Hin. destruct Hin as [r [Er Hr]].
    apply sql_limit_incl in Hr.
    apply (Permutation_in _ (order_by_date_desc_perm _)) in Hr.
    apply filter_In in Hr. destruct Hr as [Hr Hm].
    apply andb_prop in Hm. destruct Hm as [Hp Hc].
    apply String.eqb_eq in Hp, Hc. inversion Er; subst.
    split; [reflexivity | split; [reflexivity|]].
    exists r. auto. }
  assert (Hlen : (0 <= limit)%Z ->
                 List.length (select_links_by_platform_and_type
                                (disk w) platform chat_type limit offset)
                 <= Z.to_nat limit).
  { intros H. unfold select_links_by_platform_and_type.
    rewrite length_map. apply sql_limit_length, H. }
  remember (select_links_by_platform_and_type (disk w) platform chat_type
                                             limit offset) as sel.
  assert (Hnil : (0 <= limit)%Z -> @List.length (string * string * string * option Z) [] <= Z.to_nat limit)
    by (intros; simpl; lia).
  unfold get_links_by_platform_and_type, bind_ints.
  remember (forallb sqlite_int [limit; offset]) as bound.
  unfold run_in_frame, try_except,
    get_connection, with_open_conn, close, fail_if_fault, fault, log_error,
    bind, ret, raise, get_world, put_world, get_conn, put_conn.
  reduce_frame.
  crunch;
    (eexists; split; [reflexivity|]; split; [reflexivity|]; split;
     [ first [rewrite <- Heqsel; exact Hlen | exact Hnil]
     | first [rewrite <- Heqsel; exact Hsel | intros; contradiction] ]).
Qed.

(** The world after a successful insert. *)
Lemma save_link_fresh_world :
  forall url platform source_account chat_type chat_id message_date
         source_type w,
    is_empty url = false ->
    faults w = [] ->
    existsb (fun r => String.eqb (row_url r) url) (links (disk w)) = false ->
    snd (save_link (Some url) platform source_account chat_type chat_id
                   message_date source_type w)
    = mkWorld (with_new_link (disk w) url platform source_account chat_type
                             chat_id message_date source_type)
              [] (S (opened w)) ("Failed to save link" :: error_log w)
              (stats_updates w).
Proof.
  intros url platform source_account chat_type chat_id message_date
         source_type w Hne Hf Hex.
  destruct w as [[l ty sq] fs op el su].
  cbn [faults disk links] in Hf, Hex. subst fs.
  unfold save_link, with_new_link. simpl truthy. rewrite Hne. simpl negb.
  cbv iota. simpl or_else. rewrite Hne.
  unfold save_link_body.
  remember (startswith "telegram_" platform) as tg eqn:Htg.
  remember (remove_sub "telegram_" platform) as ttype eqn:Htt.
  clear Htg Htt.
  unfold try_finally, try_except, get_connection,
    select_id_by_url, insert_or_ignore_link, insert_telegram_type,
    cur_lastrowid, commit, close, count_links, update_daily_stats,
    with_open_conn, fail_if_fault, fault, log_error, bind, ret, raise,
    get_world, put_world, get_conn, put_conn.
  cbn -[existsb find Z.add].
  rewrite (find_existsb_none _ _ Hex).
  cbn -[existsb find Z.add].
  rewrite Hex.
  destruct tg; cbn -[existsb find Z.add];
    [rewrite existsb_app; cbn -[Z.add]; rewrite Z.eqb_refl,
       Bool.orb_true_r; cbn -[existsb find Z.add]|];
    rewrite ?app_nil_r; reflexivity.
Qed.

Lemma listing_without_failure
      (platform chat_type : string) (limit offset : Z) (w : World) :
  faults w = [] ->
  sqlite_int limit = true ->
  sqlite_int offset = true ->
  fst (get_links_by_platform_and_type platform chat_type limit offset w)
  = Ret (select_links_by_platform_and_type (disk w) platform chat_type
                                           limit offset).
Proof.
  intros Hf Hlimit Hoffset.
  destruct w as [t fs op el su]. cbn [faults] in Hf. subst fs.
  unfold get_links_by_platform_and_type, bind_ints. cbn [forallb].
  rewrite Hlimit, Hoffset. reflexivity.
Qed.

(** X14. Round trip: once [save_link] has stored a new non-empty URL
    without a failure, the listing for its platform and chat type returns
    it, with the date it was saved with, when the limit exceeds the size
    of the table and is an integer the database can bind, that is, below
    2^63. *)
Theorem saved_link_is_listed :
  forall (url platform source_account chat_type chat_id : string)
         (message_date : option Z) (source_type : option string)
         (limit : Z) (w : World),
    url <> "" ->
    faults w = [] ->
    rows_for url (disk w) = 0 ->
    (Z.of_nat (List.length (links (disk w))) < limit)%Z ->
    (limit < 2 ^ 63)%Z ->
    let w1 := snd (save_link (Some url) platform source_account chat_type
                             chat_id message_date source_type w) in
    exists rows,
      fst (get_links_by_platform_and_type platform chat_type limit 0 w1)
      = Ret rows /\
      In (url, platform, chat_type, message_date) rows.
Proof.
  intros url platform source_account chat_type chat_id message_date
         source_type limit w Hne Hf H0 Hlimit Hbound w1.
  assert (Hempty : is_empty url = false)
    by (destruct url; [congruence | reflexivity]).
  assert (Hint : sqlite_int limit = true).
  { unfold sqlite_int. apply andb_true_intro. split.
    - apply Z.leb_le. lia.
    - apply Z.ltb_lt. exact Hbound. }
  pose proof (save_link_fresh_world url platform source_account chat_type
                chat_id message_date source_type w Hempty Hf
                (rows_for_existsb _ _ H0)) as Hw1.
  fold w1 in Hw1.
  eexists. split.
  - apply listing_without_failure;
      [rewrite Hw1; reflexivity | exact Hint | reflexivity].
  - rewrite Hw1. cbn [disk]. unfold select_links_by_platform_and_type.
    set (row := mkRow (seq (disk w) + 1) url platform source_account
                      chat_type chat_id message_date source_type).
    apply in_map_iff. exists row. split; [reflexivity|].
    rewrite sql_limit_all.
    + apply (Permutation_in _ (Permutation_sym (order_by_date_desc_perm _))).
      apply filter_In. split.
      * unfold with_new_link. cbn [links]. apply in_or_app. right. left.
        reflexivity.
      * cbn [row row_platform row_chat_type]. rewrite !String.eqb_refl.
        reflexivity.
    + rewrite (Permutation_length (order_by_date_desc_perm _)).
      pose proof (filter_length_le
                    (fun r => String.eqb (row_platform r) platform
                              && String.eqb (row_chat_type r) chat_type)
                    (links (with_new_link (disk w) url platform source_account
                                          chat_type chat_id message_date
                                          source_type))) as Hle.
      unfold with_new_link in Hle at 2. cbn [links] in Hle.
      rewrite length_app in Hle. cbn [List.length] in Hle. lia.
Qed.

Lemma saved_link_is_listed_witness :
  exists rows,
    fst (get_links_by_platform_and_type "whatsapp" "group" 50 0
           (snd (save_link (Some "https://chat.whatsapp.com/CCC") "whatsapp"
                           "account" "group" "77" (Some 1699900000%Z)
                           (Some "text") two_links)))
    = Ret rows /\
    In ("https://chat.whatsapp.com/CCC", "whatsapp", "group",
        Some 1699900000%Z) rows.
Proof.
  apply (saved_link_is_listed "https://chat.whatsapp.com/CCC" "whatsapp"
           "account" "group" "77" (Some 1699900000%Z) (Some "text") 50
           two_links).
  - discriminate.
  - reflexivity.
  - reflexivity.
  - reflexivity.
  - reflexivity.
Defined.

(** ** The Telegram listing *)

Lemma joined_with_type_In (t : Tables) (telegram_type : string) (r : LinkRow) :
  In r (joined_with_type t telegram_type) ->
  In r (links t) /\ In (row_id r, telegram_type) (telegram_types t).
Proof.
  unfold joined_with_type. intros H.
  apply in_flat_map in H. destruct H as [r' [Hr' H]].
  apply in_flat_map in H. destruct H as [[id ty] [Htt H]].
  cbn [fst snd] in H.
  destruct (Z.eqb (row_id r') id && String.eqb ty telegram_type) eqn:E;
    [|contradiction].
  destruct H as [<- | []].
  apply andb_prop in E. destruct E as [E1 E2].
  apply Z.eqb_eq in E1. apply String.eqb_eq in E2. subst.
  split; assumption.
Qed.

Lemma no_types_no_join (t : Tables) (telegram_type : string) :
  telegram_types t = [] -> joined_with_type t telegram_type = [].
Proof.
  unfold joined_with_type. intros ->.
  induction (links t) as [|r l IH]; [reflexivity | exact IH].
Qed.

(** Whatever fails, the listing leaves the tables alone and returns
    either nothing or the rows of the query. *)
Lemma telegram_listing_outcome
      (telegram_type : string) (limit offset : Z) (w : World) :
  let out := get_links_by_telegram_type telegram_type limit offset w in
  disk (snd out) = disk w /\
  (fst out = Ret [] \/
   fst out = Ret (select_links_by_telegram_type (disk w) telegram_type
                                                limit offset)).
Proof.
  cbv zeta.
  remember (select_links_by_telegram_type (disk w) telegram_type limit offset)
    as sel.
  unfold get_links_by_telegram_type, bind_ints.
  remember (forallb sqlite_int [limit; offset]) as bound.
  unfold run_in_frame, try_except,
    get_connection, with_open_conn, close, fail_if_fault, fault, log_error,
    bind, ret, raise, get_world, put_world, get_conn, put_conn.
  reduce_frame.
  crunch; (split; [reflexivity|]);
    first [left; reflexivity | right; rewrite <- Heqsel; reflexivity].
Qed.

Lemma NoDup_map_inj {A B} (f : A -> B) (l : list A) (a b : A) :
  NoDup (map f l) -> In a l -> In b l -> f a = f b -> a = b.
Proof.
  induction l as [|x l IH]; cbn [map In]; intros Hnd Ha Hb E; [contradiction|].
  inversion Hnd as [|y ys Hnin Hnd']; subst.
  destruct Ha as [-> | Ha], Hb as [-> | Hb].
  - reflexivity.
  - exfalso. apply Hnin. rewrite E. apply in_map, Hb.
  - exfalso. apply Hnin. rewrite <- E. apply in_map, Ha.
  - exact (IH Hnd' Ha Hb E).
Qed.

(** X27. On a store that meets the constraints of the schema, which
    [save_link] maintains, [get_links_by_telegram_type] returns, whatever
    fails, a list of stored links only, each with a platform that starts
    with [telegram_] and is the requested type once the prefix is
    removed; the tables are left alone. *)
Theorem telegram_listing_is_sound :
  forall (telegram_type : string) (limit offset : Z) (w : World),
    store_ok (disk w) ->
    let out := get_links_by_telegram_type telegram_type limit offset w in
    exists rows,
      fst out = Ret rows /\
      disk (snd out) = disk w /\
      forall url c d,
        In (url, c, d) rows ->
        exists r, In r (links (disk w)) /\ row_url r = url /\
                  row_chat_type r = c /\ row_message_date r = d /\
                  startswith "telegram_" (row_platform r) = true /\
                  remove_sub "telegram_" (row_platform r) = telegram_type.
Proof.
  intros telegram_type limit offset w (_ & _ & Hids & _ & Htypes). cbv zeta.
  destruct (telegram_listing_outcome telegram_type limit offset w)
    as [Hdisk [Hout | Hout]]; cbv zeta in *; rewrite Hout;
    eexists; (split; [reflexivity|]); (split; [exact Hdisk|]).
  - intros url c d [].
  - intros url c d Hin. unfold select_links_by_telegram_type in Hin.
    apply in_map_iff in Hin. destruct Hin as [r [Er Hr]].
    apply sql_limit_incl in Hr.
    apply (Permutation_in _ (order_by_date_desc_perm _)) in Hr.
    apply joined_with_type_In in Hr. destruct Hr as [Hr Htt].
    destruct (Htypes _ _ Htt) as [r' [Hr' [Hid [Hp Hty]]]].
    pose proof (NoDup_map_inj row_id _ r' r Hids Hr' Hr Hid) as ->.
    inversion Er; subst. exists r.
    repeat (split; [first [assumption | reflexivity]|]). reflexivity.
Qed.

Lemma telegram_listing_is_sound_witness :
  exists rows,
    fst (get_links_by_telegram_type "invite_with_plus" 50 0 two_links)
    = Ret rows /\
    disk (snd (get_links_by_telegram_type "invite_with_plus" 50 0 two_links))
    = disk two_links /\
    forall url c d,
      In (url, c, d) rows ->
      exists r, In r (links (disk two_links)) /\ row_url r = url /\
                row_chat_type r = c /\ row_message_date r = d /\
                startswith "telegram_" (row_platform r) = true /\
                remove_sub "telegram_" (row_platform r) = "invite_with_plus".
Proof.
  apply (telegram_listing_is_sound "invite_with_plus" 50 0 two_links).
  unfold store_ok, two_links, urls. simpl.
  split; [lia|].
  split; [repeat constructor; simpl; intuition discriminate|].
  split; [repeat constructor; simpl; intuition discriminate|].
  split.
  - intros r [<- | [<- | []]]; simpl; split; first [lia | reflexivity].
  - intros id ty [H | []]. inversion H; subst.
    eexists. split; [right; left; reflexivity|].
    simpl. repeat split; reflexivity.
Defined.

(** ** Cleaning *)

Lemma unique_urls_all_minimal (l : list LinkRow) (r : LinkRow) :
  NoDup (map row_url l) -> In r l -> is_min_id_for_url l r = true.
Proof.
  intros Hnd Hr. unfold is_min_id_for_url. apply forallb_forall.
  intros r' Hr'. destruct (String.eqb (row_url r') (row_url r)) eqn:E;
    [|reflexivity].
  apply String.eqb_eq in E.
  rewrite (NoDup_map_inj row_url l r' r Hnd Hr' Hr E).
  cbn [negb orb]. apply Z.leb_refl.
Qed.

Lemma unique_urls_nothing_deleted (l : list LinkRow) :
  NoDup (map row_url l) ->
  filter (is_min_id_for_url l) l = l /\
  filter (fun r => negb (is_min_id_for_url l r)) l = [].
Proof.
  intros Hnd.
  assert (H : forall l0, incl l0 l ->
              filter (is_min_id_for_url l) l0 = l0 /\
              filter (fun r => negb (is_min_id_for_url l r)) l0 = []).
  { induction l0 as [|r l0 IH]; intros Hincl; [split; reflexivity|].
    cbn [filter].
    rewrite (unique_urls_all_minimal l r Hnd (Hincl r (or_introl eq_refl))).
    cbn [negb].
    destruct (IH (fun x Hx => Hincl x (or_intror Hx))) as [-> ->].
    split; reflexivity. }
  apply H, incl_refl.
Qed.

(** On a store whose URLs are distinct the DELETE statement of
    [clean_database] finds nothing to delete, whatever fails. *)
Lemma clean_database_disk :
  forall (backup_file : bool) (w : World),
    NoDup (urls (disk w)) ->
    disk (snd (clean_database backup_file w)) = disk w.
Proof.
  intros backup_file w Hnd.
  destruct (unique_urls_nothing_deleted _ Hnd) as [Hkept Hdel].
  destruct w as [[l ty sq] fs op el su]. cbn [disk links urls] in *.
  unfold clean_database, optimize_database, run_in_frame, try_except,
    delete_duplicates, get_connection, commit, close, with_open_conn,
    update_daily_stats, fail_if_fault, fault, log_error,
    bind, ret, raise, get_world, put_world, get_conn, put_conn.
  destruct backup_file; [|reflexivity].
  reduce_frame.
  crunch; rewrite ?Hkept in *; try reflexivity.
  all: exfalso;
    match goal with
    | H : existsb _ _ = true |- _ =>
        rewrite Hdel in H; clear -H;
        induction ty as [|x ty IH]; cbn in H; [discriminate | exact (IH H)]
    end.
Qed.

(** X15. On a store whose URLs are distinct, which is what [save_link]
    maintains, [clean_database] deletes no link and no Telegram type:
    with or without a backup, and whatever fails, the [links] and
    [telegram_types] tables are the same afterwards.  The [daily_stats]
    table is another matter: with a backup and no failure,
    [optimize_database] has [update_daily_stats] rewrite it once. *)
Theorem clean_database_keeps_unique_store :
  forall (backup_file : bool) (w : World),
    NoDup (urls (disk w)) ->
    let w' := snd (clean_database backup_file w) in
    links (disk w') = links (disk w) /\
    telegram_types (disk w') = telegram_types (disk w) /\
    (backup_file = true -> faults w = [] ->
     stats_updates w' = S (stats_updates w)).
Proof.
  intros backup_file w Hnd w'.
  pose proof (clean_database_disk backup_file w Hnd) as Hdisk.
  fold w' in Hdisk. rewrite Hdisk.
  split; [reflexivity|]. split; [reflexivity|].
  intros -> Hf. unfold w'. clear w' Hdisk.
  destruct (unique_urls_nothing_deleted _ Hnd) as [Hkept Hdel].
  destruct w as [[l ty sq] fs op el su].
  cbn [disk links urls faults] in *. subst fs.
  assert (Hty : existsb
                  (fun ty0 : Z * string =>
                     existsb (fun r => Z.eqb (row_id r) (fst ty0)) []) ty
                = false)
    by (clear; induction ty as [|x ty IH]; [reflexivity | exact IH]).
  unfold clean_database, optimize_database, run_in_frame, try_except,
    delete_duplicates, get_connection, commit, close, with_open_conn,
    update_daily_stats, fail_if_fault, fault, log_error,
    bind, ret, raise, get_world, put_world, get_conn, put_conn.
  reduce_frame. rewrite Hdel, Hty. reflexivity.
Qed.

Lemma clean_database_keeps_unique_store_witness :
  links (disk (snd (clean_database true
                      (with_faults [false; false; true] two_links))))
  = links (disk two_links) /\
  stats_updates (snd (clean_database true two_links)) = 1.
Proof.
  assert (H : NoDup (urls (disk two_links))).
  { unfold urls. simpl. repeat constructor; simpl; intuition discriminate. }
  split.
  - exact (proj1 (clean_database_keeps_unique_store
                    true (with_faults [false; false; true] two_links) H)).
  - exact (proj2 (proj2 (clean_database_keeps_unique_store true two_links H))
                 eq_refl eq_refl).
Defined.

End StoreFacts.

(* ====================================================================== *)
(** * The file extractor: cache round trips, skipped attachments,
      statistics *)
(* ====================================================================== *)

Module FileFacts.
Import PyStr Telethon LinkUtils FileExtractors CacheRuns CacheFacts FileRuns.
Import FileExtractorFacts FileStatistics.

(** ** The cache *)

Lemma timestamp_of_dict_set_same (k : string) (e : CacheEntry) (c : Cache) :
  timestamp_of (dict_set k e c) k = timestamp e.
Proof.
  induction c as [|[k' e'] c IH]; cbn [dict_set timestamp_of].
  - rewrite String.eqb_refl. reflexivity.
  - destruct (String.eqb k' k) eqn:E; cbn [timestamp_of].
    + rewrite String.eqb_refl. reflexivity.
    + rewrite E. exact IH.
Qed.

Lemma timestamp_of_dict_set_other (k k0 : string) (e : CacheEntry) (c : Cache) :
  k0 <> k -> In k0 (keys c) ->
  timestamp_of (dict_set k e c) k0 = timestamp_of c k0.
Proof.
  intros Hne. induction c as [|[k' e'] c IH]; cbn [dict_set timestamp_of keys map fst In].
  - contradiction.
  - intros Hin. destruct (String.eqb k' k) eqn:E.
    + apply String.eqb_eq in E. subst k'. cbn [timestamp_of].
      destruct (String.eqb k k0) eqn:E0.
      * apply String.eqb_eq in E0. congruence.
      * reflexivity.
    + cbn [timestamp_of]. destruct (String.eqb k' k0) eqn:E0; [reflexivity|].
      apply IH. destruct Hin as [Hin | Hin]; [|exact Hin].
      subst k'. rewrite String.eqb_refl in E0. discriminate.
Qed.

(** X16. Round trip of the cache: an identifier just recorded is
    reported as already processed, under any hash asked for, and carries
    the time of the recording; after [clear_file_cache] it is unknown
    again. *)
Theorem record_then_seen :
  forall (file_identifier file_hash other_hash : string) (found : nat)
         (now : Z) (c : Cache),
    let c' := add_to_processed_cache file_identifier file_hash found now c in
    is_file_already_processed file_identifier other_hash c' = true /\
    timestamp_of c' file_identifier = now /\
    is_file_already_processed file_identifier other_hash (clear_file_cache c')
    = false.
Proof.
  intros file_identifier file_hash other_hash found now c c'.
  split; [|split].
  - unfold is_file_already_processed.
    replace (dict_mem file_identifier c') with true; [reflexivity|].
    symmetry. apply dict_mem_In. apply add_to_processed_cache_In.
  - unfold c'. rewrite add_to_processed_cache_eq.
    apply timestamp_of_dict_set_same.
  - reflexivity.
Qed.




(** ** Attachments that are not read *)

(** X18. An attachment of more than 50 MB yields no link and leaves the
    extractor's state as it was: nothing is downloaded and nothing is
    recorded, so the same attachment is looked at again next time. *)
Theorem oversized_attachment_skipped :
  forall (env : Env) (message : Message) (f : File) (st : FileState),
    file message = Some f ->
    (MAX_FILE_SIZE < file_size f)%Z ->
    extract_links_from_file env message st = ([], st).
Proof.
  intros env message f st Hf Hsize. unfold extract_links_from_file.
  rewrite Hf.
  destruct (negb (is_file_supported _ _)); [reflexivity|].
  destruct (get_file_identifier f) as [file_identifier original_filename].
  destruct (is_empty file_identifier); [reflexivity|].
  destruct (is_file_already_processed _ _ _); [reflexivity|].
  unfold download_file_with_progress.
  replace (MAX_FILE_SIZE <? file_size f)%Z with true
    by (symmetry; apply Z.ltb_lt; exact Hsize).
  reflexivity.
Qed.

Lemma oversized_attachment_skipped_witness :
  extract_links_from_file rtf_env big_message (mkFileState [] 1700000000 [])
  = ([], mkFileState [] 1700000000 []).
Proof.
  apply (oversized_attachment_skipped rtf_env big_message big_file).
  - reflexivity.
  - reflexivity.
Defined.

(** X19. An attachment that is supported by its extension or MIME type
    but has no scanner of its own (rich text, OpenDocument) yields no
    link, whatever its content; when it is not cached, not oversized and
    the download succeeds, it is downloaded and recorded all the same. *)
Theorem no_scanner_no_links :
  forall (env : Env) (message : Message) (f : File) (st : FileState),
    file message = Some f ->
    has_scanner f = false ->
    fst (extract_links_from_file env message st) = [] /\
    (supported f = true -> cached f st = false ->
     (file_size f <= MAX_FILE_SIZE)%Z ->
     forall content, download_media env message = Some content ->
       download_log (snd (extract_links_from_file env message st))
       = msg_id message :: download_log st /\
       cached f (snd (extract_links_from_file env message st)) = true).
Proof.
  intros env message f st Hf Hs.
  unfold has_scanner in Hs. cbn [existsb] in Hs.
  rewrite !Bool.orb_false_r in Hs.
  repeat match type of Hs with
         | (_ || _) = false => apply Bool.orb_false_iff in Hs;
                               let H := fresh "H" in destruct Hs as [Hs H]
         end.
  repeat match goal with
         | H : (_ || _) = false |- _ =>
             apply Bool.orb_false_iff in H;
             let H' := fresh "H" in destruct H as [H H']
         end.
  split.
  - unfold extract_links_from_file. rewrite Hf.
    destruct (negb (is_file_supported _ _)); [reflexivity|].
    destruct (get_file_identifier f) as [file_identifier original_filename].
    destruct (is_empty file_identifier); [reflexivity|].
    destruct (is_file_already_processed _ _ _); [reflexivity|].
    destruct (download_file_with_progress env message f st) as [[content|] st1];
      [|reflexivity].
    destruct (negb (is_empty (get_file_hash env content)) && _); [reflexivity|].
    cbn [fst].
    rewrite Hs.
    repeat match goal with
           | H : String.eqb _ _ = false |- _ => rewrite H; clear H
           end.
    reflexivity.
  - intros Hsup Hc Hsize content Hd.
    unfold supported, cached in *.
    pose proof (identifier_not_empty f) as Hne. unfold identifier_of in *.
    unfold extract_links_from_file.
    rewrite Hf, Hsup. simpl negb. cbv iota.
    destruct (get_file_identifier f) as [file_identifier original_filename].
    simpl fst in *. rewrite Hne.
    unfold is_file_already_processed, download_file_with_progress.
    rewrite Hc.
    replace (MAX_FILE_SIZE <? file_size f)%Z with false
      by (symmetry; apply Z.ltb_ge; exact Hsize).
    rewrite Hd. cbn [_processed_files clock download_log].
    rewrite Hc, Bool.andb_false_r.
    cbn [snd _processed_files clock download_log].
    split; [reflexivity|].
    apply dict_mem_In, add_to_processed_cache_In.
Qed.

Lemma no_scanner_no_links_witness :
  let out := extract_links_from_file rtf_env rtf_message
                                     (mkFileState [] 1700000000 []) in
  fst out = [] /\
  download_log (snd out) = [4%Z] /\
  cached rtf_file (snd out) = true.
Proof.
  cbv zeta.
  destruct (no_scanner_no_links rtf_env rtf_message rtf_file
              (mkFileState [] 1700000000 []) eq_refl eq_refl) as [H1 H2].
  split; [exact H1|].
  refine (H2 eq_refl eq_refl _ "https://chat.whatsapp.com/BBB" eq_refl).
  vm_compute. discriminate.
Defined.

(** ** Statistics *)






End FileFacts.

(* ====================================================================== *)
(** * The pipeline as a whole: what a backfill can do to the store *)
(* ====================================================================== *)

Module PipelineFacts.
Import PyStr Telethon LinkUtils Database FileExtractors Collector.
Import DatabaseRuns DatabaseFacts LinkUtilsFacts CollectorFacts Scenarios.
Import DatabaseQueries PolicyPredicates ExtractorFacts StoreFacts.
Import PipelineInvariants.

(** ** The store holds policy-accepted WhatsApp links only *)

Lemma whatsapp_is_group (url chat_type : string) :
  filter_and_classify_link url = Some ("whatsapp", chat_type) ->
  chat_type = "group".
Proof.
  unfold filter_and_classify_link, classify_telegram_link,
    classify_whatsapp_link.
  repeat match goal with
         | |- context [if ?b then _ else _] => destruct b
         end;
    intros H; inversion H; reflexivity.
Qed.

Lemma same_but_db_refl (st : State) : same_but_db st st.
Proof. unfold same_but_db. destruct st; reflexivity. Qed.

Lemma same_but_db_trans (a b c : State) :
  same_but_db a b -> same_but_db b c -> same_but_db a c.
Proof.
  unfold same_but_db. intros H1 H2. rewrite H2, H1.
  destruct a; reflexivity.
Qed.

Lemma set_db_same (w : World) (st : State) : same_but_db st (set_db w st).
Proof. unfold same_but_db. destruct st; reflexivity. Qed.

Local Ltac unchanged :=
  cbn [fst snd cret];
  split; [apply same_but_db_refl | split; [reflexivity | auto]].

(** One step of the loop over links, whether it returns or raises: the
    process state is untouched, no Telegram type is written, and the
    store stays policy-accepted. *)
Lemma process_link_step
      (link : string) (message : Message) (account_name : string)
      (message_date : datetime) (source_type : string) (st : State) :
  let out := process_link link message account_name message_date
                          source_type st in
  same_but_db st (snd out) /\
  telegram_types (disk (db (snd out))) = telegram_types (disk (db st)) /\
  (store_accepted (disk (db st)) -> store_accepted (disk (db (snd out)))).
Proof.
  cbv zeta.
  destruct (filter_and_classify_link link) as [[platform chat_type]|] eqn:Hc.
  - destruct (String.eqb platform "whatsapp") eqn:Hp.
    + apply String.eqb_eq in Hp. subst platform.
      pose proof (whatsapp_is_group link chat_type Hc) as ->.
      unfold process_link. rewrite Hc. cbn [String.eqb Ascii.eqb Bool.eqb].
      change (("whatsapp" =? "whatsapp")%string) with true. cbv iota.
      destruct (is_within_last_60_days (now st) message_date) as [[|]|e];
        [|unchanged|unchanged].
      * unfold call_save_link.
        pose proof (save_link_outcome (Some link) "whatsapp" account_name
                      "group" (str_of_Z (chat_id message))
                      (Some (instant message_date)) (Some source_type)
                      (db st))
          as [_ [_ Hout]].
        destruct (save_link (Some link) "whatsapp" account_name "group"
                            (str_of_Z (chat_id message))
                            (Some (instant message_date))
                            (Some source_type) (db st)) as [r w'].
        cbn [fst snd] in *.
        split; [apply set_db_same|].
        assert (Hdb : db (set_db w' st) = w') by (destruct st; reflexivity).
        rewrite Hdb.
        destruct Hout as [H | [u [Hu [Hne [Hex [H _]]]]]]; rewrite H.
        -- split; [reflexivity | auto].
        -- inversion Hu; subst u. unfold with_new_link.
           cbn [telegram_types links startswith Ascii.eqb Bool.eqb andb].
           change (startswith "telegram_" "whatsapp") with false. cbv iota.
           split; [apply app_nil_r|].
           intros [Hall Hnd]. split.
           ++ cbn [links]. apply Forall_app. split; [exact Hall|].
              constructor; [|constructor].
              unfold row_accepted. cbn [row_platform row_chat_type row_url].
              auto.
           ++ unfold urls. cbn [links]. rewrite map_app. simpl.
              apply NoDup_app; [exact Hnd | repeat constructor; simpl; tauto|].
              intros a Ha [E | []]. subst a.
              exact (existsb_url_In _ _ Hex Ha).
    + assert (Hne : platform <> "whatsapp")
        by (intros ->; rewrite String.eqb_refl in Hp; discriminate).
      rewrite (process_link_saves_only_whatsapp link message account_name
                 message_date source_type platform chat_type st Hc Hne).
      unchanged.
  - unfold process_link. rewrite Hc. unchanged.
Qed.

Lemma keeps_cret {A} (a : A) : keeps (cret a).
Proof. intros st. split; [reflexivity | auto]. Qed.

Lemma keeps_cbind {A B} (m : C A) (k : A -> C B) :
  keeps m -> (forall a, keeps (k a)) -> keeps (cbind m k).
Proof.
  intros Hm Hk st. unfold cbind.
  destruct (Hm st) as [Ht Hs].
  destruct (m st) as [[a|e] st1]; cbn [snd] in *.
  - destruct (Hk a st1) as [Ht' Hs'].
    split; [rewrite Ht', Ht; reflexivity | auto].
  - split; [exact Ht | exact Hs].
Qed.

Lemma keeps_for_each {X} (l : list X) (body : X -> C unit) :
  (forall x, keeps (body x)) -> keeps (for_each l body).
Proof.
  intros Hb. induction l as [|x l IH]; simpl.
  - apply keeps_cret.
  - apply keeps_cbind; [apply Hb | intros _; exact IH].
Qed.

Lemma keeps_lift (f : State -> State) :
  (forall st, db (f st) = db st) -> keeps (lift f).
Proof.
  intros Hf st. unfold lift. cbn [snd]. rewrite Hf.
  split; [reflexivity | auto].
Qed.

Lemma keeps_try_log (body : C unit) (line : string) :
  keeps body -> keeps (try_log body line).
Proof.
  intros Hb st. unfold try_log. destruct (Hb st) as [Ht Hs].
  destruct (body st) as [[a|e] st1]; cbn [snd] in *; [auto|].
  destruct st1; cbn in *. auto.
Qed.

Lemma keeps_process_link
      (link : string) (message : Message) (account_name : string)
      (message_date : datetime) (source_type : string) :
  keeps (process_link link message account_name message_date source_type).
Proof.
  intros st.
  destruct (process_link_step link message account_name message_date
              source_type st) as [_ [Ht Hs]].
  auto.
Qed.

Lemma keeps_process_links_list
      (links : list string) (message : Message)
      (account_name source_type : string) :
  keeps (process_links_list links message account_name source_type).
Proof.
  unfold process_links_list. apply keeps_for_each.
  intros link. apply keeps_process_link.
Qed.

Lemma keeps_extract_comment_links
      (client : Client) (message : Message) (account_name : string) :
  keeps (extract_comment_links client message account_name).
Proof.
  unfold extract_comment_links.
  destruct (replies message) as [r|]; [|apply keeps_cret].
  destruct (comments r && (0 <? replies_count r)%Z); [|apply keeps_cret].
  apply keeps_cbind; [|intros; apply keeps_cret].
  apply keeps_lift. intros st. destruct st; reflexivity.
Qed.

Lemma keeps_process_files
      (client : Client) (message : Message) (account_name : string)
      (message_date : datetime) :
  keeps (process_files client message account_name message_date).
Proof.
  unfold process_files.
  destruct (file message) as [f|]; [|apply keeps_cret].
  apply keeps_try_log. intros st.
  destruct (mem (collector_file_id f) (Collector._processed_files st));
    [cbn [snd]; auto|].
  destruct (extract_links_from_file _ _ _) as [file_links fs].
  match goal with
  | |- context [for_each ?l ?b ?s] =>
      destruct (keeps_for_each l b
                  (fun link => keeps_process_link link message account_name
                                                  message_date "file") s)
        as [Ht Hs]
  end.
  split.
  - rewrite Ht. destruct st; reflexivity.
  - intros H. apply Hs. destruct st; exact H.
Qed.

Lemma keeps_process_message
      (message : Message) (account_name : string) (client : Client) :
  keeps (process_message message account_name client).
Proof.
  unfold process_message.
  destruct (negb (truthy (text message))); [apply keeps_cret|].
  repeat (apply keeps_cbind; [|intros]);
    auto using keeps_process_links_list, keeps_extract_comment_links,
      keeps_process_files.
Qed.

Lemma keeps_read_history
      (messages : list Message) (account_name : string) (client : Client) :
  keeps (read_history messages account_name client).
Proof.
  induction messages as [|m rest IH]; simpl; [apply keeps_cret|].
  intros st. destruct (negb (_collecting st)); [cbn [snd]; auto|].
  apply (keeps_cbind _ _ (keeps_process_message m account_name client)
                     (fun _ => IH)).
Qed.

Lemma keeps_collect_dialogs
      (ds : list Dialog) (account_name : string) (client : Client) :
  keeps (collect_dialogs ds account_name client).
Proof.
  induction ds as [|d rest IH]; simpl; [apply keeps_cret|].
  intros st.
  match goal with
  | |- context [cbind ?m ?k st] =>
      assert (Hb : keeps (cbind m k))
  end.
  { apply keeps_cbind; [apply keeps_read_history|].
    intros stopped. destruct stopped; [apply keeps_cret|].
    destruct (history_fails d); [|apply keeps_cret].
    intros s. cbn [snd]. auto. }
  destruct (Hb st) as [Ht Hs].
  match goal with
  | |- context [match ?x with _ => _ end] => destruct x as [[[|]|e] st1]
  end; cbn [snd] in *.
  - auto.
  - destruct (IH st1) as [Ht' Hs']. split; [congruence | auto].
  - destruct (IH (log_error "Error reading dialog" st1)) as [Ht' Hs'].
    assert (Hdb : db (log_error "Error reading dialog" st1) = db st1)
      by (destruct st1; reflexivity).
    rewrite Hdb in *. split; [congruence | auto].
Qed.

(** X21. Whatever the conversations of an account contain, and whatever
    fails in the database, a backfill leaves a store of policy-accepted
    WhatsApp group links without duplicates in that condition, and writes
    no Telegram type: nothing but WhatsApp group links enters the store
    through the pipeline. *)
Theorem backfill_keeps_store_accepted :
  forall (client : Client) (account_name : string) (st : State),
    store_accepted (disk (db st)) ->
    let st' := snd (collect_old_messages client account_name st) in
    store_accepted (disk (db st')) /\
    telegram_types (disk (db st')) = telegram_types (disk (db st)).
Proof.
  intros client account_name st H. cbv zeta.
  destruct (keeps_collect_dialogs (dialogs client) account_name client st)
    as [Ht Hs].
  split; [apply Hs, H | exact Ht].
Qed.

Lemma backfill_keeps_store_accepted_witness :
  store_accepted (disk (db after_backfill)) /\
  telegram_types (disk (db after_backfill)) = [].
Proof.
  apply (backfill_keeps_store_accepted scenario_client "account"
           (fresh_state true)).
  split; constructor.
Defined.

(** X28. The Telegram listing stays empty: after a backfill on a store
    without Telegram types, [get_links_by_telegram_type] returns the empty
    list for every type, limit and offset, whatever the conversations
    contain and whatever fails. *)
Theorem telegram_listing_empty_after_backfill :
  forall (client : Client) (account_name telegram_type : string)
         (limit offset : Z) (st : State),
    telegram_types (disk (db st)) = [] ->
    fst (get_links_by_telegram_type telegram_type limit offset
           (db (snd (collect_old_messages client account_name st))))
    = Ret [].
Proof.
  intros client account_name telegram_type limit offset st H.
  destruct (keeps_collect_dialogs (dialogs client) account_name client st)
    as [Ht _].
  rewrite H in Ht.
  destruct (telegram_listing_outcome telegram_type limit offset
              (db (snd (collect_old_messages client account_name st))))
    as [_ [Hout | Hout]]; cbv zeta in *; rewrite Hout; [reflexivity|].
  unfold select_links_by_telegram_type.
  rewrite (no_types_no_join _ _ Ht).
  unfold sql_limit. cbn [order_by_date_desc fold_right].
  rewrite skipn_nil. destruct (limit <? 0)%Z; [reflexivity|].
  rewrite firstn_nil. reflexivity.
Qed.

Lemma telegram_listing_empty_after_backfill_witness :
  fst (get_links_by_telegram_type "invite_with_plus" 50 0 (db after_backfill))
  = Ret [].
Proof.
  exact (telegram_listing_empty_after_backfill
           scenario_client "account" "invite_with_plus" 50 0
           (fresh_state true) eq_refl).
Defined.

(** ** A stopped collector *)

Lemma read_history_stopped
      (messages : list Message) (account_name : string) (client : Client)
      (st : State) :
  _collecting st = false ->
  snd (read_history messages account_name client st) = st.
Proof.
  intros H. destruct messages as [|m rest]; [reflexivity|].
  cbn [read_history]. rewrite H. reflexivity.
Qed.

Lemma log_error_collecting (line : string) (st : State) :
  _collecting (Collector.log_error line st) = _collecting st.
Proof. destruct st; reflexivity. Qed.

(** X22. While collection is switched off a backfill reads no message:
    the store, the file extractor's state, the set of processed files and
    the count of replies examined are as before, and collection stays
    off. *)
Theorem backfill_while_stopped :
  forall (client : Client) (account_name : string) (st : State),
    _collecting st = false ->
    let st' := snd (collect_old_messages client account_name st) in
    db st' = db st /\ files st' = files st /\
    Collector._processed_files st' = Collector._processed_files st /\
    replies_examined st' = replies_examined st /\
    _collecting st' = false.
Proof.
  intros client account_name. unfold collect_old_messages.
  induction (dialogs client) as [|d rest IH]; intros st H; cbv zeta.
  - cbn. auto.
  - cbn [collect_dialogs]. unfold cbind.
    pose proof (read_history_stopped (history d) account_name client st H) as Hr.
    destruct (read_history (history d) account_name client st) as [[stopped|e] st1];
      cbn [snd] in Hr; subst st1.
    + destruct stopped; [cbn; auto|].
      destruct (history_fails d).
      * cbn [snd]. 
        assert (Hc : _collecting (Collector.log_error "Error reading dialog" st) = false)
          by (rewrite log_error_collecting; exact H).
        destruct (IH _ Hc) as (H1 & H2 & H3 & H4 & H5).
        cbv zeta in *. rewrite H1, H2, H3, H4, H5.
        destruct st; cbn. auto.
      * cbn [cret snd]. apply (IH st H).
    + assert (Hc : _collecting (Collector.log_error "Error reading dialog" st) = false)
        by (rewrite log_error_collecting; exact H).
      destruct (IH _ Hc) as (H1 & H2 & H3 & H4 & H5).
      cbv zeta in *. rewrite H1, H2, H3, H4, H5.
      destruct st; cbn. auto.
Qed.

Lemma backfill_while_stopped_witness :
  db (snd (collect_old_messages scenario_client "account"
             (stop_collection (fresh_state true))))
  = db (fresh_state true).
Proof.
  exact (proj1 (backfill_while_stopped scenario_client "account"
                  (stop_collection (fresh_state true)) eq_refl)).
Defined.

(** ** The sixty-day window *)

Lemma classified_not_empty (link : string) (r : string * string) :
  filter_and_classify_link link = Some r -> is_empty link = false.
Proof. destruct link; [discriminate | reflexivity]. Qed.

(** X23. The date filter on WhatsApp links.  For a link the policy
    classifies as a WhatsApp group: when the date of the message is
    aware, as the protocol client delivers it, the comparison with the
    naive cutoff raises [TypeError], which [process_link] lets through,
    and nothing is stored; when the date is naive, a date sixty days old
    or older changes nothing, and a younger one, with no failure and the
    link not yet stored, appends exactly the row of the link with the
    account, the chat, the date of the message and the kind of source. *)
Theorem whatsapp_sixty_day_window :
  forall (link : string) (message : Message) (account_name : string)
         (message_date : datetime) (source_type : string) (st : State),
    filter_and_classify_link link = Some ("whatsapp", "group") ->
    (aware message_date = true ->
     process_link link message account_name message_date source_type st
     = (Raise Database.TypeError, st)) /\
    (aware message_date = false ->
     (instant message_date <= now st - 60 * 86400)%Z ->
     process_link link message account_name message_date source_type st
     = (Ret tt, st)) /\
    (aware message_date = false ->
     (now st - 60 * 86400 < instant message_date)%Z ->
     faults (db st) = [] ->
     rows_for link (disk (db st)) = 0 ->
     links (disk (db (snd (process_link link message account_name
                                        message_date source_type st))))
     = links (disk (db st))
         ++ [mkRow (seq (disk (db st)) + 1) link "whatsapp" account_name
                   "group" (str_of_Z (chat_id message))
                   (Some (instant message_date)) (Some source_type)]).
Proof.
  intros link message account_name message_date source_type st Hc.
  unfold process_link. rewrite Hc.
  change (("whatsapp" =? "whatsapp")%string) with true. cbv iota.
  unfold is_within_last_60_days. cbn [instant naive].
  split; [|split].
  - intros ->. reflexivity.
  - intros -> Hold.
    replace (now st - 60 * 86400 <? instant message_date)%Z with false
      by (symmetry; apply Z.ltb_ge; exact Hold).
    reflexivity.
  - intros -> Hnew Hf H0.
    replace (now st - 60 * 86400 <? instant message_date)%Z with true
      by (symmetry; apply Z.ltb_lt; exact Hnew).
    unfold call_save_link.
    pose proof (save_link_fresh link "whatsapp" account_name "group"
                  (str_of_Z (chat_id message))
                  (Some (instant message_date))
                  (Some source_type) (db st)
                  (classified_not_empty _ _ Hc) Hf
                  (rows_for_existsb _ _ H0)) as Hs.
    destruct (save_link (Some link) "whatsapp" account_name "group"
                        (str_of_Z (chat_id message))
                        (Some (instant message_date))
                        (Some source_type) (db st)) as [r w'].
    cbn [snd] in *. destruct st; exact Hs.
Qed.

Lemma whatsapp_sixty_day_window_witness :
  process_link "https://chat.whatsapp.com/BBB" message2 "account"
               (date message2) "button" (fresh_state true)
  = (Raise Database.TypeError, fresh_state true) /\
  links (disk (db (snd (process_link "https://chat.whatsapp.com/BBB"
                                     (with_naive_date message2) "account"
                                     (date (with_naive_date message2))
                                     "button" (fresh_state true)))))
  = [mkRow 1 "https://chat.whatsapp.com/BBB" "whatsapp" "account" "group"
           "77" (Some (clock0 - 10 * day)%Z) (Some "button")].
Proof.
  split.
  - exact (proj1 (whatsapp_sixty_day_window
                    "https://chat.whatsapp.com/BBB" message2 "account"
                    (date message2) "button" (fresh_state true) eq_refl)
                 eq_refl).
  - refine (proj2 (proj2 (whatsapp_sixty_day_window
                            "https://chat.whatsapp.com/BBB"
                            (with_naive_date message2) "account"
                            (date (with_naive_date message2)) "button"
                            (fresh_state true) eq_refl))
                  eq_refl _ _ _).
    + reflexivity.
    + reflexivity.
    + reflexivity.
Defined.

(** ** Files are told apart by name and size *)

Lemma for_each_process_link_frame
      (links : list string) (message : Message) (account_name : string)
      (message_date : datetime) (source_type : string) :
  forall st,
    same_but_db st
      (snd (for_each links
              (fun link => process_link link message account_name
                                        message_date source_type) st)).
Proof.
  induction links as [|link rest IH]; intros st; cbn [for_each].
  - apply same_but_db_refl.
  - unfold cbind.
    destruct (process_link_step link message account_name message_date
                source_type st) as [Hsame _].
    destruct (process_link link message account_name message_date
                           source_type st) as [[[]|e] st1];
      cbn [fst snd] in *; [|exact Hsame].
    exact (same_but_db_trans _ _ _ Hsame (IH st1)).
Qed.

Lemma same_but_db_processed (st st' : State) :
  same_but_db st st' ->
  Collector._processed_files st' = Collector._processed_files st /\
  files st' = files st.
Proof. unfold same_but_db. intros ->. destruct st; cbn. auto. Qed.

Lemma process_files_marks
      (client : Client) (message : Message) (f : File)
      (account_name : string) (message_date : datetime) (st : State) :
  file message = Some f ->
  mem (collector_file_id f)
      (Collector._processed_files
         (snd (process_files client message account_name message_date st)))
  = true.
Proof.
  intros Hf. unfold process_files, try_log. rewrite Hf.
  destruct (mem (collector_file_id f) (Collector._processed_files st)) eqn:E;
    [cbn [snd]; exact E|].
  destruct (extract_links_from_file _ _ _) as [file_links fs].
  match goal with
  | |- context [for_each ?l ?b ?s] =>
      pose proof (for_each_process_link_frame l message account_name
                    message_date "file" s) as Hframe;
      destruct (for_each l b s) as [[[]|e] st1]
  end; cbn [snd] in *;
    apply same_but_db_processed in Hframe; destruct Hframe as [Hp _].
  - rewrite Hp. destruct st; cbn. apply set_add_mem.
  - destruct st1; cbn in *. rewrite Hp. destruct st; cbn. apply set_add_mem.
Qed.

(** X24. The collector tells attachments apart by name and size only:
    once [process_files] has handled a message with an attachment, a later
    message whose attachment has the same name and size is skipped
    without a download and without a change of state, whoever sent it and
    whatever it contains. *)
Theorem same_name_and_size_scanned_once :
  forall (client client' : Client) (message message' : Message) (f f' : File)
         (account_name account_name' : string)
         (message_date message_date' : datetime)
         (st : State),
    file message = Some f ->
    file message' = Some f' ->
    collector_file_id f' = collector_file_id f ->
    let st1 := snd (process_files client message account_name message_date st) in
    process_files client' message' account_name' message_date' st1
    = (Ret tt, st1).
Proof.
  intros client client' message message' f f' account_name account_name'
         message_date message_date' st Hf Hf' Hid st1.
  pose proof (process_files_marks client message f account_name message_date
                st Hf) as Hm.
  fold st1 in Hm. unfold process_files, try_log. rewrite Hf', Hid, Hm.
  reflexivity.
Qed.

Lemma same_name_and_size_scanned_once_witness :
  let st1 := snd (process_files scenario_client message3 "account"
                                (date message3) (fresh_state true)) in
  process_files scenario_client reposted "other" (date reposted) st1
  = (Ret tt, st1).
Proof.
  exact (same_name_and_size_scanned_once
           scenario_client scenario_client message3 reposted
           (mkFile "f3" 24 (Some "links.txt") (Some "text/plain"))
           (mkFile "f9" 24 (Some "links.txt") (Some "application/pdf"))
           "account" "other" (date message3) (date reposted)
           (fresh_state true) eq_refl eq_refl eq_refl).
Defined.

(** ** The capped comment extractor *)

Lemma add_valid_links_NoDup (found links : list string) :
  NoDup links -> NoDup (add_valid_links links found).
Proof.
  unfold add_valid_links. revert links.
  induction found as [|link found IH]; intros links H; cbn [fold_left];
    [exact H|].
  destruct (is_valid_link_for_extraction link);
    [apply IH, set_add_NoDup, H | apply IH, H].
Qed.

Lemma add_all_valid_links_NoDup (subs : list Message) (links : list string) :
  NoDup links ->
  NoDup (fold_left
           (fun acc sub_reply =>
              add_valid_links acc (extract_links_from_message sub_reply))
           subs links).
Proof.
  revert links. induction subs as [|m subs IH]; intros links H;
    cbn [fold_left]; [exact H|].
  apply IH, add_valid_links_NoDup, H.
Qed.

Lemma count_replies_twice (m n : nat) (st : State) :
  count_replies m (count_replies n st) = count_replies (m + n) st.
Proof.
  unfold count_replies. cbn. rewrite Nat.add_assoc. reflexivity.
Qed.

Lemma count_replies_none (st : State) : count_replies 0 st = st.
Proof. destruct st; reflexivity. Qed.

Lemma scan_comment_only_reads (client : Client) (peer : Z)
      (links : list string) (reply : Message) (st : State) :
  NoDup links ->
  exists links' n,
    scan_comment client peer links reply st = (Ret links', count_replies n st)
    /\ n <= 50 /\ NoDup links'.
Proof.
  intros H. unfold scan_comment.
  pose proof (add_valid_links_NoDup (extract_links_from_message reply) links H)
    as H1.
  destruct (has_sub_replies reply).
  - eexists. exists (List.length (iter_messages client peer (msg_id reply)
                                                 (Some 50))).
    split; [reflexivity|].
    split; [apply iter_messages_limit | apply add_all_valid_links_NoDup, H1].
  - eexists. exists 0. rewrite count_replies_none.
    split; [reflexivity | split; [lia | exact H1]].
Qed.

Lemma scan_comments_only_reads (client : Client) (peer : Z)
      (top : list Message) :
  forall (links : list string) (st : State),
    NoDup links ->
    exists links' n,
      scan_comments client peer top links st
      = (Ret links', count_replies n st)
      /\ n <= 50 * List.length top /\ NoDup links'.
Proof.
  induction top as [|reply rest IH]; intros links st H.
  - exists links, 0. rewrite count_replies_none.
    split; [reflexivity | split; [lia | exact H]].
  - cbn [scan_comments]. unfold cbind.
    destruct (scan_comment_only_reads client peer links reply st H)
      as [links1 [n1 [E1 [Hn1 Hd1]]]].
    rewrite E1.
    destruct (IH links1 (count_replies n1 st) Hd1)
      as [links2 [n2 [E2 [Hn2 Hd2]]]].
    rewrite E2, count_replies_twice.
    exists links2, (n2 + n1).
    split; [reflexivity | split; [cbn [List.length]; lia | exact Hd2]].
Qed.

(** X25. The capped comment extractor only reads: for every message and
    every thread it returns a list of pairwise distinct links and changes
    nothing but the count of replies it was handed, which grows by no
    more than 100 comments and 50 replies to each. *)
Theorem capped_comment_extractor_only_reads :
  forall (client : Client) (message : Message) (account_name : string)
         (message_date : datetime) (st : State),
  exists links n,
    extract_comments_links client message account_name message_date st
    = (Ret links, count_replies n st)
    /\ n <= 100 + 100 * 50 /\ NoDup links.
Proof.
  intros client message account_name message_date st.
  assert (Hnone : exists (links : list string) n,
             @cret (list string) [] st = (Ret links, count_replies n st)
             /\ n <= 100 + 100 * 50 /\ NoDup links).
  { exists [], 0. rewrite count_replies_none.
    split; [reflexivity | split; [lia | constructor]]. }
  unfold extract_comments_links.
  destruct (replies message) as [replies_info|]; [|exact Hnone].
  destruct (comments replies_info && (0 <? replies_count replies_info)%Z);
    [|exact Hnone].
  destruct (comments_peer replies_info) as [peer|]; [|exact Hnone].
  cbv zeta. unfold cbind, lift.
  set (top := iter_messages client peer (msg_id message) (Some 100)).
  pose proof (iter_messages_limit client peer (msg_id message) 100) as Htop.
  fold top in Htop.
  destruct (scan_comments_only_reads client peer top []
              (count_replies (List.length top) st) (NoDup_nil _))
    as [links [n [E [Hn Hd]]]].
  rewrite E, count_replies_twice.
  exists links, (n + List.length top).
  split; [reflexivity | split; [nia | exact Hd]].
Qed.

End PipelineFacts.
